(** * findmy-solution-2025: the location trackers and the Flask API

    A shallow embedding of [track_location/track_to_mongodb.py],
    [track_location/track_to_mongodb_docker.py] and [track_location/app.py],
    and of the export of [list_devices/icloud_track.py].

    Python values that flow through the scripts (provider dictionaries,
    MongoDB documents, JSON bodies) are one inductive type.  Dictionaries
    are association lists in insertion order, as Python dicts and BSON
    documents are.  The outside world is given by oracles: the wall clock
    read by [datetime.now()], the clock of the MongoDB server read by
    [$currentDate], and, per loop iteration, what the iCloud provider and
    the MongoDB driver answer (a value or a raised exception).

    A date is a number of whole milliseconds: that is what BSON keeps of
    a [datetime], and the scripts look at no finer part of the creation
    timestamps (they store them and compare them in queries).  A reading
    of a clock is therefore its value in whole milliseconds, and two
    readings less than a millisecond apart can be equal. *)

From Stdlib Require Import List String ZArith QArith Bool Arith Lia.
From Stdlib Require Import Sorted.
Import ListNotations.

Set Warnings "-register-all".

Local Open Scope string_scope.
Local Open Scope list_scope.
Local Open Scope Z_scope.
Local Open Scope nat_scope.

(* ===================================================================== *)
(** ** Python values, dictionaries and exceptions *)
(* ===================================================================== *)

Module Py.

Inductive value : Type :=
| VNone
| VBool (b : bool)
| VInt (z : Z)
| VFloat (q : Q)
| VStr (s : string)
| VList (l : list value)
| VDict (d : list (string * value))
| VDate (t : Z)        (* a [datetime], in whole milliseconds *)
| VOid (n : nat).      (* a BSON [ObjectId] *)

Definition dict : Type := list (string * value).

(** [d.get(k)] seen as an option: [None] when the key is absent. *)
Fixpoint dict_get (k : string) (d : dict) : option value :=
  match d with
  | [] => None
  | (k', v) :: rest => if String.eqb k k' then Some v else dict_get k rest
  end.

(** [d.get(k, default)]. *)
Definition get_default (d : dict) (k : string) (default : value) : value :=
  match dict_get k d with
  | Some v => v
  | None => default
  end.

(** [d.get(k)]: the default is [None]. *)
Definition get (d : dict) (k : string) : value := get_default d k VNone.

(** [d[k] = v]: replaces the value of an existing key in place, appends
    a new key. *)
Fixpoint dict_set (k : string) (v : value) (d : dict) : dict :=
  match d with
  | [] => [(k, v)]
  | (k', v') :: rest =>
      if String.eqb k k' then (k', v) :: rest
      else (k', v') :: dict_set k v rest
  end.

(** Truth value of a Python object, as tested by [if x:] and [not x]. *)
Definition truthy (v : value) : bool :=
  match v with
  | VNone => false
  | VBool b => b
  | VInt z => negb (Z.eqb z 0)
  | VFloat q => negb (Z.eqb (Qnum q) 0)
  | VStr s => negb (String.eqb s EmptyString)
  | VList l => match l with [] => false | _ => true end
  | VDict d => match d with [] => false | _ => true end
  | VDate _ => true
  | VOid _ => true
  end.

(** Structural equality of values. *)
Fixpoint value_eqb (a b : value) : bool :=
  match a, b with
  | VNone, VNone => true
  | VBool x, VBool y => Bool.eqb x y
  | VInt x, VInt y => Z.eqb x y
  | VFloat x, VFloat y =>
      Z.eqb (Qnum x) (Qnum y) && Pos.eqb (Qden x) (Qden y)
  | VStr x, VStr y => String.eqb x y
  | VList x, VList y =>
      (fix go (l1 l2 : list value) : bool :=
         match l1, l2 with
         | [], [] => true
         | u :: l1', w :: l2' => value_eqb u w && go l1' l2'
         | _, _ => false
         end) x y
  | VDict x, VDict y =>
      (fix go (l1 l2 : list (string * value)) : bool :=
         match l1, l2 with
         | [], [] => true
         | (k1, u) :: l1', (k2, w) :: l2' =>
             String.eqb k1 k2 && value_eqb u w && go l1' l2'
         | _, _ => false
         end) x y
  | VDate x, VDate y => Z.eqb x y
  | VOid x, VOid y => Nat.eqb x y
  | _, _ => false
  end.

(** Exceptions: the class and the text that [str(e)] gives. *)
Inductive exn_class : Type :=
| TypeError | ValueError | KeyError | AttributeError | OverflowError
| ProviderError        (* anything raised by the pyicloud client *)
| DriverError          (* anything raised by the pymongo driver *)
| JSONError.

Record exn : Type := Exn { exn_kind : exn_class; exn_str : string }.

(** The outcome of a Python call. *)
Inductive result (A : Type) : Type :=
| Ok (a : A)
| Raise (e : exn).
Arguments Ok {A} a.
Arguments Raise {A} e.

(** [v[k]] for a string [k]; [str(KeyError(k))] shows [k] in quotes. *)
Definition subscript (v : value) (k : string) : result value :=
  match v with
  | VDict d =>
      match dict_get k d with
      | Some x => Ok x
      | None => Raise (Exn KeyError ("'" ++ k ++ "'"))
      end
  | _ => Raise (Exn TypeError "object is not subscriptable")
  end.

(** An [int] that [float()] converts: beyond the range of a double the
    conversion raises.  The greatest double is [2^1024 - 2^971], and
    the conversion rounds to nearest. *)
Definition fits_float (z : Z) : bool :=
  Z.ltb (Z.abs z) (2 ^ 1024 - 2 ^ 970)%Z.

Arguments fits_float : simpl never.

Definition int_too_large : exn :=
  Exn OverflowError "int too large to convert to float".

(** [f"{v:.6f}"].  An [int] is converted to a [float] first.  A
    [datetime] takes the format text as a [strftime] pattern and does
    not raise. *)
Definition format_f (v : value) : result unit :=
  match v with
  | VInt z => if fits_float z then Ok tt else Raise int_too_large
  | VFloat _ | VBool _ | VDate _ => Ok tt
  | VNone =>
      Raise (Exn TypeError
               "unsupported format string passed to NoneType.__format__")
  | VStr _ =>
      Raise (Exn ValueError
               "Unknown format code 'f' for object of type 'str'")
  | VList _ =>
      Raise (Exn TypeError
               "unsupported format string passed to list.__format__")
  | VDict _ =>
      Raise (Exn TypeError
               "unsupported format string passed to dict.__format__")
  | VOid _ =>
      Raise (Exn TypeError
               "unsupported format string passed to ObjectId.__format__")
  end.

(** [f"{v * 100:.0f}"]: the product, then the format.  The product of
    an [int] is an [int], converted to a [float] by the format; that of
    a [float] is a [float], an infinite one included. *)
Definition format_percent (v : value) : result unit :=
  match v with
  | VInt z => if fits_float (z * 100) then Ok tt else Raise int_too_large
  | VFloat _ | VBool _ => Ok tt
  | VNone =>
      Raise (Exn TypeError
               "unsupported operand type(s) for *: 'NoneType' and 'int'")
  | VStr _ =>
      Raise (Exn ValueError
               "Unknown format code 'f' for object of type 'str'")
  | VList _ =>
      Raise (Exn TypeError
               "unsupported format string passed to list.__format__")
  | VDict _ =>
      Raise (Exn TypeError
               "unsupported operand type(s) for *: 'dict' and 'int'")
  | VDate _ =>
      Raise (Exn TypeError
               "unsupported operand type(s) for *: 'datetime.datetime' and 'int'")
  | VOid _ =>
      Raise (Exn TypeError
               "unsupported operand type(s) for *: 'ObjectId' and 'int'")
  end.

(** [type(v).__name__]. *)
Definition type_name (v : value) : string :=
  match v with
  | VNone => "NoneType"
  | VBool _ => "bool"
  | VInt _ => "int"
  | VFloat _ => "float"
  | VStr _ => "str"
  | VList _ => "list"
  | VDict _ => "dict"
  | VDate _ => "datetime.datetime"
  | VOid _ => "ObjectId"
  end.

(** What the scripts do to the outside, in order: the lines they write
    to standard output, their pauses, the thread they start and the
    file they write.  A line whose text depends on data keeps the
    data. *)
Inductive event : Type :=
| Print (text : string)
| PrintError (prefix : string) (e : exn)   (* print(f"<prefix>{e}") *)
| PrintCount (prefix : string) (n : nat)   (* a line reporting a count *)
| PrintTraceback
| Sleep (seconds : Z)                       (* time.sleep(seconds) *)
| StartThread (target : string)   (* threading.Thread(target=..).start() *)
| FileOpened (filename : string)  (* open(filename, 'w'): created or
                                     emptied *)
| FileDumped (filename : string) (data : value)
                                  (* json.dump wrote the whole text *)
| FileDumpedInPart (filename : string).
                                  (* json.dump raised part of the way *)

End Py.

(* ===================================================================== *)
(** ** The MongoDB collection [findmy.device_locations] *)
(* ===================================================================== *)

Module Mongo.
Import Py.

(** Documents in insertion (natural) order, and the counter from which
    the driver draws fresh [ObjectId]s.  A call of the driver either
    takes effect as a whole or raises without effect; which of the two
    is decided by the caller's environment. *)
Record collection : Type := Coll { docs : list dict; next_oid : nat }.

Definition empty : collection := Coll [] 0.

(** The driver adds an [_id] to a document that has none; BSON stores
    it as the first field. *)
Definition with_id (n : nat) (d : dict) : dict :=
  match dict_get "_id" d with
  | Some _ => d
  | None => ("_id", VOid n) :: d
  end.

(** [collection.insert_one(d)], returning [result.inserted_id]. *)
Definition insert_one (c : collection) (d : dict) : collection * value :=
  let d' := with_id (next_oid c) d in
  (Coll (docs c ++ [d']) (S (next_oid c)), get d' "_id").

(** [collection.insert_many(ds)], returning [result.inserted_ids]. *)
Fixpoint insert_many (c : collection) (ds : list dict)
  : collection * list value :=
  match ds with
  | [] => (c, [])
  | d :: rest =>
      let (c1, i) := insert_one c d in
      let (c2, ids) := insert_many c1 rest in
      (c2, i :: ids)
  end.

(** A query [{field: v}]: the field equals [v]; a query for [None] also
    matches a document without the field. *)
Definition matches (field : string) (v : value) (d : dict) : bool :=
  match dict_get field d with
  | Some x => value_eqb x v
  | None => value_eqb VNone v
  end.

(** [update_one({"_id": i}, {"$currentDate": {"timestamp": True}})] at
    server time [now]: the first matching document gets the field. *)
Fixpoint set_current_date (i : value) (now : Z) (ds : list dict)
  : list dict :=
  match ds with
  | [] => []
  | d :: rest =>
      if matches "_id" i d then dict_set "timestamp" (VDate now) d :: rest
      else d :: set_current_date i now rest
  end.

Definition update_one_current_date (c : collection) (i : value) (now : Z)
  : collection :=
  Coll (set_current_date i now (docs c)) (next_oid c).

(** The sort key of [sort=[("timestamp", -1)]].  A document without the
    field sorts as null, below every date.  All timestamps written by
    the scripts are dates; other values are ranked with null. *)
Definition sort_key (d : dict) : option Z :=
  match dict_get "timestamp" d with
  | Some (VDate t) => Some t
  | _ => None
  end.

Definition key_ltb (a b : option Z) : bool :=
  match a, b with
  | None, Some _ => true
  | Some x, Some y => Z.ltb x y
  | _, None => false
  end.

(** The first document of greatest key among [ds], starting from the
    best one seen so far: ties go to the earlier document. *)
Fixpoint first_greatest (best : option dict) (ds : list dict)
  : option dict :=
  match ds with
  | [] => best
  | d :: rest =>
      match best with
      | None => first_greatest (Some d) rest
      | Some b =>
          if key_ltb (sort_key b) (sort_key d)
          then first_greatest (Some d) rest
          else first_greatest best rest
      end
  end.

(** [collection.find_one({"device_id": v}, sort=[("timestamp", -1)])]. *)
Definition find_one (c : collection) (v : value) : option dict :=
  first_greatest None (filter (matches "device_id" v) (docs c)).

Definition count (c : collection) : nat := List.length (docs c).

End Mongo.

(* ===================================================================== *)
(** ** The pyicloud device objects *)
(* ===================================================================== *)

Module Provider.
Import Py.

(** What one device answers at one moment: its [data] dictionary, the
    outcome of [status()], and the outcome of the location lookup, which
    is a dictionary or [None]. *)
Record device : Type := Device {
  data : dict;
  status : result dict;
  location : result (option dict)
}.

End Provider.


(* ===================================================================== *)
(** ** Running a script: the world and the computations on it *)
(* ===================================================================== *)

Module Run.
Import Py Mongo.

(** The state the scripts act on: the collection, how many times the
    local wall clock and the clock of the database server have been
    read, what has been printed and otherwise done to the outside, and
    how many times the provider was asked to play a sound. *)
Record world : Type := World {
  db : collection;
  now_calls : nat;
  date_calls : nat;
  stdout : list event;
  sounds : nat
}.

Definition initial : world := World Mongo.empty 0 0 [] 0.

Definition set_db (c : collection) (w : world) : world :=
  World c (now_calls w) (date_calls w) (stdout w) (sounds w).

(** Computations on the world that may raise. *)
Definition M (A : Type) : Type := world -> result A * world.

Definition ret {A} (a : A) : M A := fun w => (Ok a, w).

Definition bind {A B} (m : M A) (f : A -> M B) : M B :=
  fun w =>
    match m w with
    | (Ok a, w') => f a w'
    | (Raise e, w') => (Raise e, w')
    end.

Definition lift {A} (r : result A) : M A := fun w => (r, w).

(** [try: m] / [except Exception as e: h e]. *)
Definition try_except {A} (m : M A) (h : exn -> M A) : M A :=
  fun w =>
    match m w with
    | (Ok a, w') => (Ok a, w')
    | (Raise e, w') => h e w'
    end.

Definition print (ev : event) : M unit :=
  fun w =>
    (Ok tt,
     World (db w) (now_calls w) (date_calls w) (stdout w ++ [ev])
           (sounds w)).

(** [datetime.now()], [clock n] being the value of the [n]-th call, in
    whole milliseconds. *)
Definition datetime_now (clock : nat -> Z) : M Z :=
  fun w =>
    (Ok (clock (now_calls w)),
     World (db w) (S (now_calls w)) (date_calls w) (stdout w) (sounds w)).

(** A call of the driver that raises [e] when the environment says so
    and otherwise applies [op] to the collection. *)
Definition driver {A} (raises : option exn)
    (op : collection -> collection * A) : M A :=
  fun w =>
    match raises with
    | Some e => (Raise e, w)
    | None => let (c, a) := op (db w) in (Ok a, set_db c w)
    end.

(** [time.sleep(seconds)] for an [int]: the number of nanoseconds must
    fit a signed 64-bit integer, or the conversion raises; a negative
    length is then refused; otherwise the script pauses. *)
Definition sleep_max : Z := 9223372036.

Definition time_sleep (seconds : Z) : M unit :=
  if Z.ltb seconds (- sleep_max) || Z.ltb sleep_max seconds then
    lift (Raise (Exn OverflowError
                   "timestamp too large to convert to C PyTime_t"))
  else if Z.ltb seconds 0 then
    lift (Raise (Exn ValueError "sleep length must be non-negative"))
  else print (Sleep seconds).

(** How a loop is left. *)
Inductive loop_end : Type :=
| StillLooping          (* the environments given are used up *)
| Returned              (* the function returned *)
| Exited (code : Z).    (* [sys.exit(code)] *)

Declare Scope py_scope.
Delimit Scope py_scope with py.
Notation "x <- m ;; k" := (bind m (fun x => k))
  (at level 61, m at next level, right associativity) : py_scope.
Notation "m ;; k" := (bind m (fun _ => k))
  (at level 61, right associativity) : py_scope.

End Run.

(* ===================================================================== *)
(** ** [track_to_mongodb.py]: the standalone tracker *)
(* ===================================================================== *)

Module Tracker.
Import Py Mongo Provider Run.
Local Open Scope py_scope.

(** What the outside answers during one iteration of the loop:
    [api.devices], and whether [insert_many] raises. *)
Record poll_env : Type := PollEnv {
  api_devices : result (list device);
  insert_many_raises : option exn
}.

(** The two location entries of a record ([if location: ... else: ...]);
    an empty dictionary is false. *)
Definition with_location (location : option dict) (device_info : dict)
  : dict :=
  match location with
  | Some ((_ :: _) as loc) =>
      dict_set "location_data"
        (VDict [("latitude", get loc "latitude");
                ("longitude", get loc "longitude");
                ("accuracy", get loc "horizontalAccuracy");
                ("position_type", get loc "positionType");
                ("is_old", get_default loc "isOld" (VBool false));
                ("location_timestamp", get loc "timeStamp")])
        (dict_set "location"
           (VDict [("type", VStr "Point");
                   ("coordinates",
                    VList [get loc "longitude"; get loc "latitude"])])
           device_info)
  | _ =>
      dict_set "location_data" VNone (dict_set "location" VNone device_info)
  end.

(** The record built for one device in [fetch_device_locations], [now]
    being the value of [datetime.now()]. *)
Definition device_info (data status : dict) (location : option dict)
    (now : Z) : dict :=
  with_location location
    [("device_id", get data "id");
     ("name", get_default data "name" (VStr "Unknown"));
     ("model", get_default data "deviceDisplayName" (VStr "Unknown"));
     ("device_class", get_default data "deviceClass" (VStr "Unknown"));
     ("raw_model", get_default data "rawDeviceModel" (VStr "Unknown"));
     ("battery_level", get status "batteryLevel");
     ("battery_status", get status "batteryStatus");
     ("device_status", get data "deviceStatus");
     ("location_enabled", get_default data "locationEnabled" (VBool false));
     ("timestamp", VDate now)].

(** The lines of [display_summary] for one record. *)
Definition display_device (loc : dict) : M unit :=
  _ <- lift (subscript (VDict loc) "name") ;;
  _ <- lift (subscript (VDict loc) "model") ;;
  print (Print "name (model)") ;;
  (if truthy (get loc "location_data") then
     lat <- lift (subscript (get loc "location_data") "latitude") ;;
     lon <- lift (subscript (get loc "location_data") "longitude") ;;
     _ <- lift (subscript (get loc "location_data") "accuracy") ;;
     lift (format_f lat) ;;
     lift (format_f lon) ;;
     print (Print "  Location: lat, lon (+-acc m)")
   else print (Print "  Location: Not available")) ;;
  match get loc "battery_level" with
  | VNone => ret tt
  | battery =>
      lift (format_percent battery) ;;
      print (Print "  Battery: percent")
  end.

Fixpoint display_each (locations : list dict) : M unit :=
  match locations with
  | [] => ret tt
  | loc :: rest => display_device loc ;; display_each rest
  end.

Section Clock.

(** The local wall clock read by [datetime.now()], in whole
    milliseconds. *)
Variable clock : nat -> Z.

(** The body of [for device in devices:], [locations] being the list
    appended to. *)
Fixpoint fetch_each (devices : list device) (locations : list dict)
  : M (list dict) :=
  match devices with
  | [] => ret locations
  | device :: rest =>
      status <- lift (status device) ;;
      location <- try_except (lift (location device))
                             (fun _ => ret None) ;;
      now <- datetime_now clock ;;
      fetch_each rest
        (locations ++ [device_info (data device) status location now])
  end.

Definition fetch_device_locations (api : result (list device))
  : M (list dict) :=
  try_except
    (devices <- lift api ;;
     fetch_each devices [])
    (fun e =>
       print (PrintError "Error fetching device locations: " e) ;;
       print PrintTraceback ;;
       ret []).

Definition save_to_mongodb (raises : option exn)
    (locations : list dict) : M nat :=
  match locations with
  | [] => print (Print "No location data to save") ;; ret 0
  | _ =>
      try_except
        (inserted_ids <-
           driver raises (fun c => insert_many c locations) ;;
         ret (List.length inserted_ids))
        (fun e =>
           print (PrintError "Error saving to MongoDB: " e) ;;
           ret 0)
  end.

Definition display_summary (locations : list dict) : M unit :=
  print (Print "====") ;;
  _ <- datetime_now clock ;;
  print (PrintCount "Tracked device(s): " (List.length locations)) ;;
  print (Print "====") ;;
  display_each locations ;;
  print (Print "====").

Definition track_once (e : poll_env) : M unit :=
  print (Print "--- Single Location Update ---") ;;
  locations <- fetch_device_locations (api_devices e) ;;
  display_summary locations ;;
  saved_count <- save_to_mongodb (insert_many_raises e) locations ;;
  print (PrintCount "Saved location records: " saved_count).

(** One pass through the body of [while True:]. *)
Definition iteration (e : poll_env) (interval : Z) (number : nat)
  : M unit :=
  print (PrintCount "--- Tracking iteration #" number) ;;
  locations <- fetch_device_locations (api_devices e) ;;
  display_summary locations ;;
  saved_count <- save_to_mongodb (insert_many_raises e) locations ;;
  print (PrintCount "Saved location records: " saved_count) ;;
  print (Print "Next update in interval seconds...") ;;
  time_sleep interval.

(** [while True:], one iteration per environment; [number] counts the
    iterations done. *)
Fixpoint while_true (envs : list poll_env) (interval : Z)
    (number : nat) : M unit :=
  match envs with
  | [] => ret tt
  | e :: rest =>
      iteration e interval (S number) ;;
      while_true rest interval (S number)
  end.

Definition track_continuously (envs : list poll_env) (interval : Z)
  : M loop_end :=
  print (Print "Starting continuous tracking") ;;
  try_except
    (while_true envs interval 0 ;; ret StillLooping)
    (fun e =>
       print (PrintError "Error during tracking: " e) ;;
       print PrintTraceback ;;
       ret Returned).

End Clock.

End Tracker.

(* ===================================================================== *)
(** ** [track_to_mongodb_docker.py]: the tracker of the container *)
(* ===================================================================== *)

Module TrackerDocker.
Import Py Mongo Provider Run.
Local Open Scope py_scope.

(** [fetch_device_locations] and [save_to_mongodb] are those of the
    standalone tracker, up to the text of the messages. *)
Definition fetch_device_locations := Tracker.fetch_device_locations.
Definition save_to_mongodb := Tracker.save_to_mongodb.

(** The lines of [display_summary] for one record: the battery text
    comes first. *)
Definition display_device (loc : dict) : M unit :=
  match get loc "battery_level" with
  | VNone => ret tt
  | battery => lift (format_percent battery)
  end ;;
  _ <- lift (subscript (VDict loc) "name") ;;
  _ <- lift (subscript (VDict loc) "model") ;;
  print (Print "name (model) - Battery") ;;
  if truthy (get loc "location_data") then
    lat <- lift (subscript (get loc "location_data") "latitude") ;;
    lon <- lift (subscript (get loc "location_data") "longitude") ;;
    _ <- lift (subscript (get loc "location_data") "accuracy") ;;
    lift (format_f lat) ;;
    lift (format_f lon) ;;
    print (Print "   lat, lon (+-acc m)")
  else ret tt.

Fixpoint display_each (locations : list dict) : M unit :=
  match locations with
  | [] => ret tt
  | loc :: rest => display_device loc ;; display_each rest
  end.

Section Clock.

Variable clock : nat -> Z.

Definition display_summary (locations : list dict) (iteration : nat)
  : M unit :=
  _ <- datetime_now clock ;;
  print (Print "====") ;;
  print (PrintCount "Iteration #" iteration) ;;
  print (PrintCount "Tracked device(s): " (List.length locations)) ;;
  print (Print "====") ;;
  display_each locations ;;
  print (Print "====").

Definition iteration (e : Tracker.poll_env) (interval : Z)
    (number : nat) : M unit :=
  locations <- fetch_device_locations clock (Tracker.api_devices e) ;;
  display_summary locations number ;;
  saved_count <-
    save_to_mongodb (Tracker.insert_many_raises e) locations ;;
  (if Nat.ltb 0 saved_count
   then print (PrintCount "Saved records: " saved_count)
   else print (Print "Failed to save records")) ;;
  print (Print "Next update in interval seconds...") ;;
  time_sleep interval.

Fixpoint while_true (envs : list Tracker.poll_env) (interval : Z)
    (number : nat) : M unit :=
  match envs with
  | [] => ret tt
  | e :: rest =>
      iteration e interval (S number) ;;
      while_true rest interval (S number)
  end.

(** [interval/60] in the opening lines: the quotient of two [int]s is a
    [float], and the division raises when it is beyond the range of a
    double. *)
Definition minutes (interval : Z) : result unit :=
  if Z.ltb (Z.abs interval) (60 * (2 ^ 1024 - 2 ^ 970))%Z then Ok tt
  else Raise (Exn OverflowError
                "integer division result too large for a float").

Definition track_continuously (envs : list Tracker.poll_env)
    (interval : Z) : M loop_end :=
  print (Print "Starting Continuous Location Tracker") ;;
  lift (minutes interval) ;;
  print (Print "Tracking interval: interval seconds (minutes)") ;;
  try_except
    (while_true envs interval 0 ;; ret StillLooping)
    (fun e =>
       print (PrintError "Fatal error during tracking: " e) ;;
       print PrintTraceback ;;
       ret (Exited 1%Z)).

End Clock.

End TrackerDocker.

(* ===================================================================== *)
(** ** [app.py]: the Flask tracker and its HTTP API *)
(* ===================================================================== *)

Module App.
Import Py Mongo Provider Run.
Local Open Scope py_scope.

(** What the outside is during one iteration of [track_location]: the
    flag [tracking_active] when the loop tests it, what the target
    device answers, and whether the two calls of the driver raise. *)
Record track_env : Type := TrackEnv {
  tracking_active : bool;
  tracked_device : device;
  insert_one_raises : option exn;
  update_one_raises : option exn
}.

(** What the outside is while one request is served. *)
Record api_env : Type := ApiEnv {
  target_device : device;
  find_one_raises : option exn;
  play_sound_raises : option exn;
  utcnow : Z
}.

(** The part of a request that the API looks at: the [X-API-Key]
    header and the [api_key] query parameter. *)
Record request : Type := Request {
  header_x_api_key : option string;
  arg_api_key : option string
}.

(** A view's answer: the object given to [jsonify] and the status. *)
Record response : Type := Response { body : value; status_code : nat }.

Definition jsonify (v : value) : response := Response v 200.

(** [not s] for an optional string: absent or empty. *)
Definition not_str (s : option string) : bool :=
  match s with
  | None => true
  | Some x => String.eqb x EmptyString
  end.

(** [a != b] for two optional strings. *)
Definition differs (a b : option string) : bool :=
  match a, b with
  | Some x, Some y => negb (String.eqb x y)
  | None, None => false
  | _, _ => true
  end.

Definition misconfigured : response :=
  Response
    (VDict [("error", VStr "API_KEY not configured");
            ("message",
             VStr "Please set API_KEY in .env file for security")])
    500.

Definition missing_key : response :=
  Response
    (VDict [("error", VStr "Missing API key");
            ("message",
             VStr "Provide API key via X-API-Key header or ?api_key= parameter")])
    401.

Definition invalid_key : response :=
  Response
    (VDict [("error", VStr "Invalid API key");
            ("message", VStr "The provided API key is incorrect")])
    403.

(** The decorator [require_api_key] around the view [f]. *)
Definition require_api_key (API_KEY : option string) (f : M response)
    (r : request) : M response :=
  if not_str API_KEY then ret misconfigured
  else
    let provided_key := header_x_api_key r in
    let provided_key :=
      if not_str provided_key then arg_api_key r else provided_key in
    if not_str provided_key then ret missing_key
    else if differs provided_key API_KEY then ret invalid_key
    else f.

(** The record of [track_location] before the location entries: it has
    no timestamp. *)
Definition device_info (data status : dict) : dict :=
  [("device_id", get data "id");
   ("name", get_default data "name" (VStr "Unknown"));
   ("model", get_default data "deviceDisplayName" (VStr "Unknown"));
   ("device_class", get_default data "deviceClass" (VStr "Unknown"));
   ("battery_level", get status "batteryLevel");
   ("battery_status", get status "batteryStatus")].

(** Values that Flask's JSON provider serializes: an [ObjectId] is not
    one of them, a [datetime] is. *)
Fixpoint jsonable (v : value) : bool :=
  match v with
  | VOid _ => false
  | VList l =>
      (fix all (l : list value) : bool :=
         match l with
         | [] => true
         | x :: l' => jsonable x && all l'
         end) l
  | VDict d =>
      (fix all (d : list (string * value)) : bool :=
         match d with
         | [] => true
         | (_, x) :: d' => jsonable x && all d'
         end) d
  | _ => true
  end.

Definition checked_jsonify (v : value) : M response :=
  if jsonable v then ret (jsonify v)
  else lift (Raise (Exn TypeError
                      "Object of type ObjectId is not JSON serializable")).

Section Outside.

(** The clock of the database server read by [$currentDate], in whole
    milliseconds, the method [datetime.isoformat] and the builtin
    [str]. *)
Variable server_clock : nat -> Z.
Variable isoformat : Z -> string.
Variable str : value -> string.

(** [update_one({"_id": i}, {"$currentDate": {"timestamp": True}})]. *)
Definition driver_update_one (raises : option exn) (i : value)
  : M unit :=
  fun w =>
    match raises with
    | Some e => (Raise e, w)
    | None =>
        (Ok tt,
         World (update_one_current_date (db w) i
                  (server_clock (date_calls w)))
               (now_calls w) (S (date_calls w)) (stdout w) (sounds w))
    end.

(** The [try] block of [track_location] up to the record it has made
    and reported on the console. *)
Definition build_record (e : track_env) : M dict :=
  let data := data (tracked_device e) in
  status <- lift (status (tracked_device e)) ;;
  location <- try_except (lift (location (tracked_device e)))
                         (fun _ => ret None) ;;
  let device_info := device_info data status in
  match location with
  | Some (_ :: _) =>
      let device_info := Tracker.with_location location device_info in
      location_data <-
        lift (subscript (VDict device_info) "location_data") ;;
      lat <- lift (subscript location_data "latitude") ;;
      lift (format_f lat) ;;
      lon <- lift (subscript location_data "longitude") ;;
      lift (format_f lon) ;;
      _ <- lift (subscript location_data "accuracy") ;;
      lift (format_percent
              (get_default status "batteryLevel" (VInt 0))) ;;
      print (Print "Tracked: lat, lon (+-acc m) Battery: percent") ;;
      ret device_info
  | _ =>
      let device_info := Tracker.with_location location device_info in
      print (Print "Location not available") ;;
      ret device_info
  end.

(** The whole [try] block: the record is inserted, then given the
    server's date by a second call. *)
Definition track_body (e : track_env) : M unit :=
  device_info <- build_record e ;;
  inserted_id <-
    driver (insert_one_raises e) (fun c => insert_one c device_info) ;;
  driver_update_one (update_one_raises e) inserted_id.

(** [while tracking_active:], one iteration per environment. *)
Fixpoint while_tracking_active (envs : list track_env) (interval : Z)
  : M loop_end :=
  match envs with
  | [] => ret StillLooping
  | e :: rest =>
      if tracking_active e then
        try_except (track_body e)
          (fun ex => print (PrintError "Error tracking location: " ex)) ;;
        time_sleep interval ;;
        while_tracking_active rest interval
      else ret Returned
  end.

Definition track_location (envs : list track_env) (interval : Z)
  : M loop_end :=
  print (Print "Starting location tracking...") ;;
  how <- while_tracking_active envs interval ;;
  match how with
  | StillLooping => ret how
  | _ => print (Print "Location tracking stopped") ;; ret how
  end.

(** [x.isoformat()]. *)
Definition isoformat_of (x : value) : result string :=
  match x with
  | VDate t => Ok (isoformat t)
  | _ => Raise (Exn AttributeError
                  ("'" ++ type_name x
                   ++ "' object has no attribute 'isoformat'"))
  end.

(** The view of [GET /location]. *)
Definition get_location (e : api_env) : M response :=
  try_except
    (latest <-
       driver (find_one_raises e)
         (fun c => (c, find_one c (get (data (target_device e)) "id"))) ;;
     match latest with
     | None | Some [] =>
         ret (Response
                (VDict [("error", VStr "No location data found")]) 404)
     | Some latest =>
         i <- lift (subscript (VDict latest) "_id") ;;
         let latest := dict_set "_id" (VStr (str i)) latest in
         t <- lift (subscript (VDict latest) "timestamp") ;;
         iso <- lift (isoformat_of t) ;;
         let latest := dict_set "timestamp" (VStr iso) latest in
         checked_jsonify (VDict latest)
     end)
    (fun ex => ret (Response (VDict [("error", VStr (exn_str ex))]) 500)).

(** [target_device.play_sound()]. *)
Definition play_sound (raises : option exn) : M unit :=
  fun w =>
    match raises with
    | Some ex => (Raise ex, w)
    | None =>
        (Ok tt,
         World (db w) (now_calls w) (date_calls w) (stdout w)
               (S (sounds w)))
    end.

(** The view of [POST /alarm]. *)
Definition trigger_alarm (e : api_env) : M response :=
  try_except
    (play_sound (play_sound_raises e) ;;
     checked_jsonify
       (VDict [("status", VStr "success");
               ("message",
                VStr ("Alarm triggered on "
                      ++ str (get (data (target_device e)) "name")));
               ("timestamp", VStr (isoformat (utcnow e) ++ "Z"))]))
    (fun ex =>
       ret (Response
              (VDict [("status", VStr "error");
                      ("message", VStr (exn_str ex))])
              500)).

(** The view of [GET /status]. *)
Definition get_status (e : api_env) : M response :=
  try_except
    (status <- lift (status (target_device e)) ;;
     let data := data (target_device e) in
     checked_jsonify
       (VDict [("device_id", get data "id");
               ("name", get data "name");
               ("model", get data "deviceDisplayName");
               ("battery_level", get status "batteryLevel");
               ("battery_status", get status "batteryStatus");
               ("device_status", get data "deviceStatus");
               ("location_enabled", get data "locationEnabled");
               ("timestamp", VStr (isoformat (utcnow e) ++ "Z"))]))
    (fun ex => ret (Response (VDict [("error", VStr (exn_str ex))]) 500)).

(** The view of [GET /], which asks for no key. *)
Definition index (active : bool) (e : api_env) : M response :=
  checked_jsonify
    (VDict [("status", VStr "running");
            ("service", VStr "iPhone Location Tracker");
            ("tracking_active", VBool active);
            ("device", get (data (target_device e)) "name")]).

(** The routes of the application. *)
Inductive endpoint : Type :=
| GET_index | GET_location | GET_status | POST_alarm.

Definition protected (p : endpoint) : bool :=
  match p with
  | GET_index => false
  | _ => true
  end.

(** The view behind a route, as registered with [app.route]. *)
Definition serve (API_KEY : option string) (active : bool)
    (p : endpoint) (e : api_env) (r : request) : M response :=
  match p with
  | GET_index => index active e
  | GET_location => require_api_key API_KEY (get_location e) r
  | GET_status => require_api_key API_KEY (get_status e) r
  | POST_alarm => require_api_key API_KEY (trigger_alarm e) r
  end.

End Outside.

End App.

(* ===================================================================== *)
(** ** [app.py]: looking for the target device at startup *)
(* ===================================================================== *)

Module AppStart.
Import Py Mongo Provider Run.
Local Open Scope py_scope.

Section Classes.

(** The class [Exception] itself, of which [find_target_device] raises
    an instance. *)
Variable Exception : exn_class.

(** The body of [for device in devices:] in [find_target_device]: the
    first device whose [deviceDisplayName] equals [model_name] is
    returned; when the list is used up the function raises. *)
Fixpoint first_of_model (devices : list device) (model_name : string)
  : M device :=
  match devices with
  | [] =>
      lift (Raise (Exn Exception
                     ("Could not find device with model: " ++ model_name)))
  | device :: rest =>
      if value_eqb (get (data device) "deviceDisplayName") (VStr model_name)
      then print (Print "Found target device: name (model)") ;; ret device
      else first_of_model rest model_name
  end.

(** [find_target_device(api, model_name)], [api] being what [api.devices]
    answers. *)
Definition find_target_device (api : result (list device))
    (model_name : string) : M device :=
  devices <- lift api ;;
  first_of_model devices model_name.

(** What the outside is when the application starts: whether
    [connect_to_mongodb()] and [load_icloud_session()] raise before
    their last line, and what [api.devices] answers when
    [find_target_device] asks. *)
Record start_env : Type := StartEnv {
  connecting : option exn;
  loading_session : option exn;
  api_devices : result (list device)
}.

(** [connect_to_mongodb()]: a missing [MONGODB_URI], the client or the
    ping raise; otherwise the line is printed. *)
Definition connect_to_mongodb (e : start_env) : M unit :=
  match connecting e with
  | Some ex => lift (Raise ex)
  | None => print (Print "Connected to MongoDB")
  end.

(** [load_icloud_session()], giving the [api] as what its [devices]
    will answer. *)
Definition load_icloud_session (e : start_env)
  : M (result (list device)) :=
  match loading_session e with
  | Some ex => lift (Raise ex)
  | None => print (Print "iCloud session loaded") ;; ret (api_devices e)
  end.

(** [f"  Key: {API_KEY[:8]}..." if len(API_KEY) > 8 else
    "  Key: (too short)"]. *)
Definition key_line (API_KEY : string) : string :=
  if Nat.ltb 8 (String.length API_KEY)
  then ("  Key: " ++ String.substring 0 8 API_KEY ++ "...")%string
  else "  Key: (too short)".

(** The lines of [initialize_app] about the key ([if not API_KEY:]). *)
Definition key_lines (API_KEY : option string) : M unit :=
  match API_KEY with
  | Some key =>
      if String.eqb key EmptyString then
        print (Print "WARNING: API_KEY not set in .env file!") ;;
        print (Print "Your API endpoints are not protected!") ;;
        print (Print "To generate a secure API key, run:") ;;
        print (Print "  python -c 'import secrets; print(secrets.token_urlsafe(32))'") ;;
        print (Print "Then add to .env file:") ;;
        print (Print "  API_KEY=your_generated_key") ;;
        print (Print EmptyString)
      else
        print (Print "API Key authentication enabled") ;;
        print (Print (key_line key))
  | None =>
      print (Print "WARNING: API_KEY not set in .env file!") ;;
      print (Print "Your API endpoints are not protected!") ;;
      print (Print "To generate a secure API key, run:") ;;
      print (Print "  python -c 'import secrets; print(secrets.token_urlsafe(32))'") ;;
      print (Print "Then add to .env file:") ;;
      print (Print "  API_KEY=your_generated_key") ;;
      print (Print EmptyString)
  end.

(** The globals that [initialize_app] has set when it returns. *)
Record started : Type := Started {
  target_device : device;
  tracking_active : bool
}.

(** [initialize_app()].  The thread that runs [track_location] is
    started once [tracking_active] is set; what the thread then does is
    not part of this function. *)
Definition initialize_app (API_KEY : option string) (e : start_env)
  : M started :=
  print (Print "iPhone Location Tracker with Alarm API") ;;
  key_lines API_KEY ;;
  connect_to_mongodb e ;;
  icloud_api <- load_icloud_session e ;;
  target_device <- find_target_device icloud_api "iPhone 16 Pro" ;;
  let tracking_active := true in
  print (StartThread "track_location") ;;
  print (Print "Application initialized successfully!") ;;
  ret (Started target_device tracking_active).

End Classes.

End AppStart.

(* ===================================================================== *)
(** ** [icloud_track.py]: the export of the device list *)
(* ===================================================================== *)

Module IcloudTrack.
Import Py Provider Run.
Local Open Scope py_scope.

(** The entry of [export_to_json] before the location. *)
Definition device_info (data status : dict) : dict :=
  [("name", get_default data "name" (VStr "Unknown"));
   ("model", get_default data "deviceDisplayName" (VStr "Unknown"));
   ("device_class", get_default data "deviceClass" (VStr "Unknown"));
   ("raw_model", get_default data "rawDeviceModel" (VStr "Unknown"));
   ("device_status", get_default data "deviceStatus" (VStr "Unknown"));
   ("battery_level", get status "batteryLevel");
   ("battery_status", get status "batteryStatus");
   ("location_enabled", get_default data "locationEnabled" (VBool false));
   ("lost_mode_capable", get_default data "lostModeCapable" (VBool false))].

(** [if location: device_info["location"] = {...}]. *)
Definition with_location (location : option dict) (device_info : dict)
  : dict :=
  match location with
  | Some ((_ :: _) as loc) =>
      dict_set "location"
        (VDict [("latitude", get loc "latitude");
                ("longitude", get loc "longitude");
                ("accuracy", get loc "horizontalAccuracy");
                ("timestamp", get loc "timeStamp");
                ("position_type", get loc "positionType");
                ("is_old", get_default loc "isOld" (VBool false))])
        device_info
  | _ => device_info
  end.

(** [for device in devices:], [device_data] being the list so far.
    [status()] is called outside any [try]; the location is looked up
    inside one whose handler gives [None]. *)
Fixpoint for_each (devices : list device) (device_data : list dict)
  : result (list dict) :=
  match devices with
  | [] => Ok device_data
  | device :: rest =>
      match status device with
      | Raise ex => Raise ex
      | Ok st =>
          let location :=
            match location device with
            | Ok l => l
            | Raise _ => None
            end in
          for_each rest
            (device_data
             ++ [with_location location (device_info (data device) st)])
      end
  end.

(** The first value that [json]'s encoder refuses, going through lists
    and dictionaries in order, by the name of its type: the encoder
    knows neither [datetime] nor [ObjectId]. *)
Fixpoint refused (v : value) : option string :=
  match v with
  | VDate _ => Some "datetime"
  | VOid _ => Some "ObjectId"
  | VList l =>
      (fix first (l : list value) : option string :=
         match l with
         | [] => None
         | x :: l' =>
             match refused x with
             | Some t => Some t
             | None => first l'
             end
         end) l
  | VDict d =>
      (fix first (d : list (string * value)) : option string :=
         match d with
         | [] => None
         | (_, x) :: d' =>
             match refused x with
             | Some t => Some t
             | None => first d'
             end
         end) d
  | _ => None
  end.

(** What the file system does when the file is opened for writing and
    when it is written to. *)
Record file_env : Type := FileEnv {
  open_raises : option exn;
  write_raises : option exn
}.

(** [json.dump(data, f, indent=2)] into the file just opened: the text
    is written piece by piece, so that an exception leaves a part of
    it in the file. *)
Definition json_dump (fs : file_env) (filename : string) (data : value)
  : M unit :=
  match refused data, write_raises fs with
  | Some t, _ =>
      print (FileDumpedInPart filename) ;;
      lift (Raise (Exn TypeError
                     ("Object of type " ++ t
                      ++ " is not JSON serializable")))
  | None, Some ex =>
      print (FileDumpedInPart filename) ;; lift (Raise ex)
  | None, None => print (FileDumped filename data)
  end.

(** [export_to_json(devices, filename)]. *)
Definition export_to_json (fs : file_env) (devices : list device)
    (filename : string) : M unit :=
  device_data <- lift (for_each devices []) ;;
  match open_raises fs with
  | Some ex => lift (Raise ex)
  | None =>
      print (FileOpened filename) ;;
      json_dump fs filename (VList (map VDict device_data)) ;;
      print (Print "Device data exported to filename")
  end.

End IcloudTrack.

(* ===================================================================== *)
(** ** Predicates and inputs used in the statements *)
(* ===================================================================== *)

Import Py Mongo Provider Run.

(** Every stored document carries an [ObjectId] drawn from the counter:
    true of the empty collection and kept by the driver's calls. *)
Definition fresh_ids (c : collection) : Prop :=
  Forall (fun d => exists k, dict_get "_id" d = Some (VOid k)
                             /\ k < next_oid c) (docs c).

(** The world after a successful [insert_one] of [d] in [w]. *)
Definition inserted (d : dict) (w : world) : world :=
  set_db (Coll (docs (db w) ++ [with_id (next_oid (db w)) d])
               (S (next_oid (db w)))) w.

(** The world after [$currentDate] has then stamped that document at
    server time [t]. *)
Definition stamped (d : dict) (t : Z) (w : world) : world :=
  World (Coll (docs (db w)
               ++ [dict_set "timestamp" (VDate t)
                     (with_id (next_oid (db w)) d)])
              (S (next_oid (db w))))
        (now_calls w) (S (date_calls w)) (stdout w) (sounds w).

(** The answer of a view that caught an exception with text [msg]. *)
Definition error_500 (msg : string) : App.response :=
  App.Response (VDict [("error", VStr msg)]) 500.


(** What the loop body sees of a device: the location lookup that raises
    counts as no location. *)
Definition location_seen (d : device) : option dict :=
  match location d with
  | Ok l => l
  | Raise _ => None
  end.

Definition status_seen (d : device) : dict :=
  match status d with
  | Ok st => st
  | Raise _ => []
  end.

Definition device_id (d : device) : value := get (data d) "id".

(** The records mapped from [devices] when the first of them reads the
    clock at its [k]-th value. *)
Fixpoint mapped (clock : nat -> Z) (k : nat) (devices : list device)
  : list dict :=
  match devices with
  | [] => []
  | d :: rest =>
      Tracker.device_info (data d) (status_seen d) (location_seen d) (clock k)
      :: mapped clock (S k) rest
  end.

(** Documents as stored when the first of them gets the [n]-th id. *)
Fixpoint numbered (n : nat) (ds : list dict) : list dict :=
  match ds with
  | [] => []
  | d :: rest => (("_id", VOid n) :: d) :: numbered (S n) rest
  end.

(** The creation timestamps present in a list of documents, in order. *)
Fixpoint timestamps (ds : list dict) : list Z :=
  match ds with
  | [] => []
  | d :: rest =>
      match sort_key d with
      | Some t => t :: timestamps rest
      | None => timestamps rest
      end
  end.

(** The provider lists [devices] and the driver accepts the write. *)
Definition all_fine (devices : list device) : Tracker.poll_env :=
  Tracker.PollEnv (Ok devices) None.

Definition status_ok (d : device) : Prop := exists st, status d = Ok st.

Definition strictly_increasing (clock : nat -> Z) : Prop :=
  forall a b, a < b -> (clock a < clock b)%Z.

Definition non_decreasing (clock : nat -> Z) : Prop :=
  forall a b, a <= b -> (clock a <= clock b)%Z.

(** Every date of [ts] is a value the clock gave between its [lo]-th
    reading (included) and its [hi]-th (excluded). *)
Definition read_between (clock : nat -> Z) (lo hi : nat) (ts : list Z)
  : Prop :=
  Forall (fun t => exists k, lo <= k /\ k < hi /\ t = clock k) ts.

(** Every document has a creation timestamp. *)
Definition all_dated (ds : list dict) : Prop :=
  Forall (fun d => exists t, sort_key d = Some t) ds.

(** Two Python dictionaries are equal when they map the same keys to the
    same values, in whatever order. *)
Definition same_dict (a b : dict) : Prop :=
  forall k, dict_get k a = dict_get k b.

Definition is_error_line (ev : event) : bool :=
  match ev with
  | PrintError _ _ => true
  | _ => false
  end.

(** *** Inputs *)

(** The device of the specification's example: name, model, battery
    fraction 0.82 and a location with fix time [T]. *)
Definition janes_iphone (T : Z) : device :=
  Device
    [("id", VStr "iphone-1");
     ("name", VStr "Jane's iPhone");
     ("deviceDisplayName", VStr "iPhone 16 Pro")]
    (Ok [("batteryLevel", VFloat (82 # 100))])
    (Ok (Some [("latitude", VFloat (377749 # 10000));
               ("longitude", VFloat (-1224194 # 10000));
               ("horizontalAccuracy", VFloat (5 # 1));
               ("timeStamp", VInt T)])).

(** The normalized record that the specification expects for it. *)
Definition expected_normalized (T : Z) : dict :=
  [("name", VStr "Jane's iPhone");
   ("model", VStr "iPhone 16 Pro");
   ("battery_level", VFloat (82 # 100));
   ("location",
    VDict [("lat", VFloat (377749 # 10000));
           ("lon", VFloat (-1224194 # 10000));
           ("accuracy", VFloat (5 # 1));
           ("timestamp", VInt T)])].

(** The record that [fetch_device_locations] makes of it at time [now]. *)
Definition mapped_record (T now : Z) : dict :=
  [("device_id", VStr "iphone-1");
   ("name", VStr "Jane's iPhone");
   ("model", VStr "iPhone 16 Pro");
   ("device_class", VStr "Unknown");
   ("raw_model", VStr "Unknown");
   ("battery_level", VFloat (82 # 100));
   ("battery_status", VNone);
   ("device_status", VNone);
   ("location_enabled", VBool false);
   ("timestamp", VDate now);
   ("location",
    VDict [("type", VStr "Point");
           ("coordinates",
            VList [VFloat (-1224194 # 10000); VFloat (377749 # 10000)])]);
   ("location_data",
    VDict [("latitude", VFloat (377749 # 10000));
           ("longitude", VFloat (-1224194 # 10000));
           ("accuracy", VFloat (5 # 1));
           ("position_type", VNone);
           ("is_old", VBool false);
           ("location_timestamp", VInt T)])].

(** A device that is switched off: the location lookup raises. *)
Definition offline_ipad : device :=
  Device
    [("id", VStr "ipad-1");
     ("name", VStr "Jane's iPad");
     ("deviceDisplayName", VStr "iPad Air")]
    (Ok [("batteryLevel", VFloat (40 # 100))])
    (Raise (Exn ProviderError "location request timed out")).

(** A phone whose location comes without a latitude. *)
Definition phone_without_latitude : device :=
  Device
    [("id", VStr "iphone-1");
     ("name", VStr "Jane's iPhone");
     ("deviceDisplayName", VStr "iPhone 16 Pro")]
    (Ok [("batteryLevel", VFloat (82 # 100))])
    (Ok (Some [("longitude", VFloat (-1224194 # 10000));
               ("horizontalAccuracy", VFloat (5 # 1))])).

(** A phone that reports no battery level: pyicloud's [status()] then
    holds [None] under the key. *)
Definition phone_without_battery : device :=
  Device
    [("id", VStr "iphone-1");
     ("name", VStr "Jane's iPhone");
     ("deviceDisplayName", VStr "iPhone 16 Pro")]
    (Ok [("batteryLevel", VNone)])
    (Ok (Some [("latitude", VFloat (377749 # 10000));
               ("longitude", VFloat (-1224194 # 10000));
               ("horizontalAccuracy", VFloat (5 # 1))])).

(** A wall clock that is set back between the first iteration and the
    second (a correction of the clock, or the end of daylight saving
    time): its readings are 7140 and 7141, and from the third on they
    start again from 3843. *)
Definition clock_set_back (n : nat) : Z :=
  match n with
  | 0 => 7140
  | 1 => 7141
  | _ => 3841 + Z.of_nat n
  end.

(** A clock that advances by one at each reading. *)
Definition ticking (n : nat) : Z := Z.of_nat n.

(** The whole milliseconds of a time given in microseconds. *)
Definition millis (microseconds : Z) : Z := (microseconds / 1000)%Z.

(** A wall clock, in microseconds, that advances by a millisecond at
    each reading. *)
Definition a_millisecond_apart (n : nat) : Z := (1000 * Z.of_nat n)%Z.

(** A wall clock read every 300 microseconds: the readings increase
    strictly, and the first three are in the same millisecond. *)
Definition every_300_microseconds (n : nat) : Z :=
  (1000100 + 300 * Z.of_nat n)%Z.

Definition within_a_millisecond (n : nat) : Z :=
  millis (every_300_microseconds n).

Definition lost_connection : exn := Exn DriverError "connection closed".

Definition isoformat_stub (t : Z) : string := "2026-01-01T00:00:00".

Definition str_stub (v : value) : string :=
  match v with
  | VStr s => s
  | _ => "000000000000000000000000"
  end.

(** *** Runs *)

(** Two iterations of the standalone tracker across the change of the
    clock. *)
Definition run_across_clock_change : result loop_end * world :=
  Tracker.track_continuously clock_set_back
    [all_fine [janes_iphone 0]; all_fine [janes_iphone 0]] 300 initial.

(** Two iterations without a pause, within one millisecond. *)
Definition run_within_a_millisecond : result loop_end * world :=
  Tracker.track_continuously within_a_millisecond
    [all_fine [janes_iphone 0]; all_fine [janes_iphone 0]] 0 initial.

(** One iteration of the standalone tracker with a device whose location
    lookup raises. *)
Definition run_with_offline_ipad : result loop_end * world :=
  Tracker.track_continuously ticking [all_fine [offline_ipad]] 300 initial.

(** One iteration of the Flask tracker in which the record is inserted
    and the update that would date it raises. *)
Definition update_fails : App.track_env :=
  App.TrackEnv true (janes_iphone 0) None (Some lost_connection).

Definition world_after_failed_update : world :=
  snd (App.track_location ticking [update_fails] 300 initial).

(** A request for the phone carrying the configured key. *)
Definition asks_for_phone : App.api_env :=
  App.ApiEnv (janes_iphone 0) None None 0.

Definition with_key (k : string) : App.request :=
  App.Request (Some k) None.

(** *** Failing steps *)

(** The provider raises [ex] while the devices are listed, or while the
    status of a device is fetched, the devices before it having
    answered. *)
Definition fetch_raises (e : Tracker.poll_env) (ex : exn) : Prop :=
  Tracker.api_devices e = Raise ex
  \/ (exists before d after,
        Tracker.api_devices e = Ok (before ++ d :: after)
        /\ Forall status_ok before
        /\ status d = Raise ex).

(** The provider answers for every one of [devices] and [insert_many]
    raises [ex]. *)
Definition write_raises (e : Tracker.poll_env) (devices : list device)
    (ex : exn) : Prop :=
  Tracker.api_devices e = Ok devices /\ devices <> []
  /\ Forall status_ok devices
  /\ Tracker.insert_many_raises e = Some ex.

(** In the Flask tracker [ex] is raised while the record is built and
    reported, or by [insert_one]; [w1] is the world at that point. *)
Definition raises_before_update (e : App.track_env) (w w1 : world)
    (ex : exn) : Prop :=
  App.build_record e w = (Raise ex, w1)
  \/ (exists info, App.build_record e w = (Ok info, w1)
                   /\ App.insert_one_raises e = Some ex).

(** An interval that [time.sleep] accepts. *)
Definition sleeps (interval : Z) : Prop :=
  (0 <= interval <= sleep_max)%Z.

(** From [w] to [w'] the collection is unchanged, a handler has printed
    the exception [ex], and the last thing done is the pause. *)
Definition skipped (interval : Z) (ex : exn) (w w' : world) : Prop :=
  db w' = db w
  /\ exists evs,
       stdout w' = stdout w ++ evs
       /\ (exists prefix, In (PrintError prefix ex) evs)
       /\ last evs (Print EmptyString) = Sleep interval.

Definition tracks (d : device) : App.track_env :=
  App.TrackEnv true d None None.

(** Two iterations of the standalone tracker over two devices, the clock
    advancing. *)
Definition run_two_devices : result loop_end * world :=
  Tracker.track_continuously ticking
    (repeat (all_fine [janes_iphone 0; offline_ipad]) 2) 300 initial.

Definition provider_down : Tracker.poll_env :=
  Tracker.PollEnv (Raise (Exn ProviderError "service unavailable")) None.

Definition write_fails : Tracker.poll_env :=
  Tracker.PollEnv (Ok [janes_iphone 0]) (Some lost_connection).

Definition insert_fails : App.track_env :=
  App.TrackEnv true (janes_iphone 0) (Some lost_connection) None.

(** The record that the Flask tracker builds for the phone, and the
    world once it is built. *)
Definition flask_record : dict :=
  match fst (App.build_record (tracks (janes_iphone 0)) initial) with
  | Ok info => info
  | Raise _ => []
  end.

Definition world_after_build : world :=
  snd (App.build_record (tracks (janes_iphone 0)) initial).

(** A view that answers with an empty body. *)
Definition empty_view : M App.response := ret (App.jsonify VNone).

(* ===================================================================== *)
(** ** Further predicates *)
(* ===================================================================== *)

(** A format that raises nothing. *)
Definition formats (r : result unit) : bool :=
  match r with
  | Ok _ => true
  | Raise _ => false
  end.

(** A device whose record the summary of the trackers can print: the
    latitude and the longitude of a location that is there can be
    formatted with [.6f], and the battery level is [None] or can be
    multiplied by 100 and formatted. *)
Definition presentable (d : device) : bool :=
  match location_seen d with
  | Some ((_ :: _) as loc) =>
      formats (format_f (get loc "latitude"))
      && formats (format_f (get loc "longitude"))
  | _ => true
  end
  && match get (status_seen d) "batteryLevel" with
     | VNone => true
     | battery => formats (format_percent battery)
     end.

(** The key a request presents: the header, or the query parameter when
    the header is absent or empty. *)
Definition presented_key (r : App.request) : option string :=
  if App.not_str (App.header_x_api_key r) then App.arg_api_key r
  else App.header_x_api_key r.

(** The request presents the configured key, which is not empty. *)
Definition authorized (API_KEY : option string) (r : App.request) : Prop :=
  exists k, API_KEY = Some k /\ k <> EmptyString /\ presented_key r = Some k.

(** The three answers with which the decorator turns a request away. *)
Definition turned_away (resp : App.response) : Prop :=
  resp = App.misconfigured \/ resp = App.missing_key
  \/ resp = App.invalid_key.

Definition all_active (envs : list App.track_env) : Prop :=
  Forall (fun e => App.tracking_active e = true) envs.

(** In the iteration [e] the Flask tracker can build the record [info],
    and the two calls of the driver go through. *)
Definition goes_through (e : App.track_env) (info : dict) : Prop :=
  fst (App.build_record e initial) = Ok info
  /\ App.insert_one_raises e = None
  /\ App.update_one_raises e = None.

(** An interval whose length in minutes the opening lines of the
    container's tracker can show: [interval/60] is within the range of a
    [float]. *)
Definition shown (interval : Z) : Prop :=
  (Z.abs interval < 60 * (2 ^ 1024 - 2 ^ 970))%Z.

(** The values that [get_status] looks up in the device and in its
    status. *)
Definition status_fields (d : device) (st : dict) : list value :=
  [get (data d) "id"; get (data d) "name";
   get (data d) "deviceDisplayName";
   get st "batteryLevel"; get st "batteryStatus";
   get (data d) "deviceStatus"; get (data d) "locationEnabled"].

(** The model the Flask tracker looks for. *)
Definition iphone_16_pro : string := "iPhone 16 Pro".

Definition a_macbook : device :=
  Device
    [("id", VStr "mac-1");
     ("name", VStr "Jane's MacBook");
     ("deviceDisplayName", VStr "MacBook Pro")]
    (Ok [("batteryLevel", VFloat (55 # 100))])
    (Ok None).

(** Every list of devices the provider gives in this iteration can be
    printed by the summary. *)
Definition presentable_env (e : Tracker.poll_env) : Prop :=
  forall devices,
    Tracker.api_devices e = Ok devices -> forallb presentable devices = true.

(** A run that succeeded. *)
Definition succeeded {A : Type} (r : result A) : bool :=
  match r with
  | Ok _ => true
  | Raise _ => false
  end.

(** The device is of the model asked for. *)
Definition of_model (model_name : string) (d : device) : bool :=
  value_eqb (get (data d) "deviceDisplayName") (VStr model_name).

(** At startup nothing raises and the provider lists a device of the
    model. *)
Definition all_there (model_name : string) (e : AppStart.start_env)
  : Prop :=
  AppStart.connecting e = None
  /\ AppStart.loading_session e = None
  /\ exists devices,
       AppStart.api_devices e = Ok devices
       /\ existsb (of_model model_name) devices = true.

(** The event is the start of a thread. *)
Definition starts_thread (ev : event) : bool :=
  match ev with
  | StartThread _ => true
  | _ => false
  end.

(** A file system that accepts the export. *)
Definition writable : IcloudTrack.file_env :=
  IcloudTrack.FileEnv None None.

(** The entry that [export_to_json] makes for a device. *)
Definition exported (d : device) : dict :=
  IcloudTrack.with_location (location_seen d)
    (IcloudTrack.device_info (data d) (status_seen d)).

(** The list that [export_to_json] hands to [json.dump], and its
    closing line. *)
Definition dumped (devices : list device) : value :=
  VList (map VDict (map exported devices)).

Definition exported_line : event := Print "Device data exported to filename".

(** The device has a location that [if location:] takes as true. *)
Definition located (d : device) : Prop :=
  exists p loc, location d = Ok (Some (p :: loc)).

Definition good_start : AppStart.start_env :=
  AppStart.StartEnv None None (Ok [a_macbook; janes_iphone 0]).

Definition no_phone : AppStart.start_env :=
  AppStart.StartEnv None None (Ok [a_macbook]).

(* ===================================================================== *)
(** ** Facts about dictionaries and the collection *)
(* ===================================================================== *)

Import Py Mongo Provider Run.

Lemma dict_get_set_same (k : string) (v : value) (d : dict) :
  dict_get k (dict_set k v d) = Some v.
Proof.
  induction d as [|[k' v'] d IH]; simpl.
  - now rewrite String.eqb_refl.
  - destruct (String.eqb k k') eqn:E; simpl; rewrite E; auto.
Qed.

Lemma dict_get_set_other (k k' : string) (v : value) (d : dict) :
  k <> k' -> dict_get k (dict_set k' v d) = dict_get k d.
Proof.
  intros Hne. induction d as [|[k2 v2] d IH]; simpl.
  - destruct (String.eqb k k') eqn:E; auto.
    apply String.eqb_eq in E. contradiction.
  - destruct (String.eqb k' k2) eqn:E; simpl.
    + apply String.eqb_eq in E. subst k2.
      destruct (String.eqb k k') eqn:E2; auto.
      apply String.eqb_eq in E2. contradiction.
    + destruct (String.eqb k k2); auto.
Qed.

(* ===================================================================== *)
(** ** The API key *)
(* ===================================================================== *)

Section ApiKey.

Variable isoformat : Z -> string.
Variable str : value -> string.

(** C6.  While no API key is configured (the variable is unset or
    empty), every protected endpoint answers with the
    server-misconfiguration error, status 500, whatever key the request
    carries; the view is not run, so nothing is read, written or
    played. *)
Theorem unconfigured_key_fails_closed :
  forall (API_KEY : option string) (active : bool) (p : App.endpoint)
         (e : App.api_env) (r : App.request) (w : world),
    App.protected p = true ->
    App.not_str API_KEY = true ->
    App.serve isoformat str API_KEY active p e r w
      = (Ok App.misconfigured, w)
    /\ App.status_code App.misconfigured = 500.
Proof.
  intros API_KEY active p e r w Hp Hk. split; [|reflexivity].
  destruct p; simpl in Hp; try discriminate;
    unfold App.serve, App.require_api_key; rewrite Hk; reflexivity.
Qed.

(** C10.  When a request carries a non-empty [X-API-Key] header, the
    decorator's answer does not depend on the [api_key] query
    parameter: with a configured key it is the view's answer if the
    header equals the key and the 403 answer otherwise.  The query
    parameter stands in for the header only when the header is absent
    or empty. *)
Theorem header_decides_before_query :
  forall (API_KEY : option string) (f : M App.response) (h : string)
         (q : option string),
    h <> EmptyString ->
    (forall q', App.require_api_key API_KEY f (App.Request (Some h) q)
                = App.require_api_key API_KEY f (App.Request (Some h) q'))
    /\ (App.not_str API_KEY = false ->
        App.require_api_key API_KEY f (App.Request (Some h) q)
        = if App.differs (Some h) API_KEY then ret App.invalid_key else f)
    /\ (forall h0, App.not_str h0 = true ->
        App.require_api_key API_KEY f (App.Request h0 q)
        = App.require_api_key API_KEY f (App.Request q None)).
Proof.
  intros API_KEY f h q Hh.
  assert (Hne : App.not_str (Some h) = false).
  { simpl. apply String.eqb_neq. exact Hh. }
  repeat split.
  - intros q'. unfold App.require_api_key. simpl App.header_x_api_key.
    rewrite Hne. reflexivity.
  - intros Hk. unfold App.require_api_key. simpl App.header_x_api_key.
    rewrite Hk, Hne. rewrite Hne. reflexivity.
  - intros h0 Hh0. unfold App.require_api_key.
    simpl App.header_x_api_key. simpl App.arg_api_key. rewrite Hh0.
    destruct (App.not_str API_KEY); [reflexivity|].
    destruct (App.not_str q) eqn:Hq; simpl; rewrite ?Hq; reflexivity.
Qed.

End ApiKey.


(* ===================================================================== *)
(** ** The record of the Flask tracker and its timestamp *)
(* ===================================================================== *)

Ltac run :=
  unfold bind, ret, lift, try_except, print, driver, datetime_now; simpl.

Lemma with_location_keeps (k : string) (loc : option dict) (d : dict) :
  k <> "location" -> k <> "location_data" ->
  dict_get k (Tracker.with_location loc d) = dict_get k d.
Proof.
  intros H1 H2. unfold Tracker.with_location.
  destruct loc as [[|? ?]|];
    rewrite !dict_get_set_other by assumption; reflexivity.
Qed.

(** The record that [track_location] hands to [insert_one] is the mapped
    record, whatever was printed on the way. *)
Lemma build_record_shape (e : App.track_env) (w w1 : world) (info : dict) :
  App.build_record e w = (Ok info, w1) ->
  exists status location,
    info = Tracker.with_location location
             (App.device_info (data (App.tracked_device e)) status)
    /\ db w1 = db w /\ date_calls w1 = date_calls w
    /\ now_calls w1 = now_calls w /\ sounds w1 = sounds w.
Proof.
  unfold App.build_record. run.
  destruct (status (App.tracked_device e)) as [st|ex]; [|discriminate].
  destruct (location (App.tracked_device e)) as [[[|p loc]|]|ex']; simpl.
  - intros H; inversion H; subst. exists st, (Some []).
    repeat split; reflexivity.
  - run.
    repeat match goal with
           | |- context [format_f ?x] =>
               destruct (format_f x); simpl; [|discriminate]
           | |- context [format_percent ?x] =>
               destruct (format_percent x); simpl; [|discriminate]
           end.
    intros H; inversion H; subst. exists st, (Some (p :: loc)).
    repeat split; reflexivity.
  - intros H; inversion H; subst. exists st, None.
    repeat split; reflexivity.
  - intros H; inversion H; subst. exists st, None.
    repeat split; reflexivity.
Qed.

Lemma build_record_no_timestamp (e : App.track_env) (w w1 : world)
    (info : dict) :
  App.build_record e w = (Ok info, w1) ->
  dict_get "timestamp" info = None /\ dict_get "_id" info = None.
Proof.
  intros H. destruct (build_record_shape _ _ _ _ H) as (st & loc & -> & _).
  split; rewrite with_location_keeps by discriminate; reflexivity.
Qed.

Lemma with_id_fresh (n : nat) (d : dict) :
  dict_get "_id" d = None -> with_id n d = ("_id", VOid n) :: d.
Proof. intros H. unfold with_id. now rewrite H. Qed.

Lemma set_current_date_last (n : nat) (t : Z) (ds : list dict) (d : dict) :
  Forall (fun x => exists k, dict_get "_id" x = Some (VOid k) /\ k < n) ds ->
  dict_get "_id" d = Some (VOid n) ->
  set_current_date (VOid n) t (ds ++ [d])
  = ds ++ [dict_set "timestamp" (VDate t) d].
Proof.
  intros Hds Hd. induction Hds as [|x ds (k & Hk & Hlt) _ IH]; simpl.
  - unfold matches. rewrite Hd. simpl. now rewrite Nat.eqb_refl.
  - unfold matches at 1. rewrite Hk. simpl.
    replace (Nat.eqb k n) with false
      by (symmetry; apply Nat.eqb_neq; lia).
    now rewrite IH.
Qed.

Section FlaskTracker.

Variable server_clock : nat -> Z.
Variable isoformat : Z -> string.
Variable str : value -> string.

(** After the record is built: the write that raises, the update that
    raises, and the two calls that succeed. *)
Lemma track_body_insert_raises (e : App.track_env) (w w1 : world)
    (info : dict) (ex : exn) :
  App.build_record e w = (Ok info, w1) ->
  App.insert_one_raises e = Some ex ->
  App.track_body server_clock e w = (Raise ex, w1).
Proof.
  intros Hb Hi. unfold App.track_body, bind. rewrite Hb.
  unfold driver. now rewrite Hi.
Qed.

Lemma track_body_update_raises (e : App.track_env) (w w1 : world)
    (info : dict) (ex : exn) :
  App.build_record e w = (Ok info, w1) ->
  App.insert_one_raises e = None ->
  App.update_one_raises e = Some ex ->
  App.track_body server_clock e w = (Raise ex, inserted info w1).
Proof.
  intros Hb Hi Hu.
  destruct (build_record_no_timestamp _ _ _ _ Hb) as [Hts Hid].
  unfold App.track_body, bind. rewrite Hb.
  unfold driver. rewrite Hi. unfold insert_one.
  rewrite (with_id_fresh _ _ Hid). simpl.
  unfold App.driver_update_one. rewrite Hu. simpl.
  unfold inserted. rewrite (with_id_fresh _ _ Hid). reflexivity.
Qed.

Lemma track_body_succeeds (e : App.track_env) (w w1 : world) (info : dict) :
  App.build_record e w = (Ok info, w1) ->
  App.insert_one_raises e = None ->
  App.update_one_raises e = None ->
  fresh_ids (db w1) ->
  App.track_body server_clock e w
  = (Ok tt, stamped info (server_clock (date_calls w1)) w1).
Proof.
  intros Hb Hi Hu Hfresh.
  destruct (build_record_no_timestamp _ _ _ _ Hb) as [Hts Hid].
  unfold App.track_body, bind. rewrite Hb.
  unfold driver. rewrite Hi. unfold insert_one.
  rewrite (with_id_fresh _ _ Hid). simpl.
  unfold App.driver_update_one. rewrite Hu. simpl.
  unfold stamped, update_one_current_date. simpl.
  rewrite (with_id_fresh _ _ Hid).
  change (get (("_id", VOid (next_oid (db w1))) :: info) "_id")
    with (VOid (next_oid (db w1))).
  rewrite set_current_date_last; [reflexivity|exact Hfresh|reflexivity].
Qed.

(** [GET /location] on a stored record that has an [_id] and no
    timestamp. *)
Lemma get_location_undated (a : App.api_env) (w : world) (n : nat)
    (info : dict) :
  App.find_one_raises a = None ->
  dict_get "timestamp" info = None ->
  find_one (db w) (get (data (App.target_device a)) "id")
  = Some (("_id", VOid n) :: info) ->
  App.get_location isoformat str a w = (Ok (error_500 "'timestamp'"), w).
Proof.
  intros Hf Hts Hfind. destruct w as [c n1 n2 out snd]. simpl in *.
  unfold App.get_location, try_except, bind, driver.
  rewrite Hf. simpl. rewrite Hfind. simpl. rewrite Hts. reflexivity.
Qed.

(** C9.  In [track_location] a record reaches the collection in two
    calls.  The record handed to [insert_one] has no [timestamp] field;
    if the following [update_one] raises, the iteration ends with the
    record stored as inserted, without a timestamp; only when the update
    succeeds does the stored record get the server's date.  When the
    document that [find_one] gives to [GET /location] is such a record,
    the view catches the exception raised on the missing field and
    answers 500. *)
Theorem timestamp_added_by_second_call :
  forall (e : App.track_env) (w w1 : world) (info : dict),
    App.build_record e w = (Ok info, w1) ->
    App.insert_one_raises e = None ->
    dict_get "timestamp" (with_id (next_oid (db w1)) info) = None
    /\ (forall ex, App.update_one_raises e = Some ex ->
          App.track_body server_clock e w = (Raise ex, inserted info w1))
    /\ (App.update_one_raises e = None -> fresh_ids (db w1) ->
          App.track_body server_clock e w
          = (Ok tt, stamped info (server_clock (date_calls w1)) w1))
    /\ (forall (a : App.api_env) (w' : world),
          App.find_one_raises a = None ->
          find_one (db w') (get (data (App.target_device a)) "id")
          = Some (with_id (next_oid (db w1)) info) ->
          App.get_location isoformat str a w'
          = (Ok (error_500 "'timestamp'"), w')
          /\ App.status_code (error_500 "'timestamp'") = 500).
Proof.
  intros e w w1 info Hb Hi.
  destruct (build_record_no_timestamp _ _ _ _ Hb) as [Hts Hid].
  split; [|split; [|split]].
  - rewrite (with_id_fresh _ _ Hid). simpl. exact Hts.
  - intros ex Hu. now apply track_body_update_raises.
  - intros Hu Hfresh. now apply track_body_succeeds.
  - intros a w' Hf Hfind. split; [|reflexivity].
    rewrite (with_id_fresh _ _ Hid) in Hfind.
    eapply get_location_undated; eauto.
Qed.

End FlaskTracker.

(* ===================================================================== *)
(** ** The standalone tracker: what one iteration does *)
(* ===================================================================== *)

Lemma value_eqb_eq : forall a b : value, value_eqb a b = true -> a = b.
Proof.
  fix IH 1. intros a b. destruct a; destruct b; simpl; try discriminate.
  - reflexivity.
  - intros H. apply Bool.eqb_prop in H. now subst.
  - intros H. apply Z.eqb_eq in H. now subst.
  - destruct q, q0. simpl. intros H. apply andb_prop in H as [H1 H2].
    apply Z.eqb_eq in H1. apply Pos.eqb_eq in H2. now subst.
  - intros H. apply String.eqb_eq in H. now subst.
  - revert l0. induction l as [|x l IHl]; intros [|y l0] H;
      try discriminate; try reflexivity.
    apply andb_prop in H as [H1 H2].
    apply IH in H1. apply IHl in H2. inversion H2. now subst.
  - revert d0. induction d as [|[k x] d IHd]; intros [|[k' y] d0] H;
      try discriminate; try reflexivity.
    apply andb_prop in H as [H1 H2]. apply andb_prop in H1 as [H0 H1].
    apply String.eqb_eq in H0. apply IH in H1. apply IHd in H2.
    inversion H2. now subst.
  - intros H. apply Z.eqb_eq in H. now subst.
  - intros H. apply Nat.eqb_eq in H. now subst.
Qed.

Lemma value_eqb_refl : forall a : value, value_eqb a a = true.
Proof.
  fix IH 1. intros a. destruct a; simpl; auto.
  - apply Bool.eqb_reflx.
  - apply Z.eqb_refl.
  - now rewrite Z.eqb_refl, Pos.eqb_refl.
  - apply String.eqb_refl.
  - induction l as [|x l IHl]; auto. now rewrite IH, IHl.
  - induction d as [|[k x] d IHd]; auto.
    now rewrite String.eqb_refl, IH, IHd.
  - apply Z.eqb_refl.
  - apply Nat.eqb_refl.
Qed.

Lemma mapped_length (clock : nat -> Z) (devices : list device) (k : nat) :
  List.length (mapped clock k devices) = List.length devices.
Proof. revert k. induction devices; simpl; auto. Qed.

Lemma numbered_length (ds : list dict) (n : nat) :
  List.length (numbered n ds) = List.length ds.
Proof. revert n. induction ds; simpl; auto. Qed.

Lemma numbered_app (ds ds' : list dict) (n : nat) :
  numbered n (ds ++ ds') = numbered n ds ++ numbered (n + List.length ds) ds'.
Proof.
  revert n. induction ds as [|d ds IH]; intros n; simpl.
  - now rewrite Nat.add_0_r.
  - rewrite IH. now rewrite Nat.add_succ_r.
Qed.

Lemma device_info_no_id (data st : dict) (loc : option dict) (now : Z) :
  dict_get "_id" (Tracker.device_info data st loc now) = None.
Proof.
  unfold Tracker.device_info. now rewrite with_location_keeps.
Qed.

Lemma device_info_timestamp (data st : dict) (loc : option dict) (now : Z) :
  dict_get "timestamp" (Tracker.device_info data st loc now)
  = Some (VDate now).
Proof.
  unfold Tracker.device_info. now rewrite with_location_keeps.
Qed.

Lemma device_info_device_id (data st : dict) (loc : option dict) (now : Z) :
  dict_get "device_id" (Tracker.device_info data st loc now)
  = Some (get data "id").
Proof.
  unfold Tracker.device_info. now rewrite with_location_keeps.
Qed.

Lemma mapped_no_id (clock : nat -> Z) (devices : list device) (k : nat) :
  Forall (fun d => dict_get "_id" d = None) (mapped clock k devices).
Proof.
  revert k. induction devices as [|d ds IH]; intros k; simpl; constructor.
  - apply device_info_no_id.
  - apply IH.
Qed.

(** [insert_many] appends the documents in order and numbers them. *)
Lemma insert_many_numbered (ds : list dict) (c : collection) :
  Forall (fun d => dict_get "_id" d = None) ds ->
  insert_many c ds
  = (Coll (docs c ++ numbered (next_oid c) ds)
          (next_oid c + List.length ds),
     map VOid (seq (next_oid c) (List.length ds))).
Proof.
  intros H. revert c. induction H as [|d ds Hd _ IH]; intros c; simpl.
  - rewrite app_nil_r, Nat.add_0_r. now destruct c.
  - rewrite (with_id_fresh _ _ Hd). rewrite IH. simpl.
    rewrite <- app_assoc. simpl. now rewrite Nat.add_succ_r.
Qed.

(** *** Effects of the parts of an iteration *)

Lemma fetch_each_effect (clock : nat -> Z) (devices : list device) :
  forall (acc : list dict) (w w' : world) (r : result (list dict)),
    Tracker.fetch_each clock devices acc w = (r, w') ->
    db w' = db w /\ date_calls w' = date_calls w /\ sounds w' = sounds w
    /\ stdout w' = stdout w /\ now_calls w <= now_calls w'
    /\ match r with
       | Ok l => l = acc ++ mapped clock (now_calls w) devices
                 /\ now_calls w' = now_calls w + List.length devices
                 /\ Forall status_ok devices
       | Raise e => exists d, In d devices /\ status d = Raise e
       end.
Proof.
  induction devices as [|d ds IH]; intros acc w w' r; simpl.
  - unfold ret. intros H. inversion H; subst.
    rewrite app_nil_r, Nat.add_0_r. repeat split; auto.
  - unfold bind at 1. unfold lift at 1.
    destruct (status d) as [st|e] eqn:Hst.
    + unfold bind at 1. unfold try_except, lift.
      assert (Hloc : (match location d with
                      | Ok a => (Ok a, w)
                      | Raise e => ret None w
                      end) = (Ok (location_seen d), w)).
      { unfold location_seen. destruct (location d); reflexivity. }
      rewrite Hloc. unfold bind at 1. unfold datetime_now at 1.
      intros H. apply IH in H. simpl in H.
      destruct H as (H1 & H2 & H3 & H4 & H5 & H6).
      repeat split; auto; try lia.
      destruct r as [l|e].
      * destruct H6 as (-> & H7 & H8). repeat split.
        -- rewrite <- app_assoc. simpl. unfold status_seen.
           now rewrite Hst.
        -- lia.
        -- constructor; auto. now exists st.
      * destruct H6 as (d' & Hin & Hd'). exists d'. split; auto.
    + intros H. inversion H; subst. repeat split; auto.
      exists d. split; auto.
Qed.

(** Case analysis on the lookups and formats of a console report. *)
Ltac display_cases :=
  repeat match goal with
         | |- context [truthy ?x] => destruct (truthy x); simpl
         | |- context [subscript ?x ?k] => destruct (subscript x k); simpl
         | |- context [dict_get ?k ?x] => destruct (dict_get k x); simpl
         | |- context [format_f ?x] => destruct (format_f x); simpl
         | |- context [format_percent ?x] =>
             destruct (format_percent x); simpl
         | |- context [fits_float ?x] => destruct (fits_float x); simpl
         | |- context [match get ?d ?k with _ => _ end] =>
             destruct (get d k); simpl
         end.

Lemma display_device_effect (loc : dict) (w w' : world) (r : result unit) :
  Tracker.display_device loc w = (r, w') ->
  db w' = db w /\ date_calls w' = date_calls w /\ sounds w' = sounds w
  /\ now_calls w' = now_calls w.
Proof.
  unfold Tracker.display_device. run.
  display_cases; intros H; inversion H; subst; simpl; auto.
Qed.

Lemma display_each_effect (locs : list dict) :
  forall (w w' : world) (r : result unit),
    Tracker.display_each locs w = (r, w') ->
    db w' = db w /\ date_calls w' = date_calls w /\ sounds w' = sounds w
    /\ now_calls w' = now_calls w.
Proof.
  induction locs as [|loc locs IH]; intros w w' r; simpl.
  - unfold ret. intros H. inversion H; subst. auto.
  - unfold bind. destruct (Tracker.display_device loc w) as [[[]|e] w1] eqn:E;
      apply display_device_effect in E.
    + intros H. apply IH in H. intuition congruence.
    + intros H. inversion H; subst. exact E.
Qed.

Lemma fetch_device_locations_effect (clock : nat -> Z)
    (api : result (list device)) (w w' : world) (r : result (list dict)) :
  Tracker.fetch_device_locations clock api w = (r, w') ->
  db w' = db w /\ date_calls w' = date_calls w /\ sounds w' = sounds w
  /\ now_calls w <= now_calls w'
  /\ ((exists devices,
         api = Ok devices /\ Forall status_ok devices
         /\ r = Ok (mapped clock (now_calls w) devices)
         /\ now_calls w' = now_calls w + List.length devices
         /\ stdout w' = stdout w)
      \/ (exists e,
            r = Ok []
            /\ stdout w'
               = stdout w
                 ++ [PrintError "Error fetching device locations: " e;
                     PrintTraceback]
            /\ (api = Raise e
                \/ exists devices d,
                     api = Ok devices /\ In d devices
                     /\ status d = Raise e))).
Proof.
  unfold Tracker.fetch_device_locations, try_except, bind, lift.
  destruct api as [devices|e].
  - destruct (Tracker.fetch_each clock devices [] w) as [[l|e] w1] eqn:E;
      apply fetch_each_effect in E;
      destruct E as (H1 & H2 & H3 & H4 & H5 & H6).
    + intros H. inversion H; subst. destruct H6 as (-> & H7 & H8).
      repeat split; auto. left. exists devices. repeat split; auto.
    + run. intros H. inversion H; subst. simpl.
      repeat split; auto. right. exists e. repeat split.
      * now rewrite H4, <- app_assoc.
      * right. destruct H6 as (d & Hin & Hd). now exists devices, d.
  - run. intros H. inversion H; subst. simpl.
    repeat split; auto. right. exists e. repeat split.
    + now rewrite <- app_assoc.
    + now left.
Qed.

Lemma display_summary_effect (clock : nat -> Z) (locs : list dict)
    (w w' : world) (r : result unit) :
  Tracker.display_summary clock locs w = (r, w') ->
  db w' = db w /\ date_calls w' = date_calls w /\ sounds w' = sounds w
  /\ now_calls w' = S (now_calls w).
Proof.
  unfold Tracker.display_summary. unfold bind at 1 2 3 4. run.
  match goal with
  | |- context [Tracker.display_each locs ?w0] =>
      destruct (Tracker.display_each locs w0) as [[[]|e] w1] eqn:E;
        apply display_each_effect in E; simpl in E
  end; intros H; inversion H; subst; simpl; intuition.
Qed.

(** With the driver accepting the write, [save_to_mongodb] appends the
    records in order and numbers them. *)
Lemma save_to_mongodb_fine (locs : list dict) (w : world) :
  Forall (fun d => dict_get "_id" d = None) locs ->
  exists w',
    Tracker.save_to_mongodb None locs w = (Ok (List.length locs), w')
    /\ docs (db w') = docs (db w) ++ numbered (next_oid (db w)) locs
    /\ next_oid (db w') = next_oid (db w) + List.length locs
    /\ now_calls w' = now_calls w /\ date_calls w' = date_calls w
    /\ sounds w' = sounds w.
Proof.
  intros H. destruct locs as [|d ds].
  - eexists. split; [reflexivity|]. simpl.
    rewrite app_nil_r, Nat.add_0_r. auto.
  - unfold Tracker.save_to_mongodb, try_except, bind, driver.
    rewrite (insert_many_numbered _ _ H). simpl.
    eexists. split.
    + unfold ret. rewrite length_map, length_seq. reflexivity.
    + simpl. auto.
Qed.

(** A write that raises leaves the collection as it was. *)
Lemma save_to_mongodb_raises (e : exn) (locs : list dict) (w : world) :
  locs <> [] ->
  Tracker.save_to_mongodb (Some e) locs w
  = (Ok 0,
     World (db w) (now_calls w) (date_calls w)
           (stdout w ++ [PrintError "Error saving to MongoDB: " e])
           (sounds w)).
Proof. intros H. destruct locs; [contradiction|reflexivity]. Qed.

Lemma save_to_mongodb_effect (raises : option exn) (locs : list dict)
    (w w' : world) (r : result nat) :
  Forall (fun d => dict_get "_id" d = None) locs ->
  Tracker.save_to_mongodb raises locs w = (r, w') ->
  now_calls w' = now_calls w /\ date_calls w' = date_calls w
  /\ sounds w' = sounds w
  /\ exists n, r = Ok n
     /\ (db w' = db w
         \/ (raises = None
             /\ docs (db w') = docs (db w) ++ numbered (next_oid (db w)) locs
             /\ next_oid (db w') = next_oid (db w) + List.length locs)).
Proof.
  intros Hl. destruct raises as [e|].
  - destruct locs as [|d ds].
    + simpl. run. intros H. inversion H; subst. simpl. eauto 10.
    + rewrite save_to_mongodb_raises by discriminate.
      intros H. inversion H; subst. simpl. eauto 10.
  - destruct (save_to_mongodb_fine locs w Hl) as (w1 & E & H1 & H2 & H3).
    rewrite E. intros H. inversion H; subst. intuition eauto 10.
Qed.

(** [time.sleep] pauses for the intervals it accepts and raises for the
    others; it touches nothing else. *)
Lemma time_sleep_sleeps (interval : Z) :
  sleeps interval -> time_sleep interval = print (Sleep interval).
Proof.
  intros [H1 H2]. unfold time_sleep.
  destruct (Z.ltb_spec interval (- sleep_max));
    [unfold sleep_max in *; lia|].
  destruct (Z.ltb_spec sleep_max interval); [lia|].
  destruct (Z.ltb_spec interval 0); [lia|]. reflexivity.
Qed.

Lemma time_sleep_refuses (interval : Z) :
  ~ sleeps interval ->
  exists ex, forall w, time_sleep interval w = (Raise ex, w).
Proof.
  intros H. unfold time_sleep, sleeps in *.
  destruct (Z.ltb_spec interval (- sleep_max));
    [eexists; intros w; reflexivity|].
  destruct (Z.ltb_spec sleep_max interval);
    [eexists; intros w; reflexivity|].
  destruct (Z.ltb_spec interval 0); [eexists; intros w; reflexivity|].
  exfalso. apply H. lia.
Qed.

Lemma sleeps_dec (interval : Z) : sleeps interval \/ ~ sleeps interval.
Proof. unfold sleeps. lia. Qed.

Lemma time_sleep_effect (interval : Z) (w w' : world) (r : result unit) :
  time_sleep interval w = (r, w') ->
  db w' = db w /\ date_calls w' = date_calls w /\ sounds w' = sounds w
  /\ now_calls w' = now_calls w
  /\ ((sleeps interval /\ r = Ok tt
       /\ stdout w' = stdout w ++ [Sleep interval])
      \/ (~ sleeps interval /\ w' = w /\ exists ex, r = Raise ex)).
Proof.
  destruct (sleeps_dec interval) as [H|H].
  - rewrite (time_sleep_sleeps _ H). unfold print. intros E.
    inversion E; subst. simpl. repeat split; auto.
  - destruct (time_sleep_refuses _ H) as (ex & Hex). rewrite Hex.
    intros E. inversion E; subst. repeat split; auto.
    right. repeat split; auto. now exists ex.
Qed.

(** One iteration either leaves the collection as it was or, when the
    provider answered for every device and the driver accepted the write,
    appends the batch of mapped records. *)
Lemma iteration_effect (clock : nat -> Z) (e : Tracker.poll_env)
    (interval : Z) (number : nat) (w w' : world) (r : result unit) :
  Tracker.iteration clock e interval number w = (r, w') ->
  date_calls w' = date_calls w /\ sounds w' = sounds w
  /\ now_calls w < now_calls w'
  /\ (db w' = db w
      \/ exists devices,
           Tracker.api_devices e = Ok devices
           /\ Forall status_ok devices
           /\ Tracker.insert_many_raises e = None
           /\ docs (db w')
              = docs (db w)
                ++ numbered (next_oid (db w))
                     (mapped clock (now_calls w) devices)
           /\ next_oid (db w') = next_oid (db w) + List.length devices
           /\ now_calls w' = now_calls w + List.length devices + 1).
Proof.
  unfold Tracker.iteration. unfold bind at 1. unfold print at 1.
  cbv beta iota. unfold bind at 1.
  match goal with
  | |- context [Tracker.fetch_device_locations clock ?a ?w0] =>
      destruct (Tracker.fetch_device_locations clock a w0)
        as [[locs|ex] w1] eqn:E1;
        apply fetch_device_locations_effect in E1; simpl in E1;
        destruct E1 as (F1 & F2 & F3 & F4 & F5)
  end.
  2:{ destruct F5 as [(? & _ & _ & ? & _)|(? & ? & _)]; discriminate. }
  unfold bind at 1.
  destruct (Tracker.display_summary clock locs w1) as [[[]|ex] w2] eqn:E2;
    apply display_summary_effect in E2;
    destruct E2 as (D1 & D2 & D3 & D4).
  2:{ intros H. inversion H; subst. repeat split; try congruence; try lia.
      left. congruence. }
  unfold bind at 1.
  assert (Hlocs : Forall (fun d => dict_get "_id" d = None) locs).
  { destruct F5 as [(ds & _ & _ & Hr & _)|(? & Hr & _)];
      inversion Hr; subst; [apply mapped_no_id|constructor]. }
  destruct (Tracker.save_to_mongodb (Tracker.insert_many_raises e) locs w2)
    as [rs w3] eqn:E3.
  apply (save_to_mongodb_effect _ _ _ _ _ Hlocs) in E3.
  destruct E3 as (S1 & S2 & S3 & n & -> & S4).
  run. intros H. apply time_sleep_effect in H. simpl in H.
  destruct H as (T1 & T2 & T3 & T4 & _).
  repeat split; try congruence; try lia.
  destruct S4 as [S4|(S4 & S5 & S6)]; [left; congruence|].
  destruct F5 as [(ds & A1 & A2 & A3 & A4 & A5)|(ex & A1 & _)].
  - right. exists ds. inversion A3; subst locs.
    rewrite mapped_length in S6.
    repeat split; auto; try congruence; try lia.
  - inversion A1; subst locs. left. simpl in S5, S6.
    rewrite app_nil_r in S5. rewrite Nat.add_0_r in S6.
    assert (db w3 = db w2)
      by (destruct (db w3), (db w2); simpl in *; congruence).
    congruence.
Qed.

(* ===================================================================== *)
(** ** Order of the creation timestamps *)
(* ===================================================================== *)

Lemma timestamps_app (a b : list dict) :
  timestamps (a ++ b) = timestamps a ++ timestamps b.
Proof.
  induction a as [|d a IH]; simpl; auto.
  destruct (sort_key d); simpl; now rewrite IH.
Qed.

Lemma sort_key_numbered_info (n : nat) (data st : dict) (loc : option dict)
    (now : Z) :
  sort_key (("_id", VOid n) :: Tracker.device_info data st loc now)
  = Some now.
Proof.
  unfold sort_key. simpl dict_get. now rewrite device_info_timestamp.
Qed.

Lemma timestamps_batch (clock : nat -> Z) (devices : list device) :
  forall n k,
    timestamps (numbered n (mapped clock k devices))
    = map clock (seq k (List.length devices)).
Proof.
  induction devices as [|d ds IH]; intros n k; simpl; auto.
  rewrite sort_key_numbered_info. now rewrite IH.
Qed.

Lemma batch_all_dated (clock : nat -> Z) (devices : list device) :
  forall n k, all_dated (numbered n (mapped clock k devices)).
Proof.
  induction devices as [|d ds IH]; intros n k; simpl; constructor.
  - eexists. apply sort_key_numbered_info.
  - apply IH.
Qed.

Lemma sorted_app (a b : list Z) :
  StronglySorted Z.le a -> StronglySorted Z.le b ->
  (forall x y, In x a -> In y b -> (x <= y)%Z) ->
  StronglySorted Z.le (a ++ b).
Proof.
  intros Ha Hb Hab. induction Ha as [|x a Ha IH Hx]; simpl; auto.
  constructor.
  - apply IH. intros u v Hu Hv. apply Hab; simpl; auto.
  - apply Forall_app. split; auto.
    apply Forall_forall. intros y Hy. apply Hab; simpl; auto.
Qed.

Lemma sorted_readings (clock : nat -> Z) (m : nat) :
  non_decreasing clock ->
  forall k, StronglySorted Z.le (map clock (seq k m)).
Proof.
  intros Hc. induction m as [|m IH]; intros k; simpl; constructor.
  - apply IH.
  - apply Forall_forall. intros y Hy. apply in_map_iff in Hy.
    destruct Hy as (j & <- & Hj). apply in_seq in Hj. apply Hc. lia.
Qed.

Lemma readings_between (clock : nat -> Z) (k m lo hi : nat) :
  lo <= k -> k + m <= hi ->
  read_between clock lo hi (map clock (seq k m)).
Proof.
  intros H1 H2. apply Forall_forall. intros y Hy.
  apply in_map_iff in Hy. destruct Hy as (j & <- & Hj).
  apply in_seq in Hj. exists j. repeat split; lia.
Qed.

Lemma read_between_widen (clock : nat -> Z) (lo hi lo' hi' : nat)
    (ts : list Z) :
  lo' <= lo -> hi <= hi' ->
  read_between clock lo hi ts -> read_between clock lo' hi' ts.
Proof.
  intros H1 H2 H. eapply Forall_impl; [|exact H].
  intros t (k & A & B & C). exists k. repeat split; auto; lia.
Qed.

Lemma read_between_le (clock : nat -> Z) (lo mid hi : nat) (a b : list Z) :
  non_decreasing clock ->
  read_between clock lo mid a -> read_between clock mid hi b ->
  forall x y, In x a -> In y b -> (x <= y)%Z.
Proof.
  intros Hc Ha Hb x y Hx Hy.
  unfold read_between in *. rewrite Forall_forall in Ha, Hb.
  destruct (Ha _ Hx) as (i & _ & Hi & ->).
  destruct (Hb _ Hy) as (j & Hj & _ & ->). apply Hc. lia.
Qed.

Section TrackerOrder.

Variable clock : nat -> Z.
Hypothesis clock_non_decreasing : non_decreasing clock.

(** The records that the loop of the standalone tracker adds are dated
    with successive readings of the clock, in the order of insertion. *)
Lemma while_true_order (envs : list Tracker.poll_env) (interval : Z) :
  forall (number : nat) (w w' : world) (r : result unit),
    Tracker.while_true clock envs interval number w = (r, w') ->
    now_calls w <= now_calls w'
    /\ exists added,
         docs (db w') = docs (db w) ++ added
         /\ all_dated added
         /\ StronglySorted Z.le (timestamps added)
         /\ read_between clock (now_calls w) (now_calls w')
              (timestamps added).
Proof.
  induction envs as [|e envs IH]; intros number w w' r; simpl.
  - unfold ret. intros H. inversion H; subst. split; auto.
    exists []. rewrite app_nil_r. repeat split; constructor.
  - unfold bind at 1.
    destruct (Tracker.iteration clock e interval (S number) w)
      as [[[]|ex] w1] eqn:E; apply iteration_effect in E;
      destruct E as (_ & _ & Hlt & Hdb).
    + intros H. apply IH in H. destruct H as (Hle & added & A1 & A2 & A3 & A4).
      split; [lia|].
      destruct Hdb as [Hdb|(ds & _ & _ & _ & B1 & B2 & B3)].
      * exists added. rewrite <- Hdb. repeat split; auto.
        eapply read_between_widen; [| |exact A4]; lia.
      * exists (numbered (next_oid (db w)) (mapped clock (now_calls w) ds)
                ++ added).
        rewrite A1, B1, <- app_assoc. repeat split; auto.
        -- apply Forall_app. split; auto. apply batch_all_dated.
        -- rewrite timestamps_app, timestamps_batch. apply sorted_app; auto.
           ++ now apply sorted_readings.
           ++ apply (read_between_le clock (now_calls w) (now_calls w1)
                      (now_calls w')); auto.
              apply readings_between; lia.
        -- rewrite timestamps_app, timestamps_batch.
           apply Forall_app. split.
           ++ apply readings_between; lia.
           ++ eapply read_between_widen; [| |exact A4]; lia.
    + intros H. inversion H; subst. split; [lia|].
      destruct Hdb as [Hdb|(ds & _ & _ & _ & B1 & B2 & B3)].
      * exists []. rewrite app_nil_r, Hdb. repeat split; constructor.
      * exists (numbered (next_oid (db w)) (mapped clock (now_calls w) ds)).
        split; [exact B1|]. split; [apply batch_all_dated|].
        rewrite timestamps_batch. split.
        -- now apply sorted_readings.
        -- apply readings_between; lia.
Qed.

End TrackerOrder.

(** *** The Flask tracker *)

Lemma build_record_store (e : App.track_env) (w w1 : world)
    (r : result dict) :
  App.build_record e w = (r, w1) ->
  db w1 = db w /\ date_calls w1 = date_calls w
  /\ now_calls w1 = now_calls w /\ sounds w1 = sounds w.
Proof.
  unfold App.build_record. run.
  destruct (status (App.tracked_device e)) as [st|ex]; simpl.
  2:{ intros H; inversion H; subst; auto. }
  destruct (location (App.tracked_device e)) as [[[|p loc]|]|ex']; simpl;
    try (intros H; inversion H; subst; simpl; now auto).
  run.
  repeat match goal with
         | |- context [format_f ?x] => destruct (format_f x); simpl
         | |- context [format_percent ?x] =>
             destruct (format_percent x); simpl
         end;
    intros H; inversion H; subst; simpl; auto.
Qed.

Lemma fresh_ids_inserted (info : dict) (w : world) :
  dict_get "_id" info = None ->
  fresh_ids (db w) -> fresh_ids (db (inserted info w)).
Proof.
  intros Hid Hf. unfold fresh_ids, inserted in *. simpl.
  rewrite (with_id_fresh _ _ Hid). apply Forall_app. split.
  - eapply Forall_impl; [|exact Hf]. intros d (k & A & B).
    exists k. split; auto.
  - constructor; [|constructor]. exists (next_oid (db w)). split; auto.
Qed.

Lemma fresh_ids_stamped (info : dict) (t : Z) (w : world) :
  dict_get "_id" info = None ->
  fresh_ids (db w) -> fresh_ids (db (stamped info t w)).
Proof.
  intros Hid Hf. unfold fresh_ids, stamped in *. simpl.
  rewrite (with_id_fresh _ _ Hid). apply Forall_app. split.
  - eapply Forall_impl; [|exact Hf]. intros d (k & A & B).
    exists k. split; auto.
  - constructor; [|constructor]. exists (next_oid (db w)). split; auto.
Qed.

Section FlaskOrder.

Variable server_clock : nat -> Z.

(** What the [try] block adds to the collection: nothing, a record
    without a date, or a record dated by the server. *)
Lemma track_body_effect (e : App.track_env) (w w1 : world)
    (r : result unit) :
  App.track_body server_clock e w = (r, w1) ->
  fresh_ids (db w) ->
  fresh_ids (db w1)
  /\ exists added,
       docs (db w1) = docs (db w) ++ added
       /\ ((timestamps added = [] /\ date_calls w1 = date_calls w)
           \/ (timestamps added = [server_clock (date_calls w)]
               /\ date_calls w1 = S (date_calls w))).
Proof.
  intros H Hf.
  destruct (App.build_record e w) as [[info|ex] w0] eqn:Hb.
  - destruct (build_record_store _ _ _ _ Hb) as (B1 & B2 & _).
    destruct (build_record_no_timestamp _ _ _ _ Hb) as [Hts Hid].
    rewrite <- B1 in Hf.
    destruct (App.insert_one_raises e) as [ex|] eqn:Hi.
    + rewrite (track_body_insert_raises _ _ _ _ _ _ Hb Hi) in H.
      inversion H; subst. split; [exact Hf|].
      exists []. rewrite app_nil_r, B1. split; auto.
    + destruct (App.update_one_raises e) as [ex|] eqn:Hu.
      * rewrite (track_body_update_raises _ _ _ _ _ _ Hb Hi Hu) in H.
        inversion H; subst. split; [now apply fresh_ids_inserted|].
        exists [with_id (next_oid (db w0)) info]. split.
        -- simpl. now rewrite B1.
        -- left. split; [|exact B2].
           rewrite (with_id_fresh _ _ Hid). simpl. unfold sort_key.
           simpl. now rewrite Hts.
      * rewrite (track_body_succeeds _ _ _ _ _ Hb Hi Hu Hf) in H.
        inversion H; subst. split; [now apply fresh_ids_stamped|].
        eexists. split.
        -- simpl. rewrite B1. reflexivity.
        -- right. simpl. unfold sort_key. rewrite dict_get_set_same.
           rewrite B2. auto.
  - unfold App.track_body, bind in H. rewrite Hb in H.
    inversion H; subst.
    destruct (build_record_store _ _ _ _ Hb) as (B1 & B2 & _).
    rewrite B1. split; [exact Hf|].
    exists []. rewrite app_nil_r. split; auto.
Qed.

(** One turn of [while tracking_active:]: the [try] block, the line of
    the handler when it raised, then the pause, which ends the loop when
    [time.sleep] raises. *)
Lemma while_tracking_active_unfold (e : App.track_env) (interval : Z)
    (w : world) :
  App.tracking_active e = true ->
  exists r1 w1 w2,
    App.track_body server_clock e w = (r1, w1)
    /\ db w2 = db w1 /\ date_calls w2 = date_calls w1
    /\ stdout w2
       = stdout w1
         ++ match r1 with
            | Ok _ => []
            | Raise ex => [PrintError "Error tracking location: " ex]
            end
    /\ forall rest,
         App.while_tracking_active server_clock (e :: rest) interval w
         = match time_sleep interval w2 with
           | (Ok _, w3) =>
               App.while_tracking_active server_clock rest interval w3
           | (Raise ex, w3) => (Raise ex, w3)
           end.
Proof.
  intros Ha. simpl. rewrite Ha. unfold bind, try_except.
  destruct (App.track_body server_clock e w) as [[[]|ex] w1].
  - exists (Ok tt), w1, w1. rewrite app_nil_r. repeat split.
  - unfold print. exists (Raise ex), w1.
    eexists. split; [reflexivity|]. cbv beta iota.
    split; [|split; [|split; [|intros rest; reflexivity]]]; reflexivity.
Qed.

Hypothesis server_clock_non_decreasing : non_decreasing server_clock.

(** The dates that the loop of the Flask tracker gives are successive
    readings of the server's clock, in the order of insertion. *)
Lemma while_tracking_active_order (envs : list App.track_env)
    (interval : Z) :
  forall (w w' : world) (r : result loop_end),
    App.while_tracking_active server_clock envs interval w = (r, w') ->
    fresh_ids (db w) ->
    date_calls w <= date_calls w'
    /\ exists added,
         docs (db w') = docs (db w) ++ added
         /\ StronglySorted Z.le (timestamps added)
         /\ read_between server_clock (date_calls w) (date_calls w')
              (timestamps added).
Proof.
  induction envs as [|e envs IH]; intros w w' r.
  - simpl. unfold ret. intros H _. inversion H; subst. split; auto.
    exists []. rewrite app_nil_r. repeat split; constructor.
  - destruct (App.tracking_active e) eqn:Ha.
    2:{ simpl. rewrite Ha. unfold ret. intros H _. inversion H; subst.
        split; auto.
        exists []. rewrite app_nil_r. repeat split; constructor. }
    intros H Hf.
    destruct (while_tracking_active_unfold e interval w Ha)
      as (r1 & w1 & w2 & E & D2 & C2 & _ & U).
    rewrite U in H. clear U.
    destruct (track_body_effect _ _ _ _ E Hf) as (Hf1 & batch & B1 & B2).
    assert (Hbatch : StronglySorted Z.le (timestamps batch)
                     /\ read_between server_clock (date_calls w)
                          (date_calls w1) (timestamps batch)
                     /\ date_calls w <= date_calls w1).
    { destruct B2 as [[-> Hd]|[-> Hd]]; rewrite Hd.
      - repeat split; auto; constructor.
      - split; [repeat constructor|]. split; [|lia].
        constructor; [|constructor].
        exists (date_calls w). repeat split; lia. }
    destruct Hbatch as (S1 & S2 & S3).
    destruct (time_sleep interval w2) as [[[]|ex] w3] eqn:T;
      apply time_sleep_effect in T; destruct T as (T1 & T2 & _).
    + apply IH in H; [|rewrite T1, D2; exact Hf1].
      destruct H as (Hle & added & A1 & A2 & A3).
      rewrite T1, D2 in A1. rewrite T2, C2 in Hle, A3.
      split; [lia|]. exists (batch ++ added).
      rewrite A1, B1, <- app_assoc, timestamps_app.
      split; [reflexivity|]. split.
      * apply sorted_app; auto.
        apply (read_between_le server_clock (date_calls w) (date_calls w1)
                 (date_calls w')); auto.
      * apply Forall_app. split.
        -- eapply read_between_widen; [| |exact S2]; lia.
        -- eapply read_between_widen; [| |exact A3]; lia.
    + inversion H; subst. rewrite T1, T2, D2, C2.
      split; [exact S3|]. exists batch. repeat split; auto.
Qed.

End FlaskOrder.

(* ===================================================================== *)
(** ** The most recent record of a device *)
(* ===================================================================== *)

Lemma first_greatest_last (y : dict) (olds : list dict) :
  forall best,
    (forall x, In x olds -> key_ltb (sort_key x) (sort_key y) = true) ->
    match best with
    | None => True
    | Some b => key_ltb (sort_key b) (sort_key y) = true
    end ->
    first_greatest best (olds ++ [y]) = Some y.
Proof.
  induction olds as [|x olds IH]; intros best Hx Hb; simpl.
  - destruct best as [b|]; auto. now rewrite Hb.
  - destruct best as [b|].
    + destruct (key_ltb (sort_key b) (sort_key x));
        apply IH; auto; intros; apply Hx; simpl; auto.
    + apply IH; [intros; apply Hx; simpl; auto|]. apply Hx. simpl. auto.
Qed.

Lemma matches_numbered_info (v : value) (n : nat) (data st : dict)
    (loc : option dict) (now : Z) :
  matches "device_id" v
    (("_id", VOid n) :: Tracker.device_info data st loc now)
  = value_eqb (get data "id") v.
Proof.
  unfold matches. simpl dict_get. now rewrite device_info_device_id.
Qed.

(** Among the records of one batch, the query for a device's id selects
    the record of that device alone. *)
Lemma filter_batch (clock : nat -> Z) (devices : list device) :
  forall (n k j : nat) (d : device),
    NoDup (map device_id devices) ->
    nth_error devices j = Some d ->
    filter (matches "device_id" (device_id d))
           (numbered n (mapped clock k devices))
    = [("_id", VOid (n + j))
       :: Tracker.device_info (data d) (status_seen d) (location_seen d)
            (clock (k + j))]
    /\ nth_error (numbered n (mapped clock k devices)) j
       = Some (("_id", VOid (n + j))
               :: Tracker.device_info (data d) (status_seen d)
                    (location_seen d) (clock (k + j))).
Proof.
  induction devices as [|d0 ds IH]; intros n k j d Hnd Hj.
  - destruct j; discriminate.
  - inversion Hnd as [|? ? Hnotin Hnd']; subst. simpl.
    rewrite matches_numbered_info. destruct j as [|j]; simpl in Hj.
    + inversion Hj; subst d0. fold (device_id d).
      rewrite value_eqb_refl, !Nat.add_0_r. split; [|reflexivity].
      f_equal.
      assert (Hnone : forall n' k',
                 filter (matches "device_id" (device_id d))
                        (numbered n' (mapped clock k' ds)) = []).
      { clear IH Hnd Hnd' Hj. induction ds as [|d1 ds IHds];
          intros n' k'; simpl; auto.
        rewrite matches_numbered_info.
        destruct (value_eqb (get (data d1) "id") (device_id d)) eqn:E.
        - apply value_eqb_eq in E. exfalso. apply Hnotin. simpl. left.
          exact E.
        - apply IHds. intros Hin. apply Hnotin. simpl. right. exact Hin. }
      apply Hnone.
    + destruct (value_eqb (get (data d0) "id") (device_id d)) eqn:E.
      * apply value_eqb_eq in E. exfalso. apply Hnotin.
        fold (device_id d0) in E. rewrite E.
        apply in_map. eapply nth_error_In. exact Hj.
      * destruct (IH (S n) (S k) j d Hnd' Hj) as [F1 F2].
        simpl nth_error. rewrite F1, F2.
        rewrite !Nat.add_succ_r. simpl. auto.
Qed.

Lemma dated_key (clock : nat -> Z) (lo hi : nat) (ds : list dict) :
  all_dated ds -> read_between clock lo hi (timestamps ds) ->
  forall x, In x ds ->
    exists i, lo <= i /\ i < hi /\ sort_key x = Some (clock i).
Proof.
  intros Hd. induction Hd as [|d ds (t & Ht) _ IH]; simpl.
  - intros _ x [].
  - rewrite Ht. intros Hr x [<-|Hin].
    + inversion Hr as [|? ? (i & A & B & C) _]; subst.
      exists i. repeat split; auto.
    + inversion Hr; subst. now apply IH.
Qed.

Lemma while_true_app (clock : nat -> Z) (interval : Z)
    (envs envs' : list Tracker.poll_env) :
  forall (number : nat) (w : world),
    Tracker.while_true clock (envs ++ envs') interval number w
    = match Tracker.while_true clock envs interval number w with
      | (Ok _, w1) =>
          Tracker.while_true clock envs' interval
            (number + List.length envs) w1
      | (Raise e, w1) => (Raise e, w1)
      end.
Proof.
  induction envs as [|e envs IH]; intros number w; simpl.
  - now rewrite Nat.add_0_r.
  - unfold bind.
    destruct (Tracker.iteration clock e interval (S number) w)
      as [[[]|ex] w1]; auto.
    rewrite IH. now rewrite Nat.add_succ_r.
Qed.

(** An iteration in which the provider answers for every device and the
    driver accepts the write appends one batch, unless the summary
    raises. *)
Lemma iteration_all_fine (clock : nat -> Z) (devices : list device)
    (interval : Z) (number : nat) (w w' : world) :
  Forall status_ok devices ->
  Tracker.iteration clock (all_fine devices) interval number w
  = (Ok tt, w') ->
  docs (db w')
  = docs (db w)
    ++ numbered (next_oid (db w)) (mapped clock (now_calls w) devices)
  /\ next_oid (db w') = next_oid (db w) + List.length devices
  /\ now_calls w' = now_calls w + List.length devices + 1.
Proof.
  intros Hok. unfold Tracker.iteration. unfold bind at 1.
  unfold print at 1. cbv beta iota. unfold bind at 1.
  match goal with
  | |- context [Tracker.fetch_device_locations clock ?a ?w0] =>
      destruct (Tracker.fetch_device_locations clock a w0)
        as [[locs|ex] w1] eqn:E1;
        apply fetch_device_locations_effect in E1; simpl in E1;
        destruct E1 as (F1 & F2 & F3 & F4 & F5)
  end.
  2:{ destruct F5 as [(? & _ & _ & ? & _)|(? & ? & _)]; discriminate. }
  destruct F5 as [(ds & A1 & A2 & A3 & A4 & A5)|(ex & _ & _ & A)].
  2:{ exfalso. destruct A as [A|(ds & d & A & Hin & Hd)]; [discriminate|].
      inversion A; subst ds. rewrite Forall_forall in Hok.
      destruct (Hok _ Hin) as (st & Hst). congruence. }
  inversion A1; subst ds. inversion A3; subst locs.
  unfold bind at 1.
  destruct (Tracker.display_summary clock _ w1) as [[[]|ex] w2] eqn:E2;
    apply display_summary_effect in E2;
    destruct E2 as (D1 & D2 & D3 & D4); [|discriminate].
  unfold bind at 1.
  destruct (save_to_mongodb_fine (mapped clock (now_calls w) devices) w2
              (mapped_no_id _ _ _)) as (w3 & E3 & S1 & S2 & S3 & _).
  simpl Tracker.insert_many_raises. rewrite E3. run.
  intros H. apply time_sleep_effect in H. simpl in H.
  destruct H as (T1 & _ & _ & T4 & _).
  rewrite mapped_length in S2.
  rewrite T1, T4, S1, S2, S3, D1, D4, F1, A4. repeat split; lia.
Qed.

Lemma while_true_all_fine (clock : nat -> Z) (devices : list device)
    (interval : Z) (N : nat) :
  Forall status_ok devices ->
  forall (number : nat) (w w' : world),
    Tracker.while_true clock (repeat (all_fine devices) N) interval number w
    = (Ok tt, w') ->
    List.length (docs (db w'))
    = List.length (docs (db w)) + N * List.length devices
    /\ next_oid (db w') = next_oid (db w) + N * List.length devices
    /\ now_calls w' = now_calls w + N * (List.length devices + 1).
Proof.
  intros Hok. induction N as [|N IH]; intros number w w'; simpl.
  - unfold ret. intros H. inversion H; subst. lia.
  - unfold bind at 1.
    destruct (Tracker.iteration clock (all_fine devices) interval
                (S number) w) as [[[]|ex] w1] eqn:E; [|discriminate].
    apply (iteration_all_fine _ _ _ _ _ _ Hok) in E.
    destruct E as (E1 & E2 & E3).
    intros H. apply IH in H. destruct H as (H1 & H2 & H3).
    rewrite H1, H2, H3, E1, E2, E3.
    rewrite length_app, numbered_length, mapped_length. lia.
Qed.

Lemma strictly_increasing_non_decreasing (clock : nat -> Z) :
  strictly_increasing clock -> non_decreasing clock.
Proof.
  intros H a b Hab. destruct (Nat.eq_dec a b) as [->|Hne]; [lia|].
  apply Z.lt_le_incl. apply H. lia.
Qed.

(** C1, as amended.  Take [S N] iterations of the standalone tracker on
    an empty collection, the provider listing the same devices with
    pairwise different ids and answering for each, the driver accepting
    every write, and the loop still running afterwards.  [wall] is the
    wall clock in microseconds, of which a creation timestamp keeps the
    whole milliseconds.  Whatever the clock does, the collection then
    holds [S N] times as many records as there are devices.  If in
    addition the successive readings of the clock, in whole
    milliseconds, increase strictly, the query of [GET /location] for a
    device gives the record that the last iteration stored for it. *)
Theorem latest_record_found_when_clock_advances :
  forall (wall : nat -> Z) (devices : list device) (N : nat)
         (interval : Z) (w' : world),
    Forall status_ok devices ->
    NoDup (map device_id devices) ->
    Tracker.track_continuously (fun n => millis (wall n))
      (repeat (all_fine devices) (S N)) interval initial
    = (Ok StillLooping, w') ->
    count (db w') = S N * List.length devices
    /\ (strictly_increasing (fun n => millis (wall n)) ->
        forall (j : nat) (d : device),
          nth_error devices j = Some d ->
          let latest :=
            ("_id", VOid (N * List.length devices + j))
            :: Tracker.device_info (data d) (status_seen d)
                 (location_seen d)
                 (millis (wall (N * (List.length devices + 1) + j))) in
          nth_error (docs (db w')) (N * List.length devices + j)
          = Some latest
          /\ find_one (db w') (device_id d) = Some latest).
Proof.
  intros wall.
  assert (General :
            forall (clock : nat -> Z) (devices : list device) (N : nat)
                   (interval : Z) (w' : world),
              Forall status_ok devices ->
              NoDup (map device_id devices) ->
              Tracker.track_continuously clock
                (repeat (all_fine devices) (S N)) interval initial
              = (Ok StillLooping, w') ->
              count (db w') = S N * List.length devices
              /\ (strictly_increasing clock ->
                  forall (j : nat) (d : device),
                    nth_error devices j = Some d ->
                    let latest :=
                      ("_id", VOid (N * List.length devices + j))
                      :: Tracker.device_info (data d) (status_seen d)
                           (location_seen d)
                           (clock (N * (List.length devices + 1) + j)) in
                    nth_error (docs (db w')) (N * List.length devices + j)
                    = Some latest
                    /\ find_one (db w') (device_id d) = Some latest)).
  { clear wall. intros clock devices N interval w' Hok Hnd Hrun.
    unfold Tracker.track_continuously in Hrun.
    unfold bind at 1 in Hrun. unfold print at 1 in Hrun.
    cbv beta iota in Hrun. unfold try_except, bind at 1 in Hrun.
    change (repeat (all_fine devices) (S N))
      with (all_fine devices :: repeat (all_fine devices) N) in Hrun.
    rewrite repeat_cons, while_true_app in Hrun.
    match type of Hrun with
    | context [Tracker.while_true clock (repeat _ N) interval 0 ?w0] =>
        destruct (Tracker.while_true clock (repeat (all_fine devices) N)
                    interval 0 w0) as [[[]|ex] w1] eqn:E1
    end.
    2:{ revert Hrun. run. discriminate. }
    simpl Tracker.while_true in Hrun. unfold bind at 1 in Hrun.
    match type of Hrun with
    | context [Tracker.iteration clock ?e interval ?n w1] =>
        destruct (Tracker.iteration clock e interval n w1)
          as [[[]|ex] w2] eqn:E2
    end.
    2:{ revert Hrun. run. discriminate. }
    revert Hrun. run. intros Hrun. inversion Hrun; subst w'. clear Hrun.
    pose proof (while_true_all_fine _ _ _ _ Hok _ _ _ E1)
      as (L1 & L2 & L3).
    simpl in L1, L2, L3.
    apply (iteration_all_fine _ _ _ _ _ _ Hok) in E2.
    destruct E2 as (I1 & I2 & I3).
    rewrite L2, L3 in I1. split.
    - unfold count. rewrite I1, length_app, L1, numbered_length,
        mapped_length. lia.
    - intros Hclock j d Hj.
      pose proof (while_true_order clock
                    (strictly_increasing_non_decreasing _ Hclock)
                    _ _ _ _ _ _ E1) as (_ & added & O1 & O2 & _ & O3).
      simpl in O1, O3. subst added.
      match goal with |- _ = Some ?l /\ _ => set (latest := l) end.
      destruct (filter_batch clock devices (N * List.length devices)
                  (N * (List.length devices + 1)) j d Hnd Hj) as [F1 F2].
      fold latest in F1, F2. split.
      + rewrite I1, nth_error_app2 by lia.
        rewrite L1. replace (N * List.length devices + j
                             - N * List.length devices) with j by lia.
        exact F2.
      + unfold find_one. rewrite I1, filter_app, F1.
        apply first_greatest_last; [|exact I].
        intros x Hx. apply filter_In in Hx. destruct Hx as [Hx _].
        destruct (dated_key _ _ _ _ O2 O3 x Hx) as (i & _ & Hi & Hkey).
        rewrite Hkey. unfold latest. rewrite sort_key_numbered_info.
        simpl. apply Z.ltb_lt. apply Hclock. lia. }
  intros devices N interval w'.
  exact (General (fun n => millis (wall n)) devices N interval w').
Qed.

(* ===================================================================== *)
(** ** The mapper on the specification's example *)
(* ===================================================================== *)

(** C8, as amended.  For the device named "Jane's iPhone", model
    "iPhone 16 Pro", battery fraction 0.82 and location 37.7749,
    -122.4194 with accuracy 5.0 and fix time [T],
    [fetch_device_locations] returns the one record [mapped_record]: the
    name, model and battery level under [name], [model] and
    [battery_level]; the position as a GeoJSON point under [location],
    longitude first; latitude, longitude, accuracy and fix time under
    [location_data] as [latitude], [longitude], [accuracy] and
    [location_timestamp]; and the other fields of the record, among them
    the creation timestamp read from the clock. *)
Theorem example_device_is_mapped :
  forall (clock : nat -> Z) (T : Z) (w : world),
    fst (Tracker.fetch_device_locations clock (Ok [janes_iphone T]) w)
    = Ok [mapped_record T (clock (now_calls w))].
Proof. intros clock T w. reflexivity. Qed.

(** The record differs from the one the specification writes down: it
    has no [lat] under [location], and it has fields the expected record
    lacks. *)
Lemma example_record_is_not_the_expected_one :
  fst (Tracker.fetch_device_locations ticking
         (Ok [janes_iphone 1730600000000]) initial)
  = Ok [mapped_record 1730600000000 0]
  /\ ~ same_dict (mapped_record 1730600000000 0)
                 (expected_normalized 1730600000000)
  /\ dict_get "location" (mapped_record 1730600000000 0)
     <> dict_get "location" (expected_normalized 1730600000000)
  /\ dict_get "device_id" (expected_normalized 1730600000000) = None.
Proof.
  split; [reflexivity|]. split; [|split].
  - intros H. specialize (H "location"). discriminate H.
  - discriminate.
  - reflexivity.
Qed.

(* ===================================================================== *)
(** ** Creation timestamps: their order and who assigns them *)
(* ===================================================================== *)

Lemma track_continuously_db (clock : nat -> Z)
    (envs : list Tracker.poll_env) (interval : Z) (w : world) :
  exists r w0 w1,
    Tracker.while_true clock envs interval 0 w0 = (r, w1)
    /\ db w0 = db w /\ now_calls w0 = now_calls w
    /\ db (snd (Tracker.track_continuously clock envs interval w)) = db w1.
Proof.
  unfold Tracker.track_continuously. unfold bind at 1. unfold print at 1.
  cbv beta iota. unfold try_except, bind at 1.
  match goal with
  | |- context [Tracker.while_true clock envs interval 0 ?w0] =>
      destruct (Tracker.while_true clock envs interval 0 w0)
        as [[[]|ex] w1] eqn:E; exists (fst (Tracker.while_true clock envs
                                              interval 0 w0)), w0, w1
  end; rewrite E; simpl; auto.
Qed.

Lemma track_location_db (server_clock : nat -> Z)
    (envs : list App.track_env) (interval : Z) (w : world) :
  exists r w0 w1,
    App.while_tracking_active server_clock envs interval w0 = (r, w1)
    /\ db w0 = db w /\ date_calls w0 = date_calls w
    /\ db (snd (App.track_location server_clock envs interval w)) = db w1.
Proof.
  unfold App.track_location. unfold bind at 1. unfold print at 1.
  cbv beta iota. unfold bind at 1.
  match goal with
  | |- context [App.while_tracking_active server_clock envs interval ?w0] =>
      destruct (App.while_tracking_active server_clock envs interval w0)
        as [[how|ex] w1] eqn:E;
        exists (fst (App.while_tracking_active server_clock envs
                       interval w0)), w0, w1
  end; rewrite E; simpl; auto.
  destruct how; simpl; auto.
Qed.

(** C2, as amended.  When the successive readings of the clock do not
    decrease, the creation timestamps of the records that one run of a
    tracker adds to the collection do not decrease in the order of
    insertion: for the standalone tracker, whose records are all dated
    from the local clock, and for the Flask tracker, whose records are
    dated by the database server (those left without a date by a failed
    update apart). *)
Theorem timestamps_follow_the_clock :
  forall (clock server_clock : nat -> Z) (envs : list Tracker.poll_env)
         (tenvs : list App.track_env) (interval : Z) (w : world),
    non_decreasing clock ->
    non_decreasing server_clock ->
    fresh_ids (db w) ->
    (exists added,
       docs (db (snd (Tracker.track_continuously clock envs interval w)))
       = docs (db w) ++ added
       /\ all_dated added
       /\ StronglySorted Z.le (timestamps added))
    /\ (exists added,
          docs (db (snd (App.track_location server_clock tenvs interval w)))
          = docs (db w) ++ added
          /\ StronglySorted Z.le (timestamps added)).
Proof.
  intros clock server_clock envs tenvs interval w Hc Hs Hf. split.
  - destruct (track_continuously_db clock envs interval w)
      as (r & w0 & w1 & E & D0 & _ & D1).
    destruct (while_true_order clock Hc _ _ _ _ _ _ E)
      as (_ & added & A1 & A2 & A3 & _).
    exists added. rewrite D1, A1, D0. auto.
  - destruct (track_location_db server_clock tenvs interval w)
      as (r & w0 & w1 & E & D0 & _ & D1).
    rewrite <- D0 in Hf.
    destruct (while_tracking_active_order server_clock Hs _ _ _ _ _ E Hf)
      as (_ & added & A1 & A2 & _).
    exists added. rewrite D1, A1, D0. auto.
Qed.

(** With the clock set back between two iterations the second record is
    dated before the first. *)
Lemma clock_set_back_disorders_timestamps :
  timestamps
    (docs (db (snd (Tracker.track_continuously clock_set_back
                      [all_fine [janes_iphone 0]; all_fine [janes_iphone 0]]
                      300 initial))))
  = [7140; 3843]%Z
  /\ ~ StronglySorted Z.le
         (timestamps
            (docs (db (snd (Tracker.track_continuously clock_set_back
                              [all_fine [janes_iphone 0];
                               all_fine [janes_iphone 0]]
                              300 initial))))).
Proof.
  assert (E : timestamps
                (docs (db (snd (Tracker.track_continuously clock_set_back
                                  [all_fine [janes_iphone 0];
                                   all_fine [janes_iphone 0]]
                                  300 initial))))
              = [7140; 3843]%Z) by reflexivity.
  split; [exact E|]. rewrite E. intros H.
  inversion H as [|? ? _ Hall]; subst.
  inversion Hall as [|? ? Hle _]; subst. lia.
Qed.

Lemma mapped_timestamps (clock : nat -> Z) (devices : list device) :
  forall k,
    Forall (fun d => exists i, k <= i /\ i < k + List.length devices
                               /\ dict_get "timestamp" d
                                  = Some (VDate (clock i)))
           (mapped clock k devices).
Proof.
  induction devices as [|d ds IH]; intros k; simpl; constructor.
  - exists k. rewrite device_info_timestamp. repeat split; lia.
  - eapply Forall_impl; [|apply (IH (S k))].
    intros x (i & A & B & C). exists i. repeat split; auto; lia.
Qed.

Lemma numbered_timestamps (ds : list dict) :
  forall n,
    map (dict_get "timestamp") (numbered n ds)
    = map (dict_get "timestamp") ds.
Proof.
  induction ds as [|d ds IH]; intros n; simpl; auto. now rewrite IH.
Qed.

(** C3, as amended.  In the Flask tracker the record handed to
    [insert_one] carries no timestamp, and the stored record gets the
    date of the database server from the update that follows the
    insert.  In the standalone tracker and in the tracker of the
    container, which share [fetch_device_locations], every record
    leaves the mapper with the timestamp read from the local clock, and
    [save_to_mongodb] stores the records with the timestamps they came
    with. *)
Theorem who_assigns_the_timestamp :
  forall (clock server_clock : nat -> Z) (e : App.track_env)
         (api : result (list device)) (w w1 w2 : world)
         (info : dict) (locs : list dict),
    App.build_record e w = (Ok info, w1) ->
    App.insert_one_raises e = None ->
    App.update_one_raises e = None ->
    fresh_ids (db w1) ->
    Tracker.fetch_device_locations clock api w = (Ok locs, w2) ->
    dict_get "timestamp" info = None
    /\ (exists w3 stored,
          App.track_body server_clock e w = (Ok tt, w3)
          /\ docs (db w3) = docs (db w1) ++ [stored]
          /\ dict_get "timestamp" stored
             = Some (VDate (server_clock (date_calls w1))))
    /\ Forall (fun d => exists i, now_calls w <= i /\ i < now_calls w2
                                  /\ dict_get "timestamp" d
                                     = Some (VDate (clock i))) locs
    /\ (exists w4 stored,
          Tracker.save_to_mongodb None locs w2 = (Ok (List.length locs), w4)
          /\ docs (db w4) = docs (db w2) ++ stored
          /\ map (dict_get "timestamp") stored
             = map (dict_get "timestamp") locs)
    /\ TrackerDocker.fetch_device_locations = Tracker.fetch_device_locations.
Proof.
  intros clock server_clock e api w w1 w2 info locs Hb Hi Hu Hf Hfetch.
  destruct (build_record_no_timestamp _ _ _ _ Hb) as [Hts Hid].
  apply fetch_device_locations_effect in Hfetch.
  destruct Hfetch as (_ & _ & _ & Hle & Hcases).
  assert (Hlocs : Forall (fun d => dict_get "_id" d = None) locs
                  /\ Forall (fun d => exists i,
                                now_calls w <= i /\ i < now_calls w2
                                /\ dict_get "timestamp" d
                                   = Some (VDate (clock i))) locs).
  { destruct Hcases as [(ds & _ & _ & Hr & Hn & _)|(ex & Hr & _)];
      inversion Hr; subst locs.
    - split; [apply mapped_no_id|]. rewrite Hn. apply mapped_timestamps.
    - split; constructor. }
  destruct Hlocs as [Hnoid Hdated].
  split; [exact Hts|]. split; [|split; [exact Hdated|split]].
  - exists (stamped info (server_clock (date_calls w1)) w1).
    eexists. split; [now apply track_body_succeeds|].
    split; [reflexivity|]. apply dict_get_set_same.
  - destruct (save_to_mongodb_fine locs w2 Hnoid) as (w4 & E & D & _).
    exists w4, (numbered (next_oid (db w2)) locs).
    split; [exact E|]. split; [exact D|]. apply numbered_timestamps.
  - reflexivity.
Qed.

(** The standalone tracker hands [insert_many] a record that already
    carries its timestamp, read from the local clock when the record was
    mapped, and that is the timestamp stored. *)
Lemma tracker_supplies_the_timestamp :
  fst (Tracker.fetch_device_locations clock_set_back
         (Ok [janes_iphone 0]) initial)
  = Ok [mapped_record 0 7140]
  /\ dict_get "timestamp" (mapped_record 0 7140) = Some (VDate 7140)
  /\ docs (db (snd (Tracker.track_once clock_set_back
                      (all_fine [janes_iphone 0]) initial)))
     = [("_id", VOid 0) :: mapped_record 0 7140].
Proof. repeat split. Qed.

(* ===================================================================== *)
(** ** The most recent record, across a change of the clock *)
(* ===================================================================== *)

(** After two successful iterations across the moment the clock is set
    back, the collection holds two records, and the query of
    [GET /location] gives the record of the first iteration, not that of
    the second. *)
Lemma clock_set_back_hides_latest_record :
  fst run_across_clock_change = Ok StillLooping
  /\ count (db (snd run_across_clock_change)) = 2
  /\ nth_error (docs (db (snd run_across_clock_change))) 1
     = Some (("_id", VOid 1) :: mapped_record 0 3843)
  /\ find_one (db (snd run_across_clock_change))
              (device_id (janes_iphone 0))
     = Some (("_id", VOid 0) :: mapped_record 0 7140)
  /\ find_one (db (snd run_across_clock_change))
              (device_id (janes_iphone 0))
     <> nth_error (docs (db (snd run_across_clock_change))) 1.
Proof.
  split; [vm_compute; reflexivity|].
  split; [vm_compute; reflexivity|].
  split; [vm_compute; reflexivity|].
  split; [vm_compute; reflexivity|].
  intros H. vm_compute in H. discriminate H.
Qed.

(** Two iterations whose readings of the clock increase strictly but
    fall in the same millisecond: the two records carry the same date,
    the tie goes to the earlier one, and the query gives the record of
    the first iteration. *)
Lemma readings_within_a_millisecond_tie :
  (forall a b, a < b ->
     (every_300_microseconds a < every_300_microseconds b)%Z)
  /\ fst run_within_a_millisecond = Ok StillLooping
  /\ timestamps (docs (db (snd run_within_a_millisecond)))
     = [1000; 1000]%Z
  /\ find_one (db (snd run_within_a_millisecond))
              (device_id (janes_iphone 0))
     = nth_error (docs (db (snd run_within_a_millisecond))) 0
  /\ find_one (db (snd run_within_a_millisecond))
              (device_id (janes_iphone 0))
     <> nth_error (docs (db (snd run_within_a_millisecond))) 1.
Proof.
  split; [intros a b H; unfold every_300_microseconds; lia|].
  split; [vm_compute; reflexivity|].
  split; [vm_compute; reflexivity|].
  split; [vm_compute; reflexivity|].
  intros H. vm_compute in H. discriminate H.
Qed.

(* ===================================================================== *)
(** ** An iteration in which a step raises *)
(* ===================================================================== *)

Lemma fetch_each_raises (clock : nat -> Z) (before after : list device)
    (d : device) (ex : exn) :
  Forall status_ok before -> status d = Raise ex ->
  forall (locations : list dict) (w : world),
    exists w1,
      Tracker.fetch_each clock (before ++ d :: after) locations w
      = (Raise ex, w1)
      /\ db w1 = db w /\ stdout w1 = stdout w.
Proof.
  intros Hb Hd. induction Hb as [|x before [st Hst] _ IH];
    intros locations w; simpl.
  - rewrite Hd. run. exists w. auto.
  - rewrite Hst. unfold bind at 1. unfold lift at 1. cbv beta iota.
    unfold bind at 1. unfold try_except, lift at 1.
    destruct (location x) as [l|ex']; unfold ret; cbv beta iota;
      unfold bind at 1; unfold datetime_now at 1; cbv beta iota;
      match goal with
      | |- context [Tracker.fetch_each clock _ ?l ?w0] =>
          destruct (IH l w0) as (w1 & E & D & O)
      end; exists w1; rewrite E; auto.
Qed.

Lemma failed_fetch (clock : nat -> Z) (e : Tracker.poll_env) (ex : exn)
    (w0 : world) :
  fetch_raises e ex ->
  exists w1,
    Tracker.fetch_device_locations clock (Tracker.api_devices e) w0
    = (Ok [], w1)
    /\ db w1 = db w0
    /\ stdout w1
       = stdout w0
         ++ [PrintError "Error fetching device locations: " ex;
             PrintTraceback].
Proof.
  intros [Hr|(before & d & after & Hr & Hb & Hd)];
    unfold Tracker.fetch_device_locations; rewrite Hr.
  - run. eexists. split; [reflexivity|]. simpl.
    rewrite <- app_assoc. auto.
  - unfold try_except. unfold bind at 1. unfold lift at 1. cbv beta iota.
    destruct (fetch_each_raises clock before after d ex Hb Hd [] w0)
      as (w1 & E & D & O).
    rewrite E. run. eexists. split; [reflexivity|]. simpl.
    rewrite <- app_assoc, O. auto.
Qed.

Lemma successful_fetch (clock : nat -> Z) (e : Tracker.poll_env)
    (devices : list device) (w0 : world) :
  Tracker.api_devices e = Ok devices -> Forall status_ok devices ->
  exists w1,
    Tracker.fetch_device_locations clock (Tracker.api_devices e) w0
    = (Ok (mapped clock (now_calls w0) devices), w1)
    /\ db w1 = db w0 /\ stdout w1 = stdout w0.
Proof.
  intros Hapi Hok.
  destruct (Tracker.fetch_device_locations clock (Tracker.api_devices e) w0)
    as [r w1] eqn:E.
  pose proof (fetch_device_locations_effect _ _ _ _ _ E)
    as (D & _ & _ & _ & [(ds & A1 & _ & -> & _ & Hout)|(ex & _ & _ & A)]).
  - rewrite Hapi in A1. inversion A1; subst ds. exists w1. auto.
  - exfalso. destruct A as [A|(ds & d & A & Hin & Hd)]; [congruence|].
    rewrite Hapi in A. inversion A; subst ds.
    rewrite Forall_forall in Hok. destruct (Hok _ Hin) as (st & Hst).
    congruence.
Qed.

Lemma mapped_not_empty (clock : nat -> Z) (k : nat) (devices : list device) :
  devices <> [] -> mapped clock k devices <> [].
Proof. destruct devices; [contradiction|discriminate]. Qed.

(** What a summary prints comes after what was printed before. *)
Lemma display_each_stdout (locs : list dict) :
  forall (w w' : world) (r : result unit),
    Tracker.display_each locs w = (r, w') ->
    exists evs, stdout w' = stdout w ++ evs
                /\ existsb is_error_line evs = false.
Proof.
  induction locs as [|loc locs IH]; intros w w' r; simpl.
  - unfold ret. intros H. inversion H; subst. exists [].
    now rewrite app_nil_r.
  - unfold bind.
    destruct (Tracker.display_device loc w) as [[[]|e] w1] eqn:E.
    + intros H. apply IH in H. destruct H as (evs & H1 & H2).
      revert E. unfold Tracker.display_device. run.
      display_cases;
        intros E; inversion E; subst; simpl in H1;
        eexists; (split; [rewrite H1, <- ?app_assoc; reflexivity|]);
        simpl; exact H2.
    + intros H. inversion H; subst. clear H.
      revert E. unfold Tracker.display_device. run.
      display_cases;
        intros E; inversion E; subst; simpl;
        eexists; (split; [rewrite <- ?app_assoc; try reflexivity;
                          symmetry; apply app_nil_r|]);
        reflexivity.
Qed.

Lemma display_summary_stdout (clock : nat -> Z) (locs : list dict)
    (w w' : world) (r : result unit) :
  Tracker.display_summary clock locs w = (r, w') ->
  exists evs, stdout w' = stdout w ++ evs.
Proof.
  unfold Tracker.display_summary. unfold bind at 1 2 3 4. run.
  match goal with
  | |- context [Tracker.display_each locs ?w0] =>
      destruct (Tracker.display_each locs w0) as [[[]|e] w1] eqn:E;
        apply display_each_stdout in E; simpl in E;
        destruct E as (evs & E & _)
  end; intros H; inversion H; subst; simpl; rewrite E;
    rewrite <- ?app_assoc; eexists; reflexivity.
Qed.

(** *** The summary of the container's tracker *)

Lemma docker_display_each_effect (locs : list dict) :
  forall (w w' : world) (r : result unit),
    TrackerDocker.display_each locs w = (r, w') ->
    db w' = db w /\ now_calls w' = now_calls w
    /\ exists evs, stdout w' = stdout w ++ evs.
Proof.
  induction locs as [|loc locs IH]; intros w w' r; simpl.
  - unfold ret. intros H. inversion H; subst. repeat split.
    exists []. now rewrite app_nil_r.
  - unfold bind at 1.
    destruct (TrackerDocker.display_device loc w) as [[[]|e] w1] eqn:E.
    + intros H. apply IH in H. destruct H as (H0 & H1 & evs & H2).
      revert E. unfold TrackerDocker.display_device. run.
      display_cases; intros E; inversion E; subst; simpl in *;
        (repeat split; auto);
        eexists; rewrite H2, <- ?app_assoc; reflexivity.
    + intros H. inversion H; subst. clear H.
      revert E. unfold TrackerDocker.display_device. run.
      display_cases; intros E; inversion E; subst; simpl;
        (repeat split; auto);
        eexists; rewrite <- ?app_assoc; try reflexivity;
        symmetry; apply app_nil_r.
Qed.

Lemma docker_display_summary_effect (clock : nat -> Z) (locs : list dict)
    (number : nat) (w w' : world) (r : result unit) :
  TrackerDocker.display_summary clock locs number w = (r, w') ->
  db w' = db w /\ now_calls w' = S (now_calls w)
  /\ exists evs, stdout w' = stdout w ++ evs.
Proof.
  unfold TrackerDocker.display_summary. unfold bind at 1 2 3 4 5. run.
  match goal with
  | |- context [TrackerDocker.display_each locs ?w0] =>
      destruct (TrackerDocker.display_each locs w0) as [[[]|e] w1] eqn:E;
        apply docker_display_each_effect in E; simpl in E;
        destruct E as (E0 & E1 & evs & E)
  end; intros H; inversion H; subst; simpl; rewrite E;
    rewrite <- ?app_assoc; (repeat split; auto); eexists; reflexivity.
Qed.

(** *** The cases *)

Lemma last_after {A : Type} (l l' : list A) (x d : A) :
  last (l ++ x :: l') d = last (x :: l') d.
Proof.
  induction l as [|y l IH]; [reflexivity|].
  simpl app. rewrite <- IH. simpl. destruct (l ++ x :: l') eqn:E; auto.
  destruct l; discriminate.
Qed.

Lemma skipped_intro (interval : Z) (prefix : string) (ex : exn)
    (w w' : world) (evs : list event) :
  db w' = db w -> stdout w' = stdout w ++ evs ->
  In (PrintError prefix ex) evs ->
  last evs (Print EmptyString) = Sleep interval ->
  skipped interval ex w w'.
Proof. intros. split; auto. exists evs. eauto. Qed.

Lemma tracker_skips_failed_fetch (clock : nat -> Z) (e : Tracker.poll_env)
    (ex : exn) (rest : list Tracker.poll_env) (interval : Z)
    (number : nat) (w : world) :
  sleeps interval ->
  fetch_raises e ex ->
  exists w',
    Tracker.while_true clock (e :: rest) interval number w
    = Tracker.while_true clock rest interval (S number) w'
    /\ skipped interval ex w w'.
Proof.
  intros Hs Hf. simpl Tracker.while_true. unfold bind at 1.
  unfold Tracker.iteration. rewrite (time_sleep_sleeps _ Hs).
  unfold bind at 1. unfold print at 1.
  cbv beta iota. unfold bind at 1.
  match goal with
  | |- context [Tracker.fetch_device_locations clock _ ?w0] =>
      destruct (failed_fetch clock e ex w0 Hf) as (w1 & E & D & O)
  end.
  rewrite E. simpl in D, O. run.
  eexists. split; [reflexivity|].
  eapply skipped_intro; simpl.
  - exact D.
  - rewrite O, <- !app_assoc. simpl. reflexivity.
  - simpl. auto.
  - reflexivity.
Qed.

Lemma docker_skips_failed_fetch (clock : nat -> Z) (e : Tracker.poll_env)
    (ex : exn) (rest : list Tracker.poll_env) (interval : Z)
    (number : nat) (w : world) :
  sleeps interval ->
  fetch_raises e ex ->
  exists w',
    TrackerDocker.while_true clock (e :: rest) interval number w
    = TrackerDocker.while_true clock rest interval (S number) w'
    /\ skipped interval ex w w'.
Proof.
  intros Hs Hf. simpl TrackerDocker.while_true. unfold bind at 1.
  unfold TrackerDocker.iteration. rewrite (time_sleep_sleeps _ Hs).
  unfold bind at 1.
  unfold TrackerDocker.fetch_device_locations.
  destruct (failed_fetch clock e ex w Hf) as (w1 & E & D & O).
  rewrite E. run.
  eexists. split; [reflexivity|].
  eapply skipped_intro; simpl.
  - exact D.
  - rewrite O, <- !app_assoc. simpl. reflexivity.
  - simpl. auto.
  - reflexivity.
Qed.

Lemma tracker_failed_write_iteration (clock : nat -> Z)
    (e : Tracker.poll_env) (devices : list device) (ex : exn)
    (interval : Z) (number : nat) (w w' : world) :
  sleeps interval ->
  write_raises e devices ex ->
  Tracker.iteration clock e interval number w = (Ok tt, w') ->
  skipped interval ex w w'.
Proof.
  intros Hs (Hapi & Hne & Hok & Hins).
  unfold Tracker.iteration. rewrite (time_sleep_sleeps _ Hs).
  unfold bind at 1. unfold print at 1.
  cbv beta iota. unfold bind at 1.
  match goal with
  | |- context [Tracker.fetch_device_locations clock _ ?w0] =>
      destruct (successful_fetch clock e devices w0 Hapi Hok)
        as (w1 & E & D & O)
  end.
  rewrite E. simpl in D, O. unfold bind at 1.
  match goal with
  | |- context [Tracker.display_summary clock ?l w1] =>
      destruct (Tracker.display_summary clock l w1)
        as [[[]|ex'] w2] eqn:E2
  end; [|discriminate].
  pose proof (display_summary_effect _ _ _ _ _ E2) as (D2 & _).
  pose proof (display_summary_stdout _ _ _ _ _ E2) as (evs & O2).
  unfold bind at 1. rewrite Hins.
  rewrite save_to_mongodb_raises by now apply mapped_not_empty.
  run. intros H. inversion H; subst w'. clear H.
  eapply skipped_intro; simpl.
  - congruence.
  - rewrite O2, O, <- !app_assoc. simpl. reflexivity.
  - right. apply in_or_app. right. simpl. auto.
  - rewrite ?app_comm_cons, last_after. reflexivity.
Qed.

Lemma tracker_skips_failed_write (clock : nat -> Z) (e : Tracker.poll_env)
    (devices : list device) (ex : exn) (rest : list Tracker.poll_env)
    (interval : Z) (number : nat) (w : world) :
  sleeps interval ->
  write_raises e devices ex ->
  fst (Tracker.iteration clock e interval (S number) w) = Ok tt ->
  exists w',
    Tracker.while_true clock (e :: rest) interval number w
    = Tracker.while_true clock rest interval (S number) w'
    /\ skipped interval ex w w'.
Proof.
  intros Hs Hw Hit.
  destruct (Tracker.iteration clock e interval (S number) w)
    as [r w'] eqn:E.
  simpl in Hit. subst r. exists w'. split.
  - simpl. unfold bind. now rewrite E.
  - now apply (tracker_failed_write_iteration clock e devices ex
                 interval (S number)).
Qed.

Lemma docker_failed_write_iteration (clock : nat -> Z)
    (e : Tracker.poll_env) (devices : list device) (ex : exn)
    (interval : Z) (number : nat) (w w' : world) :
  sleeps interval ->
  write_raises e devices ex ->
  TrackerDocker.iteration clock e interval number w = (Ok tt, w') ->
  skipped interval ex w w'.
Proof.
  intros Hs (Hapi & Hne & Hok & Hins).
  unfold TrackerDocker.iteration. rewrite (time_sleep_sleeps _ Hs).
  unfold bind at 1.
  unfold TrackerDocker.fetch_device_locations.
  destruct (successful_fetch clock e devices w Hapi Hok)
    as (w1 & E & D & O).
  rewrite E. unfold bind at 1.
  match goal with
  | |- context [TrackerDocker.display_summary clock ?l ?n w1] =>
      destruct (TrackerDocker.display_summary clock l n w1)
        as [[[]|ex'] w2] eqn:E2
  end; [|discriminate].
  pose proof (docker_display_summary_effect _ _ _ _ _ _ E2)
    as (D2 & _ & evs & O2).
  unfold bind at 1. unfold TrackerDocker.save_to_mongodb. rewrite Hins.
  rewrite save_to_mongodb_raises by now apply mapped_not_empty.
  run. intros H. inversion H; subst w'. clear H.
  eapply skipped_intro; simpl.
  - congruence.
  - rewrite O2, O, <- !app_assoc. simpl. reflexivity.
  - apply in_or_app. right. simpl. auto.
  - rewrite ?app_comm_cons, last_after. reflexivity.
Qed.

Lemma docker_skips_failed_write (clock : nat -> Z) (e : Tracker.poll_env)
    (devices : list device) (ex : exn) (rest : list Tracker.poll_env)
    (interval : Z) (number : nat) (w : world) :
  sleeps interval ->
  write_raises e devices ex ->
  fst (TrackerDocker.iteration clock e interval (S number) w) = Ok tt ->
  exists w',
    TrackerDocker.while_true clock (e :: rest) interval number w
    = TrackerDocker.while_true clock rest interval (S number) w'
    /\ skipped interval ex w w'.
Proof.
  intros Hs Hw Hit.
  destruct (TrackerDocker.iteration clock e interval (S number) w)
    as [r w'] eqn:E.
  simpl in Hit. subst r. exists w'. split.
  - simpl. unfold bind. now rewrite E.
  - now apply (docker_failed_write_iteration clock e devices ex
                 interval (S number)).
Qed.

Lemma build_record_stdout (e : App.track_env) (w w1 : world)
    (r : result dict) :
  App.build_record e w = (r, w1) ->
  exists evs, stdout w1 = stdout w ++ evs
              /\ existsb is_error_line evs = false.
Proof.
  unfold App.build_record. run.
  destruct (status (App.tracked_device e)) as [st|ex]; simpl.
  2:{ intros H; inversion H; subst. exists []. now rewrite app_nil_r. }
  destruct (location (App.tracked_device e)) as [[[|p loc]|]|ex']; simpl;
    try (intros H; inversion H; subst; simpl; eexists; split;
         [reflexivity|reflexivity]).
  run.
  repeat match goal with
         | |- context [format_f ?x] => destruct (format_f x); simpl
         | |- context [format_percent ?x] =>
             destruct (format_percent x); simpl
         end;
    intros H; inversion H; subst; simpl;
    try (eexists; split; [reflexivity|reflexivity]);
    exists []; now rewrite app_nil_r.
Qed.

Lemma flask_skips_failed_step (server_clock : nat -> Z)
    (e : App.track_env) (rest : list App.track_env) (interval : Z)
    (w w1 : world) (ex : exn) :
  sleeps interval ->
  App.tracking_active e = true ->
  raises_before_update e w w1 ex ->
  exists w',
    App.while_tracking_active server_clock (e :: rest) interval w
    = App.while_tracking_active server_clock rest interval w'
    /\ skipped interval ex w w'.
Proof.
  intros Hs Hact Hraise. simpl App.while_tracking_active. rewrite Hact.
  rewrite (time_sleep_sleeps _ Hs).
  assert (Hbody : App.track_body server_clock e w = (Raise ex, w1)
                  /\ db w1 = db w
                  /\ exists evs, stdout w1 = stdout w ++ evs).
  { destruct Hraise as [Hb|(info & Hb & Hi)].
    - destruct (build_record_store _ _ _ _ Hb) as (D & _).
      destruct (build_record_stdout _ _ _ _ Hb) as (evs & O & _).
      repeat split; eauto.
      unfold App.track_body, bind. now rewrite Hb.
    - destruct (build_record_store _ _ _ _ Hb) as (D & _).
      destruct (build_record_stdout _ _ _ _ Hb) as (evs & O & _).
      repeat split; eauto.
      now apply (track_body_insert_raises _ _ _ _ info). }
  destruct Hbody as (Hbody & D & evs & O).
  unfold bind at 1. unfold try_except at 1. rewrite Hbody.
  run. eexists. split; [reflexivity|].
  eapply skipped_intro; simpl.
  - exact D.
  - rewrite O, <- !app_assoc. simpl. reflexivity.
  - apply in_or_app. right. simpl. auto.
  - rewrite ?app_comm_cons, last_after. reflexivity.
Qed.

(** An error of the location lookup is caught on the spot: the device is
    mapped as one without a location and nothing is printed. *)
Lemma location_error_is_swallowed (clock : nat -> Z) (d : device)
    (st : dict) (ex : exn) (w : world) :
  status d = Ok st -> location d = Raise ex ->
  Tracker.fetch_device_locations clock (Ok [d]) w
  = (Ok [Tracker.device_info (data d) st None (clock (now_calls w))],
     World (db w) (S (now_calls w)) (date_calls w) (stdout w) (sounds w)).
Proof.
  intros Hst Hloc. unfold Tracker.fetch_device_locations. simpl. run.
  rewrite Hst. simpl. rewrite Hloc. reflexivity.
Qed.

(** C4, as amended.  Let the interval be one that [time.sleep] accepts.
    An iteration of a poll loop in which the provider raises while
    listing the devices or fetching a status, or in which the insert
    raises, or (Flask tracker) in which building and reporting the
    record raises, leaves the collection as it was; the exception that
    was raised is printed by the handler that caught it; the loop pauses
    and goes on with the next iteration.  For the insert of the two
    trackers this is said of an iteration that got as far as the insert,
    the summary printed before it having raised nothing.  An error of
    the location lookup is not such a step: it is caught without a
    message and the device is recorded without a location. *)
Theorem failed_step_skips_the_iteration :
  forall (clock server_clock : nat -> Z) (interval : Z)
         (e_fetch e_write : Tracker.poll_env) (ex_fetch : exn)
         (devices : list device)
         (ex_write : exn) (rest : list Tracker.poll_env) (number : nat)
         (e_flask : App.track_env) (rest_flask : list App.track_env)
         (w w1 : world) (ex_flask : exn)
         (d : device) (st : dict) (ex_location : exn),
    sleeps interval ->
    fetch_raises e_fetch ex_fetch ->
    write_raises e_write devices ex_write ->
    fst (Tracker.iteration clock e_write interval (S number) w) = Ok tt ->
    fst (TrackerDocker.iteration clock e_write interval (S number) w)
    = Ok tt ->
    App.tracking_active e_flask = true ->
    raises_before_update e_flask w w1 ex_flask ->
    status d = Ok st ->
    location d = Raise ex_location ->
    (exists w',
       Tracker.while_true clock (e_fetch :: rest) interval number w
       = Tracker.while_true clock rest interval (S number) w'
       /\ skipped interval ex_fetch w w')
    /\ (exists w',
          Tracker.while_true clock (e_write :: rest) interval number w
          = Tracker.while_true clock rest interval (S number) w'
          /\ skipped interval ex_write w w')
    /\ (exists w',
          TrackerDocker.while_true clock (e_fetch :: rest) interval number w
          = TrackerDocker.while_true clock rest interval (S number) w'
          /\ skipped interval ex_fetch w w')
    /\ (exists w',
          TrackerDocker.while_true clock (e_write :: rest) interval number w
          = TrackerDocker.while_true clock rest interval (S number) w'
          /\ skipped interval ex_write w w')
    /\ (exists w',
          App.while_tracking_active server_clock (e_flask :: rest_flask)
            interval w
          = App.while_tracking_active server_clock rest_flask interval w'
          /\ skipped interval ex_flask w w')
    /\ Tracker.fetch_device_locations clock (Ok [d]) w
       = (Ok [Tracker.device_info (data d) st None (clock (now_calls w))],
          World (db w) (S (now_calls w)) (date_calls w) (stdout w)
                (sounds w)).
Proof.
  intros clock server_clock interval e_fetch e_write ex_fetch devices
         ex_write rest
         number e_flask rest_flask w w1 ex_flask d st ex_location
         Hs Hfetch Hwrite Hit Hitd Hact Hflask Hst Hloc.
  split; [|split; [|split; [|split; [|split]]]].
  - now apply tracker_skips_failed_fetch.
  - now apply (tracker_skips_failed_write _ _ devices ex_write).
  - now apply docker_skips_failed_fetch.
  - now apply (docker_skips_failed_write _ _ devices ex_write).
  - now apply (flask_skips_failed_step _ _ _ _ _ w1 ex_flask).
  - now apply (location_error_is_swallowed _ _ _ ex_location).
Qed.

(** An error of the location lookup is not an error of the iteration:
    nothing is printed about it and the device is recorded, without a
    location. *)
Lemma location_error_still_records :
  location offline_ipad
  = Raise (Exn ProviderError "location request timed out")
  /\ fst run_with_offline_ipad = Ok StillLooping
  /\ count (db (snd run_with_offline_ipad)) = 1
  /\ existsb is_error_line (stdout (snd run_with_offline_ipad)) = false
  /\ map (dict_get "location") (docs (db (snd run_with_offline_ipad)))
     = [Some VNone].
Proof. repeat split. Qed.

(* ===================================================================== *)
(** ** [GET /location] *)
(* ===================================================================== *)

Lemma jsonable_dict_set (k : string) (v : value) (d : dict) :
  App.jsonable (VDict d) = true -> App.jsonable v = true ->
  App.jsonable (VDict (dict_set k v d)) = true.
Proof.
  intros Hd Hv. induction d as [|[k' v'] d IH]; simpl in *.
  - now rewrite Hv.
  - apply andb_prop in Hd as [H1 H2].
    destruct (String.eqb k k'); simpl.
    + now rewrite Hv.
    + rewrite H1. simpl. now apply IH.
Qed.

Section GetLocation.

Variable isoformat : Z -> string.
Variable str : value -> string.

(** With a key configured: no key gives 401, another key 403, the key
    and no record 404, the key and a dated record the record with its id
    as text and its date in ISO form. *)
Lemma get_location_answers (key : string) (a : App.api_env) (w : world) :
  key <> EmptyString ->
  App.find_one_raises a = None ->
  App.serve isoformat str (Some key) true App.GET_location a
    (App.Request None None) w = (Ok App.missing_key, w)
  /\ (forall other, other <> EmptyString -> other <> key ->
        App.serve isoformat str (Some key) true App.GET_location a
          (with_key other) w = (Ok App.invalid_key, w))
  /\ (find_one (db w) (device_id (App.target_device a)) = None ->
        App.serve isoformat str (Some key) true App.GET_location a
          (with_key key) w
        = (Ok (App.Response
                 (VDict [("error", VStr "No location data found")]) 404), w))
  /\ (forall n t rest,
        find_one (db w) (device_id (App.target_device a))
        = Some (("_id", VOid n) :: rest) ->
        dict_get "timestamp" rest = Some (VDate t) ->
        App.jsonable (VDict rest) = true ->
        App.serve isoformat str (Some key) true App.GET_location a
          (with_key key) w
        = (Ok (App.Response
                 (VDict (("_id", VStr (str (VOid n)))
                         :: dict_set "timestamp" (VStr (isoformat t)) rest))
                 200), w)).
Proof.
  intros Hkey Hfind.
  assert (Hk : String.eqb key EmptyString = false) by now apply String.eqb_neq.
  destruct w as [c n1 n2 out snd0].
  unfold App.serve, App.require_api_key, with_key. simpl.
  rewrite Hk. split; [reflexivity|]. split; [|split].
  - intros other Ho Hne.
    assert (E1 : String.eqb other EmptyString = false) by now apply String.eqb_neq.
    assert (E2 : String.eqb other key = false) by now apply String.eqb_neq.
    rewrite E1. simpl. rewrite E1, E2. reflexivity.
  - intros Hnone. rewrite ?Hk. simpl. rewrite ?Hk, String.eqb_refl. simpl.
    unfold App.get_location, try_except, bind, driver. rewrite Hfind.
    simpl. unfold device_id in Hnone. simpl in Hnone. now rewrite Hnone.
  - intros n t rest Hsome Hts Hjson. rewrite ?Hk. simpl.
    rewrite ?Hk, String.eqb_refl. simpl.
    unfold App.get_location, try_except, bind, driver. rewrite Hfind.
    simpl. unfold device_id in Hsome. simpl in Hsome. rewrite Hsome.
    simpl. rewrite Hts. simpl. unfold App.checked_jsonify.
    assert (Hj : App.jsonable
                   (VDict (("_id", VStr (str (VOid n)))
                           :: dict_set "timestamp" (VStr (isoformat t))
                                rest)) = true).
    { change (App.jsonable
                (VDict (dict_set "timestamp" (VStr (isoformat t)) rest))
              = true).
      now apply jsonable_dict_set. }
    rewrite Hj. reflexivity.
Qed.

(** C5, on the failing input.  The Flask tracker inserts the record of
    the phone and the update that would date it raises: the collection
    then holds one record for the phone.  [GET /location] with the
    configured key answers 500 with the text of the [KeyError], not the
    record. *)
Theorem location_of_undated_record_is_500 :
  count (db world_after_failed_update) = 1
  /\ find_one (db world_after_failed_update) (device_id (janes_iphone 0))
     = nth_error (docs (db world_after_failed_update)) 0
  /\ App.serve isoformat str (Some "secret") true App.GET_location
       asks_for_phone (with_key "secret") world_after_failed_update
     = (Ok (error_500 "'timestamp'"), world_after_failed_update)
  /\ App.status_code (error_500 "'timestamp'") = 500.
Proof. repeat split. Qed.

End GetLocation.

(* ===================================================================== *)
(** ** Partial input to the mapper *)
(* ===================================================================== *)

(** A location that is [None] or empty gives a record whose two location
    entries are [None]. *)
Lemma unavailable_location_is_null (loc : option dict) (base : dict) :
  loc = None \/ loc = Some [] ->
  dict_get "location" (Tracker.with_location loc base) = Some VNone
  /\ dict_get "location_data" (Tracker.with_location loc base) = Some VNone.
Proof.
  intros [->| ->]; simpl; split;
    rewrite ?dict_get_set_same; auto;
    rewrite dict_get_set_other by discriminate; apply dict_get_set_same.
Qed.

(** The mapper of the trackers raises nothing once the status of each
    device is there, whatever fields the dictionaries lack. *)
Lemma tracker_mapper_total (clock : nat -> Z) (devices : list device)
    (w : world) :
  Forall status_ok devices ->
  fst (Tracker.fetch_device_locations clock (Ok devices) w)
  = Ok (mapped clock (now_calls w) devices).
Proof.
  intros Hok.
  destruct (successful_fetch clock (all_fine devices) devices w
              eq_refl Hok) as (w1 & E & _).
  simpl in E. now rewrite E.
Qed.

(** In the Flask tracker a device without a location gives a record
    with null location entries and no exception. *)
Lemma flask_record_without_location (e : App.track_env) (st : dict)
    (w : world) :
  status (App.tracked_device e) = Ok st ->
  location_seen (App.tracked_device e) = None
  \/ location_seen (App.tracked_device e) = Some [] ->
  exists info,
    fst (App.build_record e w) = Ok info
    /\ dict_get "location" info = Some VNone
    /\ dict_get "location_data" info = Some VNone.
Proof.
  intros Hst Hloc. unfold App.build_record, location_seen in *. run.
  rewrite Hst. simpl.
  destruct (location (App.tracked_device e)) as [[[|p loc]|]|ex]; simpl;
    try (eexists; repeat split; reflexivity).
  destruct Hloc; discriminate.
Qed.

(** C7, on the failing inputs.  In the Flask tracker a location that
    comes without a latitude, or a status whose battery level is
    [None], makes the console report raise [TypeError]; no record is
    made, and the iteration stores nothing.  The mapper of the
    standalone tracker makes a record of the same devices. *)
Theorem partial_input_breaks_flask_record :
  fst (App.build_record (tracks phone_without_latitude) initial)
  = Raise (Exn TypeError
             "unsupported format string passed to NoneType.__format__")
  /\ fst (App.build_record (tracks phone_without_battery) initial)
     = Raise (Exn TypeError
                "unsupported operand type(s) for *: 'NoneType' and 'int'")
  /\ count (db (snd (App.track_location ticking
                       [tracks phone_without_latitude;
                        tracks phone_without_battery] 300 initial))) = 0
  /\ fst (Tracker.fetch_device_locations ticking
            (Ok [phone_without_latitude; phone_without_battery]) initial)
     = Ok (mapped ticking 0 [phone_without_latitude; phone_without_battery]).
Proof. repeat split. Qed.

(* ===================================================================== *)
(** ** The theorems at concrete inputs *)
(* ===================================================================== *)

Lemma ticking_strictly_increasing : strictly_increasing ticking.
Proof. intros a b H. unfold ticking. lia. Defined.

Lemma ticking_non_decreasing : non_decreasing ticking.
Proof. intros a b H. unfold ticking. lia. Defined.

Lemma a_millisecond_apart_strictly_increasing :
  strictly_increasing (fun n => millis (a_millisecond_apart n)).
Proof.
  intros a b H. unfold millis, a_millisecond_apart.
  rewrite !(Z.mul_comm 1000), !Z.div_mul by lia. lia.
Defined.

(** Two iterations over the phone and the tablet: four records, and the
    query for the tablet gives its record of the second iteration. *)
Lemma latest_record_found_witness :
  strictly_increasing (fun n => millis (a_millisecond_apart n))
  /\ Forall status_ok [janes_iphone 0; offline_ipad]
  /\ NoDup (map device_id [janes_iphone 0; offline_ipad])
  /\ count (db (snd run_two_devices)) = 4
  /\ find_one (db (snd run_two_devices)) (device_id offline_ipad)
     = nth_error (docs (db (snd run_two_devices))) 3.
Proof.
  assert (H1 : strictly_increasing
                 (fun n => millis (a_millisecond_apart n)))
    by exact a_millisecond_apart_strictly_increasing.
  assert (H2 : Forall status_ok [janes_iphone 0; offline_ipad]).
  { repeat constructor; eexists; reflexivity. }
  assert (H3 : NoDup (map device_id [janes_iphone 0; offline_ipad])).
  { repeat constructor; simpl; intuition discriminate. }
  assert (H4 : Tracker.track_continuously
                 (fun n => millis (a_millisecond_apart n))
                 (repeat (all_fine [janes_iphone 0; offline_ipad]) 2)
                 300 initial
               = (Ok StillLooping, snd run_two_devices))
    by (vm_compute; reflexivity).
  destruct (latest_record_found_when_clock_advances a_millisecond_apart
              [janes_iphone 0; offline_ipad] 1 300 (snd run_two_devices)
              H2 H3 H4) as [Hcount Hlatest].
  destruct (Hlatest H1 1 offline_ipad eq_refl) as [Hnth Hfind].
  split; [exact H1|]. split; [exact H2|]. split; [exact H3|].
  split; [exact Hcount|].
  rewrite Hfind. symmetry. exact Hnth.
Defined.

Lemma timestamps_follow_the_clock_witness :
  non_decreasing ticking
  /\ fresh_ids (db initial)
  /\ exists added,
       docs (db (snd (Tracker.track_continuously ticking
                        [all_fine [janes_iphone 0]; provider_down;
                         all_fine [offline_ipad]] 300 initial)))
       = docs (db initial) ++ added
       /\ all_dated added
       /\ StronglySorted Z.le (timestamps added).
Proof.
  assert (H1 : non_decreasing ticking) by exact ticking_non_decreasing.
  assert (H2 : fresh_ids (db initial)) by constructor.
  split; [exact H1|]. split; [exact H2|].
  exact (proj1 (timestamps_follow_the_clock ticking ticking
                  [all_fine [janes_iphone 0]; provider_down;
                   all_fine [offline_ipad]]
                  [tracks (janes_iphone 0); update_fails]
                  300 initial H1 H1 H2)).
Defined.

Lemma who_assigns_the_timestamp_witness :
  App.build_record (tracks (janes_iphone 0)) initial
  = (Ok flask_record, world_after_build)
  /\ fresh_ids (db world_after_build)
  /\ dict_get "timestamp" flask_record = None
  /\ Forall (fun d => exists i, now_calls initial <= i /\ i < 1
                                /\ dict_get "timestamp" d
                                   = Some (VDate (ticking i)))
            [mapped_record 0 0].
Proof.
  assert (H1 : App.build_record (tracks (janes_iphone 0)) initial
               = (Ok flask_record, world_after_build)) by (vm_compute; reflexivity).
  assert (H2 : fresh_ids (db world_after_build)) by constructor.
  assert (H3 : Tracker.fetch_device_locations ticking
                 (Ok [janes_iphone 0]) initial
               = (Ok [mapped_record 0 0],
                  snd (Tracker.fetch_device_locations ticking
                         (Ok [janes_iphone 0]) initial))) by (vm_compute; reflexivity).
  destruct (who_assigns_the_timestamp ticking ticking
              (tracks (janes_iphone 0)) (Ok [janes_iphone 0])
              initial world_after_build _ flask_record _
              H1 eq_refl eq_refl H2 H3) as (A & _ & B & _).
  split; [exact H1|]. split; [exact H2|]. split; [exact A|]. exact B.
Defined.

Lemma five_minutes_sleep : sleeps 300.
Proof. unfold sleeps, sleep_max. lia. Defined.

Lemma failed_step_skips_the_iteration_witness :
  sleeps 300
  /\ fetch_raises provider_down
       (Exn ProviderError "service unavailable")
  /\ write_raises write_fails [janes_iphone 0] lost_connection
  /\ raises_before_update insert_fails initial
       (snd (App.build_record insert_fails initial)) lost_connection
  /\ (exists w',
        Tracker.while_true ticking [provider_down] 300 0 initial
        = Tracker.while_true ticking [] 300 1 w'
        /\ skipped 300 (Exn ProviderError "service unavailable")
             initial w')
  /\ (exists w',
        App.while_tracking_active ticking [insert_fails] 300 initial
        = App.while_tracking_active ticking [] 300 w'
        /\ skipped 300 lost_connection initial w').
Proof.
  assert (H0 : sleeps 300) by exact five_minutes_sleep.
  assert (H1 : fetch_raises provider_down
                 (Exn ProviderError "service unavailable")).
  { left. reflexivity. }
  assert (H2 : write_raises write_fails [janes_iphone 0] lost_connection).
  { repeat split; try discriminate.
    repeat constructor. eexists. reflexivity. }
  assert (H3 : raises_before_update insert_fails initial
                 (snd (App.build_record insert_fails initial))
                 lost_connection).
  { right. exists flask_record. split; vm_compute; reflexivity. }
  assert (H4 : fst (Tracker.iteration ticking write_fails 300 1 initial)
               = Ok tt) by (vm_compute; reflexivity).
  assert (H5 : fst (TrackerDocker.iteration ticking write_fails 300 1
                      initial) = Ok tt) by (vm_compute; reflexivity).
  destruct (failed_step_skips_the_iteration ticking ticking 300
              provider_down write_fails
              (Exn ProviderError "service unavailable")
              [janes_iphone 0] lost_connection
              [] 0 insert_fails [] initial
              (snd (App.build_record insert_fails initial)) lost_connection
              offline_ipad [("batteryLevel", VFloat (40 # 100))]
              (Exn ProviderError "location request timed out")
              H0 H1 H2 H4 H5 eq_refl H3 eq_refl eq_refl)
    as (A & _ & _ & _ & B & _).
  split; [exact H0|]. split; [exact H1|]. split; [exact H2|].
  split; [exact H3|]. split; [exact A|]. exact B.
Defined.

Lemma unconfigured_key_fails_closed_witness :
  App.protected App.POST_alarm = true
  /\ App.not_str None = true
  /\ App.serve isoformat_stub str_stub None true App.POST_alarm
       asks_for_phone (with_key "secret") initial
     = (Ok App.misconfigured, initial).
Proof.
  split; [reflexivity|]. split; [reflexivity|].
  exact (proj1 (unconfigured_key_fails_closed isoformat_stub str_stub
                  None true App.POST_alarm asks_for_phone
                  (with_key "secret") initial eq_refl eq_refl)).
Defined.

Lemma timestamp_added_by_second_call_witness :
  App.build_record update_fails initial
  = (Ok flask_record, world_after_build)
  /\ App.insert_one_raises update_fails = None
  /\ App.track_body ticking update_fails initial
     = (Raise lost_connection, inserted flask_record world_after_build)
  /\ App.get_location isoformat_stub str_stub asks_for_phone
       world_after_failed_update
     = (Ok (error_500 "'timestamp'"), world_after_failed_update).
Proof.
  assert (H1 : App.build_record update_fails initial
               = (Ok flask_record, world_after_build)) by (vm_compute; reflexivity).
  assert (H2 : find_one (db world_after_failed_update)
                 (get (data (App.target_device asks_for_phone)) "id")
               = Some (with_id (next_oid (db world_after_build))
                         flask_record)) by (vm_compute; reflexivity).
  destruct (timestamp_added_by_second_call ticking isoformat_stub str_stub
              update_fails initial world_after_build flask_record
              H1 eq_refl) as (_ & A & _ & B).
  split; [exact H1|]. split; [reflexivity|]. split.
  - exact (A lost_connection eq_refl).
  - exact (proj1 (B asks_for_phone world_after_failed_update
                    eq_refl H2)).
Defined.

Lemma header_decides_before_query_witness :
  "secret" <> EmptyString
  /\ App.require_api_key (Some "secret") empty_view
       (App.Request (Some "secret") (Some "guess"))
     = App.require_api_key (Some "secret") empty_view
         (App.Request (Some "secret") None)
  /\ App.require_api_key (Some "secret") empty_view
       (App.Request (Some "guess") (Some "secret"))
     = ret App.invalid_key.
Proof.
  assert (H : "secret" <> EmptyString) by discriminate.
  split; [exact H|]. split.
  - exact (proj1 (header_decides_before_query (Some "secret") empty_view
                    "secret" (Some "guess") H) None).
  - assert (G : "guess" <> EmptyString) by discriminate.
    exact (proj1 (proj2 (header_decides_before_query (Some "secret")
                           empty_view "guess" (Some "secret") G))
             eq_refl).
Defined.

(* ===================================================================== *)
(** ** The API: who gets in, and what the views change *)
(* ===================================================================== *)

Lemma not_str_false (s : option string) :
  App.not_str s = false <-> exists k, s = Some k /\ k <> EmptyString.
Proof.
  destruct s as [k|]; simpl; split.
  - intros H. exists k. split; auto. now apply String.eqb_neq.
  - intros (k' & E & H). inversion E; subst. now apply String.eqb_neq.
  - discriminate.
  - intros (k' & E & _). discriminate.
Qed.

(** X1.  The decorator runs the view exactly when a key is configured,
    is not empty, and equals the key the request presents (the header,
    or the query parameter when the header is absent or empty).  Every
    other request is turned away with 500, 401 or 403 and leaves the
    world as it was. *)
Theorem access_is_granted_by_the_key_alone :
  forall (API_KEY : option string) (f : M App.response) (r : App.request)
         (w : world),
    (authorized API_KEY r -> App.require_api_key API_KEY f r w = f w)
    /\ (~ authorized API_KEY r ->
        exists resp,
          App.require_api_key API_KEY f r w = (Ok resp, w)
          /\ turned_away resp
          /\ (App.status_code resp = 500 \/ App.status_code resp = 401
              \/ App.status_code resp = 403)).
Proof.
  intros API_KEY f r w. unfold App.require_api_key, authorized.
  fold (presented_key r). split.
  - intros (k & -> & Hk & Hp). rewrite Hp. simpl.
    apply String.eqb_neq in Hk. rewrite Hk, String.eqb_refl. reflexivity.
  - intros Hno. destruct (App.not_str API_KEY) eqn:Ek.
    { exists App.misconfigured. unfold turned_away. auto. }
    destruct (App.not_str (presented_key r)) eqn:Ep.
    { exists App.missing_key. unfold turned_away. auto. }
    apply not_str_false in Ek. destruct Ek as (k & -> & Hk).
    apply not_str_false in Ep. destruct Ep as (p & Ep & Hp).
    rewrite Ep. simpl. destruct (String.eqb p k) eqn:E.
    + exfalso. apply Hno. apply String.eqb_eq in E. subst p.
      exists k. auto.
    + exists App.invalid_key. unfold turned_away. auto.
Qed.

Lemma access_is_granted_by_the_key_alone_witness :
  authorized (Some "secret") (App.Request None (Some "secret"))
  /\ ~ authorized (Some "secret") (with_key "guess")
  /\ App.require_api_key (Some "secret") empty_view
       (App.Request None (Some "secret")) initial
     = empty_view initial.
Proof.
  assert (H1 : authorized (Some "secret") (App.Request None (Some "secret"))).
  { exists "secret". repeat split. discriminate. }
  assert (H2 : ~ authorized (Some "secret") (with_key "guess")).
  { intros (k & E & _ & P). inversion E; subst. discriminate. }
  split; [exact H1|]. split; [exact H2|].
  exact (proj1 (access_is_granted_by_the_key_alone (Some "secret")
                  empty_view (App.Request None (Some "secret")) initial)
           H1).
Defined.

Section Views.

Variable isoformat : Z -> string.
Variable str : value -> string.

(** X2.  [POST /alarm]: a request that does not present the configured
    key changes nothing; one that does asks the provider for the sound
    exactly once and gets the success envelope with status 200, or, when
    the provider raises, the error envelope carrying the text of the
    exception with status 500 and no sound counted.  The collection is
    never touched. *)
Theorem alarm_sounds_once_for_the_key :
  forall (API_KEY : option string) (active : bool) (e : App.api_env)
         (r : App.request) (w w' : world) (resp : result App.response),
    App.serve isoformat str API_KEY active App.POST_alarm e r w
    = (resp, w') ->
    db w' = db w
    /\ (~ authorized API_KEY r -> w' = w)
    /\ (authorized API_KEY r -> App.play_sound_raises e = None ->
        sounds w' = S (sounds w)
        /\ resp = Ok (App.Response
                        (VDict [("status", VStr "success");
                                ("message",
                                 VStr ("Alarm triggered on "
                                       ++ str (get (data (App.target_device e))
                                                   "name")));
                                ("timestamp",
                                 VStr (isoformat (App.utcnow e) ++ "Z"))])
                        200))
    /\ (forall ex, authorized API_KEY r ->
                   App.play_sound_raises e = Some ex ->
        w' = w
        /\ resp = Ok (App.Response
                        (VDict [("status", VStr "error");
                                ("message", VStr (exn_str ex))])
                        500)).
Proof.
  intros API_KEY active e r w w' resp. unfold App.serve.
  destruct (access_is_granted_by_the_key_alone API_KEY
              (App.trigger_alarm isoformat str e) r w) as [Hyes Hno].
  intros H. assert (Hdb : db w' = db w /\
              ((~ authorized API_KEY r -> w' = w) /\
               (authorized API_KEY r ->
                App.trigger_alarm isoformat str e w = (resp, w')))).
  { split.
    - destruct (App.not_str API_KEY) eqn:Ek;
        unfold App.require_api_key in H; rewrite Ek in H.
      + inversion H; subst; auto.
      + destruct (App.not_str _) in H; [inversion H; subst; auto|].
        destruct (App.differs _ _) in H; [inversion H; subst; auto|].
        revert H. unfold App.trigger_alarm, try_except, bind, App.play_sound.
        destruct (App.play_sound_raises e); simpl;
          intros H; inversion H; subst; reflexivity.
    - split.
      + intros Hn. destruct (Hno Hn) as (resp0 & E & _). congruence.
      + intros Hy. rewrite <- (Hyes Hy). exact H. }
  destruct Hdb as (Hdb & Hn & Hy). split; [exact Hdb|].
  split; [exact Hn|]. split.
  - intros Ha Hp. specialize (Hy Ha). revert Hy.
    unfold App.trigger_alarm, try_except, bind, App.play_sound.
    rewrite Hp. simpl. intros Hy. inversion Hy; subst. auto.
  - intros ex Ha Hp. specialize (Hy Ha). revert Hy.
    unfold App.trigger_alarm, try_except, bind, App.play_sound.
    rewrite Hp. simpl. unfold ret. intros Hy. inversion Hy; subst. auto.
Qed.

End Views.

Lemma alarm_sounds_once_for_the_key_witness :
  App.serve isoformat_stub str_stub (Some "secret") true App.POST_alarm
    asks_for_phone (with_key "secret") initial
  = (Ok (App.Response
           (VDict [("status", VStr "success");
                   ("message", VStr "Alarm triggered on Jane's iPhone");
                   ("timestamp", VStr "2026-01-01T00:00:00Z")])
           200),
     World Mongo.empty 0 0 [] 1)
  /\ sounds (World Mongo.empty 0 0 [] 1) = S (sounds initial).
Proof.
  assert (H : App.serve isoformat_stub str_stub (Some "secret") true
                App.POST_alarm asks_for_phone (with_key "secret") initial
              = (Ok (App.Response
                       (VDict [("status", VStr "success");
                               ("message",
                                VStr "Alarm triggered on Jane's iPhone");
                               ("timestamp", VStr "2026-01-01T00:00:00Z")])
                       200),
                 World Mongo.empty 0 0 [] 1)) by (vm_compute; reflexivity).
  assert (A : authorized (Some "secret") (with_key "secret")).
  { exists "secret". repeat split. discriminate. }
  split; [exact H|].
  exact (proj1 (proj1 (proj2 (proj2 (alarm_sounds_once_for_the_key
                                       isoformat_stub str_stub
                                       (Some "secret") true asks_for_phone
                                       (with_key "secret") initial _ _ H)))
                  A eq_refl)).
Defined.

Section ReadingViews.

Variable isoformat : Z -> string.
Variable str : value -> string.

(** X3.  [GET /location] always answers, with 200, 404 or 500, and
    leaves the world as it was: whatever the driver raises and whatever
    the stored record looks like, no exception leaves the view and the
    collection is not written. *)
Theorem get_location_only_reads :
  forall (e : App.api_env) (w : world),
    exists resp,
      App.get_location isoformat str e w = (Ok resp, w)
      /\ (App.status_code resp = 200 \/ App.status_code resp = 404
          \/ App.status_code resp = 500).
Proof.
  intros e w. destruct w as [c n1 n2 out snd0].
  unfold App.get_location, try_except, bind, driver, lift, ret, set_db.
  destruct (App.find_one_raises e) as [ex|]; cbn [db].
  { eexists. split; [reflexivity|]. simpl. auto. }
  destruct (find_one c (get (data (App.target_device e)) "id"))
    as [[|p latest]|];
    try (eexists; split; [reflexivity|]; simpl; now auto).
  destruct (subscript (VDict (p :: latest)) "_id") as [i|ex].
  2:{ eexists. split; [reflexivity|]. simpl. auto. }
  destruct (subscript (VDict (dict_set "_id" (VStr (str i)) (p :: latest)))
              "timestamp") as [t|ex].
  2:{ eexists. split; [reflexivity|]. simpl. auto. }
  destruct (App.isoformat_of isoformat t) as [iso|ex].
  2:{ eexists. split; [reflexivity|]. simpl. auto. }
  unfold App.checked_jsonify, lift, ret.
  destruct (App.jsonable _);
    eexists; (split; [reflexivity|]); simpl; auto.
Qed.

(** X4.  [GET /status] asks the device and nothing else: it leaves the
    world as it was and always answers.  When [status()] raises, the
    answer is 500 with the text of the exception.  Otherwise it is 200
    with the seven looked-up fields and the time of the request, when
    every looked-up value can be serialized, and 500 with the text of
    the serializer's exception when one of them cannot. *)
Theorem get_status_only_reads :
  forall (e : App.api_env) (w : world),
    (forall ex, status (App.target_device e) = Raise ex ->
       App.get_status isoformat e w = (Ok (error_500 (exn_str ex)), w))
    /\ (forall st, status (App.target_device e) = Ok st ->
          (forallb App.jsonable (status_fields (App.target_device e) st)
           = true ->
           App.get_status isoformat e w
           = (Ok (App.Response
                    (VDict
                       [("device_id",
                         get (data (App.target_device e)) "id");
                        ("name", get (data (App.target_device e)) "name");
                        ("model",
                         get (data (App.target_device e))
                             "deviceDisplayName");
                        ("battery_level", get st "batteryLevel");
                        ("battery_status", get st "batteryStatus");
                        ("device_status",
                         get (data (App.target_device e)) "deviceStatus");
                        ("location_enabled",
                         get (data (App.target_device e))
                             "locationEnabled");
                        ("timestamp",
                         VStr (isoformat (App.utcnow e) ++ "Z"))])
                    200), w))
          /\ (forallb App.jsonable (status_fields (App.target_device e) st)
              = false ->
              App.get_status isoformat e w
              = (Ok (error_500
                       "Object of type ObjectId is not JSON serializable"),
                 w))).
Proof.
  intros e w. unfold App.get_status, try_except, bind, lift. split.
  - intros ex H. rewrite H. reflexivity.
  - intros st H. rewrite H. unfold App.checked_jsonify.
    match goal with
    | |- context [App.jsonable (VDict ?d)] =>
        assert (J : App.jsonable (VDict d)
                    = forallb App.jsonable
                        (status_fields (App.target_device e) st))
    end.
    { unfold status_fields.
      cbn [App.jsonable forallb]. rewrite !andb_true_r. reflexivity. }
    rewrite J. split; intros ->; reflexivity.
Qed.

End ReadingViews.

Lemma get_status_only_reads_witness :
  status (App.target_device asks_for_phone)
  = Ok [("batteryLevel", VFloat (82 # 100))]
  /\ forallb App.jsonable
       (status_fields (App.target_device asks_for_phone)
          [("batteryLevel", VFloat (82 # 100))]) = true
  /\ App.status_code
       (match fst (App.get_status isoformat_stub asks_for_phone initial)
        with
        | Ok resp => resp
        | Raise _ => error_500 EmptyString
        end) = 200.
Proof.
  assert (H : forallb App.jsonable
                (status_fields (App.target_device asks_for_phone)
                   [("batteryLevel", VFloat (82 # 100))]) = true)
    by (vm_compute; reflexivity).
  split; [reflexivity|]. split; [exact H|].
  rewrite (proj1 (proj2 (get_status_only_reads isoformat_stub
                           asks_for_phone initial)
                    [("batteryLevel", VFloat (82 # 100))] eq_refl) H).
  reflexivity.
Defined.

(* ===================================================================== *)
(** ** The target device *)
(* ===================================================================== *)

Lemma value_eqb_neq (a b : value) : a <> b -> value_eqb a b = false.
Proof.
  intros H. destruct (value_eqb a b) eqn:E; auto.
  apply value_eqb_eq in E. contradiction.
Qed.

(** X5.  [find_target_device] returns the first device of the list whose
    [deviceDisplayName] is the model asked for, devices of other models
    before it being passed over; when no device is of that model it
    raises with the model in the message, and when listing the devices
    raises, that exception comes through. *)
Theorem target_is_first_of_its_model :
  forall (Exception : exn_class) (model : string) (before after : list device)
         (d : device) (w : world),
    Forall (fun x => get (data x) "deviceDisplayName" <> VStr model) before ->
    (get (data d) "deviceDisplayName" = VStr model ->
     AppStart.find_target_device Exception (Ok (before ++ d :: after))
       model w
     = (Ok d,
        World (db w) (now_calls w) (date_calls w)
              (stdout w ++ [Print "Found target device: name (model)"])
              (sounds w)))
    /\ AppStart.find_target_device Exception (Ok before) model w
       = (Raise (Exn Exception
                   ("Could not find device with model: " ++ model)), w)
    /\ (forall ex,
          AppStart.find_target_device Exception (Raise ex) model w
          = (Raise ex, w)).
Proof.
  intros Exception model before after d w Hbefore.
  unfold AppStart.find_target_device, bind, lift.
  split; [|split; [|reflexivity]].
  - intros Hd. induction Hbefore as [|x before Hx _ IH]; simpl.
    + rewrite Hd, value_eqb_refl. reflexivity.
    + rewrite (value_eqb_neq _ _ Hx). exact IH.
  - induction Hbefore as [|x before Hx _ IH]; simpl.
    + reflexivity.
    + rewrite (value_eqb_neq _ _ Hx). exact IH.
Qed.

Lemma target_is_first_of_its_model_witness :
  Forall (fun x => get (data x) "deviceDisplayName" <> VStr iphone_16_pro)
         [a_macbook; offline_ipad]
  /\ fst (AppStart.find_target_device ProviderError
            (Ok ([a_macbook; offline_ipad]
                 ++ janes_iphone 0 :: [phone_without_battery]))
            iphone_16_pro initial)
     = Ok (janes_iphone 0).
Proof.
  assert (H : Forall (fun x => get (data x) "deviceDisplayName"
                               <> VStr iphone_16_pro)
                     [a_macbook; offline_ipad]).
  { repeat constructor; discriminate. }
  split; [exact H|].
  rewrite (proj1 (target_is_first_of_its_model ProviderError iphone_16_pro
                    [a_macbook; offline_ipad] [phone_without_battery]
                    (janes_iphone 0) initial H) eq_refl).
  reflexivity.
Defined.

(* ===================================================================== *)
(** ** What [save_to_mongodb] reports *)
(* ===================================================================== *)

Lemma insert_many_count (ds : list dict) :
  forall c,
    count (fst (insert_many c ds)) = count c + List.length ds
    /\ List.length (snd (insert_many c ds)) = List.length ds.
Proof.
  induction ds as [|d ds IH]; intros c; simpl.
  - unfold count. lia.
  - destruct (insert_many (Coll (docs c ++ [with_id (next_oid c) d])
                             (S (next_oid c))) ds) as [c2 ids] eqn:E.
    specialize (IH (Coll (docs c ++ [with_id (next_oid c) d])
                         (S (next_oid c)))).
    rewrite E in IH. simpl in *. destruct IH as [I1 I2].
    unfold count in *. simpl in I1. rewrite length_app in I1. simpl in I1.
    split; lia.
Qed.

(** X6.  The number that [save_to_mongodb] returns is the number of
    records the call added to the collection: all of them when the
    driver accepts the write, none when there is nothing to save or when
    the driver raises, in which case the collection is as before and
    the exception does not leave the function. *)
Theorem saved_count_is_what_was_added :
  forall (raises : option exn) (locations : list dict) (w : world),
    exists (n : nat) (w' : world),
      Tracker.save_to_mongodb raises locations w = (Ok n, w')
      /\ count (db w') = count (db w) + n
      /\ (raises = None -> n = List.length locations)
      /\ (raises <> None -> n = 0 /\ db w' = db w).
Proof.
  intros raises locations w. destruct locations as [|d ds].
  - exists 0. eexists. split; [reflexivity|]. simpl.
    repeat split; auto.
  - destruct raises as [ex|].
    + exists 0. eexists. split; [reflexivity|]. simpl.
      repeat split; auto. discriminate.
    + unfold Tracker.save_to_mongodb, try_except, bind, driver, ret.
      destruct (insert_many (db w) (d :: ds)) as [c ids] eqn:E.
      pose proof (insert_many_count (d :: ds) (db w)) as [I1 I2].
      rewrite E in I1, I2. simpl fst in I1. simpl snd in I2.
      exists (List.length ids), (set_db c w). split; [reflexivity|].
      simpl. rewrite I2. repeat split; auto; congruence.
Qed.

(* ===================================================================== *)
(** ** When the summary of the trackers raises *)
(* ===================================================================== *)

Lemma with_location_present (loc base : dict) :
  loc <> [] ->
  Tracker.with_location (Some loc) base
  = dict_set "location_data"
      (VDict [("latitude", get loc "latitude");
              ("longitude", get loc "longitude");
              ("accuracy", get loc "horizontalAccuracy");
              ("position_type", get loc "positionType");
              ("is_old", get_default loc "isOld" (VBool false));
              ("location_timestamp", get loc "timeStamp")])
      (dict_set "location"
         (VDict [("type", VStr "Point");
                 ("coordinates",
                  VList [get loc "longitude"; get loc "latitude"])])
         base).
Proof. destruct loc; [contradiction|reflexivity]. Qed.

Lemma presentable_present (d : device) (loc : dict) :
  location_seen d = Some loc -> loc <> [] ->
  presentable d
  = formats (format_f (get loc "latitude"))
    && formats (format_f (get loc "longitude"))
    && match get (status_seen d) "batteryLevel" with
       | VNone => true
       | battery => formats (format_percent battery)
       end.
Proof.
  intros H Hne. unfold presentable. rewrite H.
  destruct loc; [contradiction|reflexivity].
Qed.

Ltac float_cases :=
  repeat match goal with
         | |- context [fits_float ?x] => destruct (fits_float x); simpl
         end.

(** The summary prints the record of a device without raising exactly
    when the device is presentable. *)
Lemma display_device_mapped (d : device) (now : Z) (w : world) :
  succeeded (fst (Tracker.display_device
                    (Tracker.device_info (data d) (status_seen d)
                       (location_seen d) now) w))
  = presentable d.
Proof.
  unfold Tracker.display_device, Tracker.device_info.
  destruct (location_seen d) as [[|p l]|] eqn:Hloc.
  - unfold presentable. rewrite Hloc. simpl. run.
    destruct (get (status_seen d) "batteryLevel"); simpl; float_cases;
      reflexivity.
  - assert (Hne : p :: l <> []) by discriminate.
    rewrite (presentable_present d (p :: l) Hloc Hne).
    rewrite (with_location_present (p :: l) _ Hne).
    remember (p :: l) as loc. clear Heqloc Hne Hloc.
    simpl. run.
    destruct (format_f (get loc "latitude")); simpl; [|reflexivity].
    destruct (format_f (get loc "longitude")); simpl; [|reflexivity].
    destruct (get (status_seen d) "batteryLevel"); simpl; float_cases;
      reflexivity.
  - unfold presentable. rewrite Hloc. simpl. run.
    destruct (get (status_seen d) "batteryLevel"); simpl; float_cases;
      reflexivity.
Qed.

Lemma docker_display_device_mapped (d : device) (now : Z) (w : world) :
  succeeded (fst (TrackerDocker.display_device
                    (Tracker.device_info (data d) (status_seen d)
                       (location_seen d) now) w))
  = presentable d.
Proof.
  unfold TrackerDocker.display_device, Tracker.device_info.
  destruct (location_seen d) as [[|p l]|] eqn:Hloc.
  - unfold presentable. rewrite Hloc. simpl. run.
    destruct (get (status_seen d) "batteryLevel"); simpl; float_cases;
      reflexivity.
  - assert (Hne : p :: l <> []) by discriminate.
    rewrite (presentable_present d (p :: l) Hloc Hne).
    rewrite (with_location_present (p :: l) _ Hne).
    remember (p :: l) as loc. clear Heqloc Hne Hloc.
    simpl. run.
    destruct (get (status_seen d) "batteryLevel"); simpl; float_cases;
      destruct (format_f (get loc "latitude")); simpl;
      rewrite ?andb_false_r; try reflexivity;
      destruct (format_f (get loc "longitude")); reflexivity.
  - unfold presentable. rewrite Hloc. simpl. run.
    destruct (get (status_seen d) "batteryLevel"); simpl; float_cases;
      reflexivity.
Qed.

Lemma display_each_mapped (clock : nat -> Z) (devices : list device) :
  forall (k : nat) (w : world),
    succeeded (fst (Tracker.display_each (mapped clock k devices) w))
    = forallb presentable devices.
Proof.
  induction devices as [|d ds IH]; intros k w; simpl; [reflexivity|].
  unfold bind.
  pose proof (display_device_mapped d (clock k) w) as H.
  destruct (Tracker.display_device _ w) as [[[]|ex] w1]; simpl in H;
    rewrite <- H; simpl; [apply IH|reflexivity].
Qed.

Lemma docker_display_each_mapped (clock : nat -> Z)
    (devices : list device) :
  forall (k : nat) (w : world),
    succeeded (fst (TrackerDocker.display_each (mapped clock k devices) w))
    = forallb presentable devices.
Proof.
  induction devices as [|d ds IH]; intros k w; simpl; [reflexivity|].
  unfold bind.
  pose proof (docker_display_device_mapped d (clock k) w) as H.
  destruct (TrackerDocker.display_device _ w) as [[[]|ex] w1]; simpl in H;
    rewrite <- H; simpl; [apply IH|reflexivity].
Qed.

Lemma display_summary_mapped (clock : nat -> Z) (devices : list device)
    (k : nat) (w : world) :
  succeeded (fst (Tracker.display_summary clock (mapped clock k devices) w))
  = forallb presentable devices.
Proof.
  unfold Tracker.display_summary. unfold bind at 1 2 3 4. run.
  match goal with
  | |- context [Tracker.display_each ?l ?w0] =>
      pose proof (display_each_mapped clock devices k w0) as H;
        destruct (Tracker.display_each l w0) as [[[]|ex] w1]
  end; simpl in H; rewrite <- H; reflexivity.
Qed.

Lemma docker_display_summary_mapped (clock : nat -> Z)
    (devices : list device) (k number : nat) (w : world) :
  succeeded (fst (TrackerDocker.display_summary clock
                    (mapped clock k devices) number w))
  = forallb presentable devices.
Proof.
  unfold TrackerDocker.display_summary. unfold bind at 1 2 3 4 5. run.
  match goal with
  | |- context [TrackerDocker.display_each ?l ?w0] =>
      pose proof (docker_display_each_mapped clock devices k w0) as H;
        destruct (TrackerDocker.display_each l w0) as [[[]|ex] w1]
  end; simpl in H; rewrite <- H; reflexivity.
Qed.

(** What [fetch_device_locations] returns is the list of records mapped
    from some list of devices whose statuses were there, the empty list
    included; it is the list of the provider when every status is
    there. *)
Lemma fetched_is_mapped (clock : nat -> Z) (api : result (list device))
    (w : world) :
  exists devices w1,
    Tracker.fetch_device_locations clock api w
    = (Ok (mapped clock (now_calls w) devices), w1)
    /\ db w1 = db w
    /\ (devices = []
        \/ (api = Ok devices /\ Forall status_ok devices)).
Proof.
  destruct (Tracker.fetch_device_locations clock api w) as [r w1] eqn:E.
  pose proof (fetch_device_locations_effect _ _ _ _ _ E)
    as (D & _ & _ & _ & [(ds & A1 & A2 & -> & _)|(ex & -> & _)]).
  - exists ds, w1. auto.
  - exists [], w1. auto.
Qed.

Lemma iteration_survives (clock : nat -> Z) (e : Tracker.poll_env)
    (interval : Z) (number : nat) (w : world) :
  sleeps interval ->
  presentable_env e ->
  exists w', Tracker.iteration clock e interval number w = (Ok tt, w').
Proof.
  intros Hsl Hp. unfold Tracker.iteration.
  rewrite (time_sleep_sleeps _ Hsl). unfold bind at 1. unfold print at 1.
  cbv beta iota. unfold bind at 1.
  match goal with
  | |- context [Tracker.fetch_device_locations clock _ ?w0] =>
      destruct (fetched_is_mapped clock (Tracker.api_devices e) w0)
        as (devices & w1 & E & D & Hd);
        pose proof (display_summary_mapped clock devices (now_calls w0) w1)
        as Hs
  end.
  rewrite E. unfold bind at 1.
  assert (Hall : forallb presentable devices = true).
  { destruct Hd as [->|[Hapi _]]; [reflexivity|now apply Hp]. }
  rewrite Hall in Hs.
  destruct (Tracker.display_summary clock _ w1) as [[[]|ex] w2];
    [|discriminate].
  unfold bind at 1.
  destruct (Tracker.save_to_mongodb (Tracker.insert_many_raises e) _ w2)
    as [rs w3] eqn:E3.
  apply save_to_mongodb_effect in E3; [|apply mapped_no_id].
  destruct E3 as (_ & _ & _ & n & -> & _).
  run. eexists. reflexivity.
Qed.

Lemma docker_iteration_survives (clock : nat -> Z) (e : Tracker.poll_env)
    (interval : Z) (number : nat) (w : world) :
  sleeps interval ->
  presentable_env e ->
  exists w', TrackerDocker.iteration clock e interval number w = (Ok tt, w').
Proof.
  intros Hsl Hp. unfold TrackerDocker.iteration.
  rewrite (time_sleep_sleeps _ Hsl). unfold bind at 1.
  unfold TrackerDocker.fetch_device_locations.
  destruct (fetched_is_mapped clock (Tracker.api_devices e) w)
    as (devices & w1 & E & D & Hd).
  pose proof (docker_display_summary_mapped clock devices (now_calls w)
                number w1) as Hs.
  rewrite E. unfold bind at 1.
  assert (Hall : forallb presentable devices = true).
  { destruct Hd as [->|[Hapi _]]; [reflexivity|now apply Hp]. }
  rewrite Hall in Hs.
  destruct (TrackerDocker.display_summary clock _ number w1)
    as [[[]|ex] w2]; [|discriminate].
  unfold bind at 1. unfold TrackerDocker.save_to_mongodb.
  destruct (Tracker.save_to_mongodb (Tracker.insert_many_raises e) _ w2)
    as [rs w3] eqn:E3.
  apply save_to_mongodb_effect in E3; [|apply mapped_no_id].
  destruct E3 as (_ & _ & _ & n & -> & _).
  unfold bind at 1. destruct (Nat.ltb 0 n); run; eexists; reflexivity.
Qed.

Lemma minutes_shown (interval : Z) :
  shown interval -> TrackerDocker.minutes interval = Ok tt.
Proof.
  unfold shown, TrackerDocker.minutes. intros H.
  destruct (Z.ltb_spec (Z.abs interval) (60 * (2 ^ 1024 - 2 ^ 970)));
    [reflexivity|lia].
Qed.

Lemma sleeps_shown (interval : Z) : sleeps interval -> shown interval.
Proof.
  intros [H1 H2]. unfold shown, sleep_max in *.
  assert (B : (9223372036 < 60 * (2 ^ 1024 - 2 ^ 970))%Z)
    by (vm_compute; reflexivity).
  lia.
Qed.

Lemma while_true_survives (clock : nat -> Z) (interval : Z)
    (envs : list Tracker.poll_env) :
  sleeps interval ->
  Forall presentable_env envs ->
  forall (number : nat) (w : world),
    (exists w', Tracker.while_true clock envs interval number w
                = (Ok tt, w'))
    /\ (exists w', TrackerDocker.while_true clock envs interval number w
                   = (Ok tt, w')).
Proof.
  intros Hsl H. induction H as [|e envs He _ IH]; intros number w; simpl.
  - split; eexists; reflexivity.
  - unfold bind. split.
    + destruct (iteration_survives clock e interval (S number) w Hsl He)
        as (w1 & ->).
      apply IH.
    + destruct (docker_iteration_survives clock e interval (S number) w
                  Hsl He) as (w1 & ->).
      apply IH.
Qed.

(** X7.  The loops of the two tracker scripts outlive every failure of
    the provider and of the driver: whatever is raised while the devices
    are listed, a status is fetched, a location is looked up or the
    records are inserted, the loop is still running after any number of
    iterations, provided [time.sleep] accepts the interval and the
    devices the provider lists are presentable (no location with a
    latitude or longitude that [.6f] cannot format, no battery level
    other than [None] or a number whose percentage can be formatted). *)
Theorem trackers_outlive_provider_and_driver :
  forall (clock : nat -> Z) (envs : list Tracker.poll_env) (interval : Z)
         (w : world),
    sleeps interval ->
    Forall presentable_env envs ->
    fst (Tracker.track_continuously clock envs interval w) = Ok StillLooping
    /\ fst (TrackerDocker.track_continuously clock envs interval w)
       = Ok StillLooping.
Proof.
  intros clock envs interval w Hsl H. split.
  - unfold Tracker.track_continuously.
    unfold bind at 1. unfold print at 1. cbv beta iota.
    unfold try_except, bind at 1.
    match goal with
    | |- context [Tracker.while_true clock envs interval 0 ?w0] =>
        destruct (proj1 (while_true_survives clock interval envs Hsl H
                           0 w0)) as (w1 & ->)
    end. reflexivity.
  - unfold TrackerDocker.track_continuously.
    rewrite (minutes_shown _ (sleeps_shown _ Hsl)).
    unfold bind at 1. unfold print at 1. cbv beta iota.
    unfold bind at 1. unfold lift at 1. cbv beta iota.
    unfold bind at 1. unfold print at 1. cbv beta iota.
    unfold try_except, bind at 1.
    match goal with
    | |- context [TrackerDocker.while_true clock envs interval 0 ?w0] =>
        destruct (proj2 (while_true_survives clock interval envs Hsl H
                           0 w0)) as (w1 & ->)
    end. reflexivity.
Qed.

(** The part that the loop and the single pass share: the fetch, then
    the summary.  With every status there, the summary raises exactly
    when a device is not presentable, and nothing has been written. *)
Lemma summary_after_fetch (clock : nat -> Z) (e : Tracker.poll_env)
    (devices : list device) (w0 : world) :
  Tracker.api_devices e = Ok devices -> Forall status_ok devices ->
  exists w1 r w2,
    Tracker.fetch_device_locations clock (Tracker.api_devices e) w0
    = (Ok (mapped clock (now_calls w0) devices), w1)
    /\ Tracker.display_summary clock (mapped clock (now_calls w0) devices) w1
       = (r, w2)
    /\ succeeded r = forallb presentable devices
    /\ db w2 = db w0 /\ next_oid (db w2) = next_oid (db w0)
    /\ now_calls w1 = now_calls w0 + List.length devices.
Proof.
  intros Hapi Hok.
  destruct (Tracker.fetch_device_locations clock (Tracker.api_devices e) w0)
    as [r0 w1] eqn:E.
  pose proof (fetch_device_locations_effect _ _ _ _ _ E)
    as (D & _ & _ & _ & [(ds & A1 & _ & -> & N & _)|(ex & _ & _ & A)]).
  2:{ exfalso. destruct A as [A|(ds & d & A & Hin & Hd)]; [congruence|].
      rewrite Hapi in A. inversion A; subst ds.
      rewrite Forall_forall in Hok. destruct (Hok _ Hin) as (st & Hst).
      congruence. }
  rewrite Hapi in A1. inversion A1; subst ds.
  destruct (Tracker.display_summary clock
              (mapped clock (now_calls w0) devices) w1) as [r w2] eqn:E2.
  pose proof (display_summary_mapped clock devices (now_calls w0) w1) as Hs.
  rewrite E2 in Hs. simpl in Hs.
  pose proof (display_summary_effect _ _ _ _ _ E2) as (D2 & _).
  exists w1, r, w2. repeat split; auto; congruence.
Qed.

(** X8.  The loops of the tracker scripts end at the first iteration in
    which the provider lists, with every status there, a device that is
    not presentable: the summary raises before anything is saved, the
    standalone tracker returns and the tracker of the container, once
    its opening lines have shown the interval, exits with status 1; the
    records of that iteration are not stored and the iterations that
    would follow do not take place. *)
Theorem unpresentable_device_ends_the_trackers :
  forall (clock : nat -> Z) (e : Tracker.poll_env) (devices : list device)
         (rest : list Tracker.poll_env) (interval : Z) (w : world),
    Tracker.api_devices e = Ok devices ->
    Forall status_ok devices ->
    forallb presentable devices = false ->
    fst (Tracker.track_continuously clock (e :: rest) interval w)
    = Ok Returned
    /\ db (snd (Tracker.track_continuously clock (e :: rest) interval w))
       = db w
    /\ (shown interval ->
        fst (TrackerDocker.track_continuously clock (e :: rest) interval w)
        = Ok (Exited 1)
        /\ db (snd (TrackerDocker.track_continuously clock (e :: rest)
                      interval w))
           = db w).
Proof.
  intros clock e devices rest interval w Hapi Hok Hnot.
  assert (Hstandalone :
            exists w',
              Tracker.track_continuously clock (e :: rest) interval w
              = (Ok Returned, w') /\ db w' = db w).
  { unfold Tracker.track_continuously.
    unfold bind at 1. unfold print at 1. cbv beta iota.
    unfold try_except, bind at 1. simpl Tracker.while_true.
    unfold bind at 1. unfold Tracker.iteration.
    unfold bind at 1. unfold print at 1. cbv beta iota. unfold bind at 1.
    match goal with
    | |- context [Tracker.fetch_device_locations clock _ ?w0] =>
        destruct (summary_after_fetch clock e devices w0 Hapi Hok)
          as (w1 & r & w2 & E1 & E2 & Hr & D & _)
    end.
    rewrite E1. unfold bind at 1. rewrite E2. rewrite Hnot in Hr.
    destruct r as [[]|ex]; [discriminate|]. run.
    eexists. split; [reflexivity|]. exact D. }
  assert (Hdocker :
            shown interval ->
            exists w',
              TrackerDocker.track_continuously clock (e :: rest) interval w
              = (Ok (Exited 1), w') /\ db w' = db w).
  { intros Hshown. unfold TrackerDocker.track_continuously.
    rewrite (minutes_shown _ Hshown).
    unfold bind at 1. unfold print at 1. cbv beta iota.
    unfold bind at 1. unfold lift at 1. cbv beta iota.
    unfold bind at 1. unfold print at 1. cbv beta iota.
    unfold try_except, bind at 1. simpl TrackerDocker.while_true.
    unfold bind at 1. unfold TrackerDocker.iteration.
    unfold bind at 1. unfold TrackerDocker.fetch_device_locations.
    match goal with
    | |- context [Tracker.fetch_device_locations clock _ ?w0] =>
        destruct (summary_after_fetch clock e devices w0 Hapi Hok)
          as (w1 & r & w2 & E1 & _ & _ & _ & _);
          pose proof (docker_display_summary_mapped clock devices
                        (now_calls w0) 1 w1) as Hs;
          pose proof (fetch_device_locations_effect _ _ _ _ _ E1)
          as (D1 & _)
    end.
    rewrite E1. unfold bind at 1. rewrite Hnot in Hs.
    match goal with
    | |- context [TrackerDocker.display_summary clock ?l ?n ?w1] =>
        destruct (TrackerDocker.display_summary clock l n w1)
          as [[[]|ex] w3] eqn:E3
    end; [discriminate|].
    pose proof (docker_display_summary_effect _ _ _ _ _ _ E3) as (D3 & _).
    run. eexists. split; [reflexivity|]. simpl in *. congruence. }
  destruct Hstandalone as (w1 & -> & S2).
  split; [reflexivity|]. split; [exact S2|].
  intros Hshown. destruct (Hdocker Hshown) as (w2 & -> & D2).
  split; [reflexivity|exact D2].
Qed.

(** X9.  [track_once] makes one pass and no more: with every status
    there and the driver accepting the write, it appends one record per
    device, in the order of the provider, when the devices are
    presentable; when one is not, the exception of the summary leaves
    [track_once], which has no handler, and nothing is stored. *)
Theorem track_once_is_one_pass :
  forall (clock : nat -> Z) (devices : list device) (w : world),
    Forall status_ok devices ->
    (forallb presentable devices = true ->
     fst (Tracker.track_once clock (all_fine devices) w) = Ok tt
     /\ docs (db (snd (Tracker.track_once clock (all_fine devices) w)))
        = docs (db w)
          ++ numbered (next_oid (db w))
               (mapped clock (now_calls w) devices))
    /\ (forallb presentable devices = false ->
        succeeded (fst (Tracker.track_once clock (all_fine devices) w))
        = false
        /\ db (snd (Tracker.track_once clock (all_fine devices) w)) = db w).
Proof.
  intros clock devices w Hok.
  assert (H : exists r w',
             Tracker.track_once clock (all_fine devices) w = (r, w')
             /\ (forallb presentable devices = true ->
                 r = Ok tt
                 /\ docs (db w')
                    = docs (db w)
                      ++ numbered (next_oid (db w))
                           (mapped clock (now_calls w) devices))
             /\ (forallb presentable devices = false ->
                 succeeded r = false /\ db w' = db w)).
  { unfold Tracker.track_once. unfold bind at 1. unfold print at 1.
    cbv beta iota. unfold bind at 1.
    match goal with
    | |- context [Tracker.fetch_device_locations clock _ ?w0] =>
        destruct (summary_after_fetch clock (all_fine devices) devices w0
                    eq_refl Hok)
          as (w1 & r & w2 & E1 & E2 & Hr & D & Dn & _)
    end.
    simpl Tracker.api_devices in *. rewrite E1. unfold bind at 1.
    simpl now_calls in E2. simpl now_calls. rewrite E2.
    destruct r as [[]|ex]; simpl in Hr.
    - unfold bind at 1.
      destruct (save_to_mongodb_fine (mapped clock (now_calls w) devices)
                  w2 (mapped_no_id _ _ _)) as (w3 & E3 & S1 & _).
      simpl Tracker.insert_many_raises. rewrite E3. run.
      eexists. eexists. split; [reflexivity|]. split.
      + intros _. split; [reflexivity|]. simpl. rewrite S1.
        simpl in D. now rewrite D.
      + intros Hp. rewrite Hp in Hr. discriminate.
    - eexists. eexists. split; [reflexivity|]. split.
      + intros Hp. rewrite Hp in Hr. discriminate.
      + intros _. split; [reflexivity|]. exact D. }
  destruct H as (r & w' & -> & H1 & H2). split; assumption.
Qed.

(* ===================================================================== *)
(** ** The loop of the Flask tracker *)
(* ===================================================================== *)

Lemma set_current_date_length (i : value) (now : Z) (ds : list dict) :
  List.length (set_current_date i now ds) = List.length ds.
Proof.
  induction ds as [|d ds IH]; simpl; auto.
  destruct (matches "_id" i d); simpl; auto.
Qed.

(** The [try] block adds one record or none. *)
Lemma track_body_count (server_clock : nat -> Z) (e : App.track_env)
    (w w1 : world) (r : result unit) :
  App.track_body server_clock e w = (r, w1) ->
  count (db w1) = count (db w) \/ count (db w1) = S (count (db w)).
Proof.
  unfold App.track_body. unfold bind at 1.
  destruct (App.build_record e w) as [[info|ex] w0] eqn:Hb;
    destruct (build_record_store _ _ _ _ Hb) as (B & _).
  2:{ intros H. inversion H; subst. left. now rewrite B. }
  unfold bind, driver, App.driver_update_one.
  destruct (App.insert_one_raises e); simpl.
  { intros H. inversion H; subst. left. now rewrite B. }
  destruct (App.update_one_raises e); simpl;
    intros H; inversion H; subst; right; unfold count; simpl;
    rewrite ?set_current_date_length, length_app, B; simpl; lia.
Qed.

Lemma while_tracking_active_ends (server_clock : nat -> Z)
    (envs : list App.track_env) (interval : Z) :
  sleeps interval ->
  forall w : world,
    exists how w',
      App.while_tracking_active server_clock envs interval w
      = (Ok how, w')
      /\ (all_active envs -> how = StillLooping)
      /\ (~ all_active envs -> how = Returned)
      /\ count (db w) <= count (db w')
      /\ count (db w') <= count (db w) + List.length envs.
Proof.
  intros Hs. induction envs as [|e envs IH]; intros w.
  - exists StillLooping, w. split; [reflexivity|].
    repeat split; auto; try (simpl; lia).
    intros H. exfalso. apply H. constructor.
  - destruct (App.tracking_active e) eqn:Ha.
    + destruct (while_tracking_active_unfold server_clock e interval
                  w Ha) as (r1 & w1 & w2 & E & D2 & _ & _ & U).
      rewrite U, (time_sleep_sleeps _ Hs). unfold print at 1.
      cbv beta iota.
      pose proof (track_body_count _ _ _ _ _ E) as Hc.
      match goal with
      | |- context [App.while_tracking_active server_clock envs
                      interval ?w3] =>
          destruct (IH w3) as (how & w' & -> & I1 & I2 & I3 & I4)
      end.
      exists how, w'. split; [reflexivity|]. simpl in I3, I4.
      unfold count in *. rewrite D2 in I3, I4.
      split; [intros H; apply I1; now inversion H|].
      split; [intros H; apply I2; intros H'; apply H;
              constructor; assumption|].
      simpl. split; lia.
    + exists Returned, w. simpl. rewrite Ha. split; [reflexivity|].
      repeat split; auto; try lia.
      intros H. inversion H; subst. congruence.
Qed.

(** X10.  The loop of the Flask tracker catches whatever an iteration
    raises, and nothing that [time.sleep] raises.  For an interval that
    [time.sleep] accepts, [track_location] never raises: it is still
    looping after the iterations given when [tracking_active] was true
    at each test, and has returned otherwise; each iteration adds at
    most one record to the collection and removes none.  For an
    interval that [time.sleep] refuses, the first iteration is the
    last: the exception of the pause leaves [track_location], after at
    most one record has been added. *)
Theorem flask_loop_catches_everything :
  forall (server_clock : nat -> Z) (envs : list App.track_env)
         (interval : Z) (w : world),
    (sleeps interval ->
     exists how w',
       App.track_location server_clock envs interval w = (Ok how, w')
       /\ (all_active envs -> how = StillLooping)
       /\ (~ all_active envs -> how = Returned)
       /\ count (db w) <= count (db w')
       /\ count (db w') <= count (db w) + List.length envs)
    /\ (~ sleeps interval ->
        forall e rest,
          envs = e :: rest -> App.tracking_active e = true ->
          exists ex w',
            App.track_location server_clock envs interval w
            = (Raise ex, w')
            /\ count (db w) <= count (db w')
            /\ count (db w') <= count (db w) + 1).
Proof.
  intros server_clock envs interval w. split.
  - intros Hs.
    unfold App.track_location. unfold bind at 1. unfold print at 1.
    cbv beta iota. unfold bind at 1.
    match goal with
    | |- context [App.while_tracking_active server_clock envs interval
                    ?w0] =>
        destruct (while_tracking_active_ends server_clock envs interval
                    Hs w0) as (how & w' & -> & I1 & I2 & I3 & I4)
    end.
    simpl in I3, I4.
    destruct how; run; eexists; eexists; (split; [reflexivity|]);
      simpl; repeat split; auto.
  - intros Hs e rest -> Ha.
    unfold App.track_location. unfold bind at 1. unfold print at 1.
    cbv beta iota. unfold bind at 1.
    match goal with
    | |- context [App.while_tracking_active server_clock (e :: rest)
                    interval ?w0] =>
        destruct (while_tracking_active_unfold server_clock e
                    interval w0 Ha) as (r1 & w1 & w2 & E & D2 & _ & _ & U);
          pose proof (track_body_count _ _ _ _ _ E) as Hc
    end.
    rewrite U. destruct (time_sleep_refuses _ Hs) as (ex & Hex).
    rewrite Hex. exists ex, w2. split; [reflexivity|].
    unfold count in *. simpl in Hc. rewrite D2. lia.
Qed.

Lemma flask_loop_catches_everything_witness :
  sleeps 300
  /\ exists how w',
       App.track_location ticking
         [update_fails; insert_fails; tracks phone_without_latitude;
          tracks (janes_iphone 0)] 300 initial
       = (Ok how, w')
       /\ (all_active [update_fails; insert_fails;
                       tracks phone_without_latitude;
                       tracks (janes_iphone 0)] -> how = StillLooping)
       /\ (~ all_active [update_fails; insert_fails;
                         tracks phone_without_latitude;
                         tracks (janes_iphone 0)] -> how = Returned)
       /\ count (db initial) <= count (db w')
       /\ count (db w') <= count (db initial) + 4.
Proof.
  split; [exact five_minutes_sleep|].
  exact (proj1 (flask_loop_catches_everything ticking
                  [update_fails; insert_fails;
                   tracks phone_without_latitude;
                   tracks (janes_iphone 0)] 300 initial)
           five_minutes_sleep).
Defined.

(* ===================================================================== *)
(** ** From [track_location] to [GET /location] *)
(* ===================================================================== *)

(** Whether the record can be built, and which record it is, does not
    depend on the world. *)
Lemma build_record_anywhere (e : App.track_env) (w w' : world) :
  fst (App.build_record e w) = fst (App.build_record e w').
Proof.
  unfold App.build_record. run.
  destruct (status (App.tracked_device e)) as [st|ex]; simpl;
    [|reflexivity].
  destruct (location (App.tracked_device e)) as [[[|p loc]|]|ex']; simpl;
    try reflexivity.
  run.
  repeat match goal with
         | |- context [format_f ?x] => destruct (format_f x); simpl
         | |- context [format_percent ?x] =>
             destruct (format_percent x); simpl
         end; reflexivity.
Qed.

Lemma build_record_device_id (e : App.track_env) (w w1 : world)
    (info : dict) :
  App.build_record e w = (Ok info, w1) ->
  dict_get "device_id" info = Some (device_id (App.tracked_device e)).
Proof.
  intros H. destruct (build_record_shape _ _ _ _ H) as (st & loc & -> & _).
  now rewrite with_location_keeps.
Qed.

Lemma while_tracking_active_fresh (server_clock : nat -> Z)
    (envs : list App.track_env) (interval : Z) :
  forall (w w' : world) (r : result loop_end),
    App.while_tracking_active server_clock envs interval w = (r, w') ->
    fresh_ids (db w) -> fresh_ids (db w').
Proof.
  induction envs as [|e envs IH]; intros w w' r.
  - simpl. unfold ret. intros H. now inversion H; subst.
  - destruct (App.tracking_active e) eqn:Ha.
    2:{ simpl. rewrite Ha. unfold ret. intros H. now inversion H; subst. }
    destruct (while_tracking_active_unfold server_clock e interval
                w Ha) as (r1 & w1 & w2 & E & D2 & _ & _ & U).
    rewrite U. intros H Hf.
    destruct (track_body_effect _ _ _ _ _ E Hf) as (Hf1 & _).
    destruct (time_sleep interval w2) as [[[]|ex] w3] eqn:T;
      apply time_sleep_effect in T; destruct T as (T1 & _).
    + apply IH in H; auto. now rewrite T1, D2.
    + inversion H; subst. now rewrite T1, D2.
Qed.

Lemma while_tracking_active_app (server_clock : nat -> Z)
    (prefix rest : list App.track_env) (interval : Z) :
  sleeps interval ->
  all_active prefix ->
  forall w : world,
    exists w1,
      App.while_tracking_active server_clock prefix interval w
      = (Ok StillLooping, w1)
      /\ App.while_tracking_active server_clock (prefix ++ rest) interval w
         = App.while_tracking_active server_clock rest interval w1.
Proof.
  intros Hs H. induction H as [|e prefix He _ IH]; intros w.
  - exists w. split; reflexivity.
  - destruct (while_tracking_active_unfold server_clock e interval
                w He) as (r1 & w1 & w2 & _ & _ & _ & _ & U).
    rewrite <- app_comm_cons, !U, (time_sleep_sleeps _ Hs).
    unfold print. cbv beta iota. apply IH.
Qed.

Lemma sort_key_in_timestamps (ds : list dict) (x : dict) (t : Z) :
  In x ds -> sort_key x = Some t -> In t (timestamps ds).
Proof.
  induction ds as [|d ds IH]; simpl; [tauto|].
  intros [->|Hin] Hk.
  - rewrite Hk. simpl. auto.
  - destruct (sort_key d); simpl; auto.
Qed.

Lemma dict_set_twice (k : string) (u v : value) (d : dict) :
  dict_set k u (dict_set k v d) = dict_set k u d.
Proof.
  induction d as [|[k' v'] d IH]; simpl.
  - now rewrite String.eqb_refl.
  - destruct (String.eqb k k') eqn:E; simpl; rewrite E; auto.
    now rewrite IH.
Qed.

(** The last iteration of a run in which every step succeeded. *)
Lemma while_tracking_active_last (server_clock : nat -> Z)
    (e : App.track_env) (interval : Z) (w : world) (info : dict) :
  sleeps interval ->
  App.tracking_active e = true ->
  goes_through e info ->
  fresh_ids (db w) ->
  db (snd (App.while_tracking_active server_clock [e] interval w))
  = Coll (docs (db w)
          ++ [("_id", VOid (next_oid (db w)))
              :: dict_set "timestamp" (VDate (server_clock (date_calls w)))
                   info])
         (S (next_oid (db w))).
Proof.
  intros Hs He (Hb & Hi & Hu) Hf.
  rewrite (build_record_anywhere e initial w) in Hb.
  destruct (App.build_record e w) as [r1 w1] eqn:B. simpl in Hb. subst r1.
  destruct (build_record_store _ _ _ _ B) as (D & C & _).
  destruct (build_record_no_timestamp _ _ _ _ B) as (_ & Hid).
  assert (Hf1 : fresh_ids (db w1)) by now rewrite D.
  pose proof (track_body_succeeds server_clock e w w1 info B Hi Hu Hf1)
    as T.
  simpl. rewrite He, (time_sleep_sleeps _ Hs).
  unfold bind, try_except, print. rewrite T. simpl.
  unfold with_id. rewrite Hid, D, C. simpl. reflexivity.
Qed.

(** A run in which [tracking_active] stayed true is the loop, after the
    opening line. *)
Lemma track_location_still_looping (server_clock : nat -> Z)
    (envs : list App.track_env) (interval : Z) (w : world) :
  sleeps interval ->
  all_active envs ->
  exists w0 w',
    App.track_location server_clock envs interval w = (Ok StillLooping, w')
    /\ App.while_tracking_active server_clock envs interval w0
       = (Ok StillLooping, w')
    /\ db w0 = db w /\ date_calls w0 = date_calls w.
Proof.
  intros Hs Ha.
  unfold App.track_location. unfold bind at 1. unfold print at 1.
  cbv beta iota. unfold bind at 1.
  match goal with
  | |- context [App.while_tracking_active server_clock envs interval ?w0] =>
      destruct (while_tracking_active_ends server_clock envs interval Hs w0)
        as (how & w' & E & I1 & _); exists w0, w'
  end.
  rewrite E. rewrite (I1 Ha). repeat split.
Qed.

Section WriteThenRead.

Variable server_clock : nat -> Z.
Variable isoformat : Z -> string.
Variable str : value -> string.

(** X11.  What the Flask tracker stored last is what [GET /location]
    serves.  Let [time.sleep] accept the interval, let the readings of
    the server's clock increase strictly, and let the records already
    in the collection be dated before the next reading.  After a run of [track_location] in which
    [tracking_active] was true at each test and whose last iteration
    built the record [info] and wrote it without an error of the driver,
    a request for the same device that presents the configured key is
    answered 200 with [info], the identifier of the stored record as a
    string and the date the server gave it in ISO format; the view
    changes nothing. *)
Theorem last_stored_record_is_served :
  forall (prefix : list App.track_env) (e : App.track_env) (info : dict)
         (interval : Z) (key : string) (a : App.api_env) (w : world),
    strictly_increasing server_clock ->
    sleeps interval ->
    fresh_ids (db w) ->
    (forall x, In x (docs (db w)) ->
       key_ltb (sort_key x) (Some (server_clock (date_calls w))) = true) ->
    all_active prefix ->
    App.tracking_active e = true ->
    goes_through e info ->
    App.jsonable (VDict info) = true ->
    key <> EmptyString ->
    App.find_one_raises a = None ->
    device_id (App.target_device a) = device_id (App.tracked_device e) ->
    exists n k w',
      App.track_location server_clock (prefix ++ [e]) interval w
      = (Ok StillLooping, w')
      /\ nth_error (docs (db w')) (count (db w') - 1)
         = Some (("_id", VOid n)
                 :: dict_set "timestamp" (VDate (server_clock k)) info)
      /\ App.serve isoformat str (Some key) true App.GET_location a
           (with_key key) w'
         = (Ok (App.Response
                  (VDict (("_id", VStr (str (VOid n)))
                          :: dict_set "timestamp"
                               (VStr (isoformat (server_clock k))) info))
                  200), w').
Proof.
  intros prefix e info interval key a w Hs Hint Hf Hold Hp He Hg Hj Hk Hr Hd.
  pose proof (strictly_increasing_non_decreasing _ Hs) as Hm.
  assert (Hact : all_active (prefix ++ [e])).
  { apply Forall_app. split; [exact Hp|]. now constructor. }
  destruct (track_location_still_looping server_clock (prefix ++ [e])
              interval w Hint Hact) as (w0 & w' & E & L & D0 & C0).
  destruct (while_tracking_active_app server_clock prefix [e] interval
              Hint Hp w0)
    as (w2 & E1 & E2).
  assert (Hf0 : fresh_ids (db w0)) by now rewrite D0.
  pose proof (while_tracking_active_fresh _ _ _ _ _ _ E1 Hf0) as Hf2.
  destruct (while_tracking_active_order server_clock Hm _ _ _ _ _ E1 Hf0)
    as (Hle & added & A1 & _ & A3).
  pose proof (while_tracking_active_last server_clock e interval w2 info
                Hint He Hg Hf2) as Last.
  rewrite <- E2, L in Last. simpl in Last.
  set (y := ("_id", VOid (next_oid (db w2)))
            :: dict_set "timestamp"
                 (VDate (server_clock (date_calls w2))) info) in *.
  exists (next_oid (db w2)), (date_calls w2), w'.
  split; [exact E|]. split.
  - unfold count. rewrite Last. simpl. rewrite length_app. simpl.
    replace (List.length (docs (db w2)) + 1 - 1)
      with (List.length (docs (db w2)) + 0) by lia.
    rewrite nth_error_app2 by lia.
    replace (List.length (docs (db w2)) + 0 - List.length (docs (db w2)))
      with 0 by lia.
    reflexivity.
  - assert (Hfind : find_one (db w') (device_id (App.target_device a))
                    = Some y).
    { unfold find_one. rewrite Last. simpl docs. rewrite filter_app.
      destruct Hg as (Hb & _).
      destruct (App.build_record e initial) as [r1 w3] eqn:B.
      simpl in Hb. subst r1.
      pose proof (build_record_device_id _ _ _ _ B) as Hdev.
      assert (My : matches "device_id" (device_id (App.target_device a)) y
                   = true).
      { unfold matches, y. simpl.
        rewrite dict_get_set_other by discriminate.
        rewrite Hdev, Hd. apply value_eqb_refl. }
      simpl filter. rewrite My.
      apply first_greatest_last; [|exact I].
      intros x Hx. apply filter_In in Hx as [Hx _].
      assert (Ky : sort_key y = Some (server_clock (date_calls w2))).
      { unfold sort_key, y. simpl. now rewrite dict_get_set_same. }
      rewrite Ky. rewrite A1, D0 in Hx. apply in_app_or in Hx as [Hx|Hx].
      + specialize (Hold x Hx). destruct (sort_key x) as [t|]; simpl in *;
          [|reflexivity].
        apply Z.ltb_lt in Hold. apply Z.ltb_lt.
        assert (server_clock (date_calls w)
                <= server_clock (date_calls w2))%Z
          by (apply Hm; lia).
        lia.
      + destruct (sort_key x) as [t|] eqn:Kx; simpl; [|reflexivity].
        pose proof (sort_key_in_timestamps _ _ _ Hx Kx) as Hin.
        unfold read_between in A3. rewrite Forall_forall in A3.
        destruct (A3 t Hin) as (i & _ & Hi & ->).
        apply Z.ltb_lt. now apply Hs. }
    destruct (get_location_answers isoformat str key a w' Hk Hr)
      as (_ & _ & _ & Hserve).
    destruct Hg as (Hb & _).
    destruct (App.build_record e initial) as [r1 w3] eqn:B.
    simpl in Hb. subst r1.
    rewrite (Hserve (next_oid (db w2))
               (server_clock (date_calls w2))
               (dict_set "timestamp"
                  (VDate (server_clock (date_calls w2))) info)
               Hfind (dict_get_set_same _ _ _)
               (jsonable_dict_set "timestamp"
                  (VDate (server_clock (date_calls w2))) info Hj eq_refl)).
    now rewrite dict_set_twice.
Qed.

End WriteThenRead.

(* ===================================================================== *)
(** ** The further properties at concrete inputs *)
(* ===================================================================== *)

(** The driver refuses the write of one record: the function returns 0
    and the collection is as before. *)
Lemma saved_count_is_what_was_added_witness :
  Some lost_connection <> None
  /\ exists w',
       Tracker.save_to_mongodb (Some lost_connection) [mapped_record 0 0]
         initial = (Ok 0, w')
       /\ db w' = db initial.
Proof.
  assert (H : Some lost_connection <> None) by discriminate.
  split; [exact H|].
  destruct (saved_count_is_what_was_added (Some lost_connection)
              [mapped_record 0 0] initial) as (n & w' & E & _ & _ & R).
  destruct (R H) as [N D]. subst n. exists w'. split; [exact E|exact D].
Defined.

Lemma listed_devices_presentable :
  Forall presentable_env
    [all_fine [janes_iphone 0; offline_ipad]; provider_down; write_fails].
Proof.
  constructor; [|constructor; [|constructor; [|constructor]]];
    intros devices E; inversion E; vm_compute; reflexivity.
Defined.

(** A good iteration, one in which the provider is down and one in which
    the driver refuses the write. *)
Lemma trackers_outlive_provider_and_driver_witness :
  sleeps 300
  /\ Forall presentable_env
       [all_fine [janes_iphone 0; offline_ipad]; provider_down; write_fails]
  /\ fst (Tracker.track_continuously ticking
            [all_fine [janes_iphone 0; offline_ipad]; provider_down;
             write_fails] 300 initial) = Ok StillLooping
  /\ fst (TrackerDocker.track_continuously ticking
            [all_fine [janes_iphone 0; offline_ipad]; provider_down;
             write_fails] 300 initial) = Ok StillLooping.
Proof.
  assert (H : sleeps 300) by exact five_minutes_sleep.
  split; [exact H|]. split; [exact listed_devices_presentable|].
  exact (trackers_outlive_provider_and_driver ticking
           [all_fine [janes_iphone 0; offline_ipad]; provider_down;
            write_fails] 300 initial H listed_devices_presentable).
Defined.

(** The phone without a latitude ends both loops in the first of two
    iterations. *)
Lemma unpresentable_device_ends_the_trackers_witness :
  Forall status_ok [phone_without_latitude]
  /\ forallb presentable [phone_without_latitude] = false
  /\ shown 300
  /\ fst (Tracker.track_continuously ticking
            [all_fine [phone_without_latitude]; all_fine [janes_iphone 0]]
            300 initial) = Ok Returned
  /\ fst (TrackerDocker.track_continuously ticking
            [all_fine [phone_without_latitude]; all_fine [janes_iphone 0]]
            300 initial) = Ok (Exited 1).
Proof.
  assert (H1 : Forall status_ok [phone_without_latitude]).
  { repeat constructor. eexists. reflexivity. }
  assert (H2 : forallb presentable [phone_without_latitude] = false)
    by (vm_compute; reflexivity).
  assert (H3 : shown 300) by (vm_compute; reflexivity).
  destruct (unpresentable_device_ends_the_trackers ticking
              (all_fine [phone_without_latitude]) [phone_without_latitude]
              [all_fine [janes_iphone 0]] 300 initial eq_refl H1 H2)
    as (A & _ & B).
  split; [exact H1|]. split; [exact H2|]. split; [exact H3|].
  split; [exact A|exact (proj1 (B H3))].
Defined.

(** An interval whose length in minutes is beyond the range of a
    [float] ends the tracker of the container in its opening lines:
    the division raises outside the [try], no iteration takes place and
    [sys.exit] is not reached. *)
Lemma huge_interval_ends_the_container_at_once :
  ~ shown (10 ^ 400)
  /\ TrackerDocker.track_continuously ticking
       [all_fine [phone_without_latitude]] (10 ^ 400) initial
     = (Raise (Exn OverflowError
                 "integer division result too large for a float"),
        World (db initial) 0 0
              [Print "Starting Continuous Location Tracker"] 0).
Proof.
  split; [|vm_compute; reflexivity].
  unfold shown. intros H. vm_compute in H. discriminate H.
Qed.

(** One pass over the phone and the tablet stores their two records. *)
Lemma track_once_is_one_pass_witness :
  Forall status_ok [janes_iphone 0; offline_ipad]
  /\ forallb presentable [janes_iphone 0; offline_ipad] = true
  /\ fst (Tracker.track_once ticking
            (all_fine [janes_iphone 0; offline_ipad]) initial) = Ok tt
  /\ docs (db (snd (Tracker.track_once ticking
                      (all_fine [janes_iphone 0; offline_ipad]) initial)))
     = docs (db initial)
       ++ numbered (next_oid (db initial))
            (mapped ticking (now_calls initial)
               [janes_iphone 0; offline_ipad]).
Proof.
  assert (H1 : Forall status_ok [janes_iphone 0; offline_ipad]).
  { repeat constructor; eexists; reflexivity. }
  assert (H2 : forallb presentable [janes_iphone 0; offline_ipad] = true)
    by (vm_compute; reflexivity).
  split; [exact H1|]. split; [exact H2|].
  exact (proj1 (track_once_is_one_pass ticking
                  [janes_iphone 0; offline_ipad] initial H1) H2).
Defined.

Lemma flask_record_goes_through :
  goes_through (tracks (janes_iphone 0)) flask_record.
Proof.
  split; [vm_compute; reflexivity|]. split; reflexivity.
Defined.

(** After an iteration whose update failed, one whose insert failed and
    a good one, the record of the good one is served. *)
Lemma last_stored_record_is_served_witness :
  strictly_increasing ticking
  /\ sleeps 300
  /\ all_active [update_fails; insert_fails]
  /\ goes_through (tracks (janes_iphone 0)) flask_record
  /\ exists n k w',
       App.track_location ticking
         ([update_fails; insert_fails] ++ [tracks (janes_iphone 0)])
         300 initial
       = (Ok StillLooping, w')
       /\ nth_error (docs (db w')) (count (db w') - 1)
          = Some (("_id", VOid n)
                  :: dict_set "timestamp" (VDate (ticking k)) flask_record)
       /\ App.serve isoformat_stub str_stub (Some "secret") true
            App.GET_location asks_for_phone (with_key "secret") w'
          = (Ok (App.Response
                   (VDict (("_id", VStr (str_stub (VOid n)))
                           :: dict_set "timestamp"
                                (VStr (isoformat_stub (ticking k)))
                                flask_record))
                   200), w').
Proof.
  assert (H1 : strictly_increasing ticking)
    by exact ticking_strictly_increasing.
  assert (H2 : sleeps 300) by exact five_minutes_sleep.
  assert (H3 : fresh_ids (db initial)) by constructor.
  assert (H4 : forall x, In x (docs (db initial)) ->
                 key_ltb (sort_key x)
                   (Some (ticking (date_calls initial))) = true).
  { intros x Hx. destruct Hx. }
  assert (H5 : all_active [update_fails; insert_fails]).
  { constructor; [reflexivity|]. constructor; [reflexivity|constructor]. }
  assert (H6 : App.jsonable (VDict flask_record) = true)
    by (vm_compute; reflexivity).
  assert (H7 : "secret" <> EmptyString) by discriminate.
  split; [exact H1|]. split; [exact H2|]. split; [exact H5|].
  split; [exact flask_record_goes_through|].
  exact (last_stored_record_is_served ticking isoformat_stub str_stub
           [update_fails; insert_fails] (tracks (janes_iphone 0))
           flask_record 300 "secret" asks_for_phone initial
           H1 H2 H3 H4 H5 eq_refl flask_record_goes_through H6 H7
           eq_refl eq_refl).
Defined.

(* ===================================================================== *)
(** ** Starting the application *)
(* ===================================================================== *)

(** The lines about the key are printed, and nothing else is done. *)
Lemma key_lines_effect (API_KEY : option string) (w : world) :
  exists out,
    AppStart.key_lines API_KEY w
    = (Ok tt,
       World (db w) (now_calls w) (date_calls w) (stdout w ++ out)
             (sounds w))
    /\ filter starts_thread out = [].
Proof.
  unfold AppStart.key_lines.
  destruct API_KEY as [key|]; [destruct (String.eqb key EmptyString)|];
    unfold bind, print; simpl; rewrite <- ?app_assoc; eexists;
    (split; [reflexivity|reflexivity]).
Qed.

Lemma first_of_model_find (Exception : exn_class) (model_name : string)
    (devices : list device) (w : world) :
  AppStart.first_of_model Exception devices model_name w
  = match find (of_model model_name) devices with
    | Some d =>
        (Ok d,
         World (db w) (now_calls w) (date_calls w)
               (stdout w ++ [Print "Found target device: name (model)"])
               (sounds w))
    | None =>
        (Raise (Exn Exception
                  ("Could not find device with model: " ++ model_name)), w)
    end.
Proof.
  induction devices as [|d devices IH]; simpl; [reflexivity|].
  unfold of_model at 1.
  destruct (value_eqb (get (data d) "deviceDisplayName") (VStr model_name));
    [reflexivity|exact IH].
Qed.

Lemma find_existsb {A : Type} (f : A -> bool) (l : list A) :
  existsb f l = true <-> exists x, find f l = Some x.
Proof.
  induction l as [|a l IH]; simpl.
  - split; [discriminate|intros [x H]; discriminate].
  - destruct (f a); simpl; [|exact IH].
    split; [intros _; now exists a|reflexivity].
Qed.

(** The run of [initialize_app], case by case: what it returns or
    raises, and what it has printed and started. *)
Lemma initialize_app_cases (Exception : exn_class)
    (API_KEY : option string) (e : AppStart.start_env) (w : world) :
  exists out,
    AppStart.initialize_app Exception API_KEY e w
    = (match AppStart.connecting e, AppStart.loading_session e,
             AppStart.api_devices e with
       | Some ex, _, _ => Raise ex
       | None, Some ex, _ => Raise ex
       | None, None, Raise ex => Raise ex
       | None, None, Ok devices =>
           match find (of_model "iPhone 16 Pro") devices with
           | Some d => Ok (AppStart.Started d true)
           | None =>
               Raise (Exn Exception
                        ("Could not find device with model: "
                         ++ "iPhone 16 Pro"))
           end
       end,
       World (db w) (now_calls w) (date_calls w) (stdout w ++ out)
             (sounds w))
    /\ List.length (filter starts_thread out)
       = match AppStart.connecting e, AppStart.loading_session e,
               AppStart.api_devices e with
         | None, None, Ok devices =>
             if existsb (of_model "iPhone 16 Pro") devices then 1 else 0
         | _, _, _ => 0
         end.
Proof.
  unfold AppStart.initialize_app.
  unfold bind at 1. unfold print at 1. cbv beta iota. unfold bind at 1.
  match goal with
  | |- context [AppStart.key_lines API_KEY ?w0] =>
      destruct (key_lines_effect API_KEY w0) as (out & Hk & Hnone)
  end.
  rewrite Hk. clear Hk. cbn [db now_calls date_calls stdout sounds].
  unfold AppStart.connect_to_mongodb, AppStart.load_icloud_session,
    AppStart.find_target_device.
  destruct e as [[ex|] [ex'|] [devices|ex'']]; cbn [AppStart.connecting
    AppStart.loading_session AppStart.api_devices];
    unfold bind, lift, print, ret; cbn [db now_calls date_calls stdout sounds];
    rewrite <- ?app_assoc;
    try (eexists; split; [reflexivity|]; rewrite !filter_app, Hnone;
         reflexivity).
  rewrite first_of_model_find.
  destruct (find (of_model "iPhone 16 Pro") devices) as [d|] eqn:F;
    cbn [db now_calls date_calls stdout sounds]; rewrite <- ?app_assoc.
  - assert (Hex : existsb (of_model "iPhone 16 Pro") devices = true)
      by (apply find_existsb; now exists d).
    rewrite Hex. eexists. split; [reflexivity|].
    rewrite !filter_app, Hnone. reflexivity.
  - assert (Hex : existsb (of_model "iPhone 16 Pro") devices = false).
    { destruct (existsb (of_model "iPhone 16 Pro") devices) eqn:X; auto.
      apply find_existsb in X. destruct X as [x X]. congruence. }
    rewrite Hex. eexists. split; [reflexivity|].
    rewrite !filter_app, Hnone. reflexivity.
Qed.

(** X12.  What the key changes at startup.  Whether [initialize_app]
    succeeds, the device it starts tracking and the exception it raises
    do not depend on the configured key, nor on there being one: the
    application starts without a key.  The key shows in the log only,
    and two keys of more than eight characters with the same first
    eight give the same log. *)
Theorem startup_shows_eight_characters_of_the_key :
  forall (Exception : exn_class) (e : AppStart.start_env) (w : world),
    (forall K1 K2 : option string,
       fst (AppStart.initialize_app Exception K1 e w)
       = fst (AppStart.initialize_app Exception K2 e w))
    /\ (forall key1 key2 : string,
          8 < String.length key1 -> 8 < String.length key2 ->
          String.substring 0 8 key1 = String.substring 0 8 key2 ->
          AppStart.initialize_app Exception (Some key1) e w
          = AppStart.initialize_app Exception (Some key2) e w).
Proof.
  intros Exception e w. split.
  - intros K1 K2.
    destruct (initialize_app_cases Exception K1 e w) as (out1 & -> & _).
    destruct (initialize_app_cases Exception K2 e w) as (out2 & -> & _).
    reflexivity.
  - intros key1 key2 H1 H2 Hsub.
    assert (E : AppStart.key_lines (Some key1)
                = AppStart.key_lines (Some key2)).
    { unfold AppStart.key_lines, AppStart.key_line.
      destruct key1 as [|c1 k1]; [simpl in H1; lia|].
      destruct key2 as [|c2 k2]; [simpl in H2; lia|].
      cbn [String.eqb].
      apply Nat.ltb_lt in H1, H2. rewrite H1, H2, Hsub.
      reflexivity. }
    unfold AppStart.initialize_app. rewrite E. reflexivity.
Qed.

(** X13.  The application starts exactly when nothing raises while it
    connects and loads the session and the provider lists a device of
    the model "iPhone 16 Pro".  It then sets [tracking_active], starts
    the thread of [track_location] once, and its target is the first
    device of that model.  Otherwise [initialize_app] raises what the
    first failing step raised, and no thread has been started. *)
Theorem application_starts_when_all_is_there :
  forall (Exception : exn_class) (API_KEY : option string)
         (e : AppStart.start_env) (w : world),
    exists out,
      stdout (snd (AppStart.initialize_app Exception API_KEY e w))
      = stdout w ++ out
      /\ (succeeded (fst (AppStart.initialize_app Exception API_KEY e w))
          = true
          <-> all_there "iPhone 16 Pro" e)
      /\ List.length (filter starts_thread out)
         = (if succeeded
                 (fst (AppStart.initialize_app Exception API_KEY e w))
            then 1 else 0)
      /\ (forall g,
            fst (AppStart.initialize_app Exception API_KEY e w) = Ok g ->
            AppStart.tracking_active g = true
            /\ exists devices,
                 AppStart.api_devices e = Ok devices
                 /\ find (of_model "iPhone 16 Pro") devices
                    = Some (AppStart.target_device g))
      /\ (forall ex,
            AppStart.connecting e = Some ex ->
            fst (AppStart.initialize_app Exception API_KEY e w) = Raise ex)
      /\ (forall ex,
            AppStart.connecting e = None ->
            AppStart.loading_session e = Some ex ->
            fst (AppStart.initialize_app Exception API_KEY e w) = Raise ex).
Proof.
  intros Exception API_KEY e w.
  destruct (initialize_app_cases Exception API_KEY e w) as (out & -> & T).
  exists out. unfold all_there. cbn [fst snd stdout].
  split; [reflexivity|].
  destruct (AppStart.connecting e) as [ex|];
    [|destruct (AppStart.loading_session e) as [ex|];
      [|destruct (AppStart.api_devices e) as [devices|ex]]].
  - split; [split; [discriminate|intros (H & _); discriminate]|].
    split; [exact T|].
    split; [discriminate|]. split; [now intros ? [= ->]|discriminate].
  - split; [split; [discriminate|intros (_ & H & _); discriminate]|].
    split; [exact T|].
    split; [discriminate|]. split; [discriminate|].
    now intros ? _ [= ->].
  - destruct (find (of_model "iPhone 16 Pro") devices) as [d|] eqn:F.
    + assert (Hex : existsb (of_model "iPhone 16 Pro") devices = true)
        by (apply find_existsb; now exists d).
      rewrite Hex in T. cbn [succeeded].
      split.
      { split; [|reflexivity]. intros _. split; [reflexivity|].
        split; [reflexivity|]. exists devices. now split. }
      split; [exact T|]. split.
      { intros g [= <-]. split; [reflexivity|]. exists devices.
        now split. }
      split; discriminate.
    + assert (Hex : existsb (of_model "iPhone 16 Pro") devices = false).
      { destruct (existsb (of_model "iPhone 16 Pro") devices) eqn:X; auto.
        apply find_existsb in X. destruct X as [x X]. congruence. }
      rewrite Hex in T. cbn [succeeded].
      split.
      { split; [discriminate|].
        intros (_ & _ & ds & [= <-] & H). congruence. }
      split; [exact T|]. split; [discriminate|]. split; discriminate.
  - cbn [succeeded]. split; [split; [discriminate|]|].
    + intros (_ & _ & ds & H & _). discriminate.
    + split; [exact T|]. split; [discriminate|]. split; discriminate.
Qed.

(* ===================================================================== *)
(** ** [export_to_json] of [icloud_track.py] *)
(* ===================================================================== *)

Lemma for_each_exports (devices : list device) :
  forall device_data : list dict,
    Forall status_ok devices ->
    IcloudTrack.for_each devices device_data
    = Ok (device_data ++ map exported devices).
Proof.
  induction devices as [|d devices IH]; intros acc H; simpl.
  - now rewrite app_nil_r.
  - inversion H as [|? ? [st Hst] Hrest]; subst.
    rewrite Hst, (IH _ Hrest), <- app_assoc. simpl.
    unfold exported, location_seen, status_seen. now rewrite Hst.
Qed.

Lemma for_each_raises (before after : list device) (d : device) (ex : exn) :
  forall device_data : list dict,
    Forall status_ok before -> status d = Raise ex ->
    IcloudTrack.for_each (before ++ d :: after) device_data = Raise ex.
Proof.
  induction before as [|x before IH]; intros acc H Hd; simpl.
  - now rewrite Hd.
  - inversion H as [|? ? [st Hst] Hrest]; subst.
    rewrite Hst. now apply IH.
Qed.

(** X14.  [export_to_json] asks every device for its status before it
    opens the file.  When a [status()] raises, the exception leaves the
    function with nothing opened, written or printed, whatever the
    devices before it gave; so does the exception of [open].  Once the
    file is opened it has been emptied: when the encoder accepts every
    value and the file system every write, [json.dump] is handed one
    entry per device, in the order of the provider, and the closing
    line is printed; otherwise the exception leaves the function, the
    file holds a part of the text and the closing line is not printed.
    An entry has a [location] exactly when the device gave a location
    that is not empty, an error of the location lookup being taken as
    no location. *)
Theorem export_opens_the_file_last :
  forall (fs : IcloudTrack.file_env) (devices : list device)
         (filename : string) (w : world),
    (forall before d after ex,
       devices = before ++ d :: after ->
       Forall status_ok before -> status d = Raise ex ->
       IcloudTrack.export_to_json fs devices filename w = (Raise ex, w))
    /\ (forall ex,
          Forall status_ok devices ->
          IcloudTrack.open_raises fs = Some ex ->
          IcloudTrack.export_to_json fs devices filename w = (Raise ex, w))
    /\ (Forall status_ok devices ->
        IcloudTrack.open_raises fs = None ->
        IcloudTrack.refused (dumped devices) = None ->
        IcloudTrack.write_raises fs = None ->
        IcloudTrack.export_to_json fs devices filename w
        = (Ok tt,
           World (db w) (now_calls w) (date_calls w)
                 (stdout w
                  ++ [FileOpened filename;
                      FileDumped filename (dumped devices); exported_line])
                 (sounds w)))
    /\ (Forall status_ok devices ->
        IcloudTrack.open_raises fs = None ->
        IcloudTrack.refused (dumped devices) <> None
        \/ IcloudTrack.write_raises fs <> None ->
        exists ex,
          IcloudTrack.export_to_json fs devices filename w
          = (Raise ex,
             World (db w) (now_calls w) (date_calls w)
                   (stdout w
                    ++ [FileOpened filename; FileDumpedInPart filename])
                   (sounds w)))
    /\ (forall d, In d devices ->
          (dict_get "location" (exported d) <> None <-> located d)).
Proof.
  intros fs devices filename w. unfold IcloudTrack.export_to_json.
  split; [|split; [|split; [|split]]].
  - intros before d after ex -> Hb Hd. unfold bind, lift.
    now rewrite (for_each_raises before after d ex [] Hb Hd).
  - intros ex H Ho. unfold bind, lift.
    rewrite (for_each_exports devices [] H), Ho. reflexivity.
  - intros H Ho Hr Hw. unfold bind at 1. unfold lift at 1.
    rewrite (for_each_exports devices [] H), Ho. cbn [app].
    unfold IcloudTrack.json_dump. fold (dumped devices). rewrite Hr, Hw.
    unfold bind, print. cbn [db now_calls date_calls stdout sounds].
    rewrite <- !app_assoc. reflexivity.
  - intros H Ho Hbad. unfold bind at 1. unfold lift at 1.
    rewrite (for_each_exports devices [] H), Ho. cbn [app].
    unfold IcloudTrack.json_dump. fold (dumped devices).
    destruct (IcloudTrack.refused (dumped devices)) as [t|];
      [|destruct (IcloudTrack.write_raises fs) as [ex|];
        [|exfalso; destruct Hbad as [Hbad|Hbad]; now apply Hbad]];
      unfold bind, print, lift;
      cbn [db now_calls date_calls stdout sounds];
      rewrite <- !app_assoc; eexists; reflexivity.
  - intros d _. unfold exported, located, location_seen,
      IcloudTrack.with_location.
    destruct (location d) as [[[|p loc]|]|ex]; simpl; split;
      try (intros H; now elim H);
      try (intros (p' & loc' & H); discriminate);
      try discriminate.
    intros _. now exists p, loc.
Qed.

(* ===================================================================== *)
(** ** Startup and export at concrete inputs *)
(* ===================================================================== *)

(** Two keys that share their first eight characters. *)
Lemma startup_shows_eight_characters_of_the_key_witness :
  8 < String.length "k3y-0001-alpha"
  /\ 8 < String.length "k3y-0001-omega-long"
  /\ AppStart.initialize_app ProviderError (Some "k3y-0001-alpha")
       good_start initial
     = AppStart.initialize_app ProviderError (Some "k3y-0001-omega-long")
         good_start initial
  /\ fst (AppStart.initialize_app ProviderError None good_start initial)
     = fst (AppStart.initialize_app ProviderError (Some "k3y-0001-alpha")
              good_start initial).
Proof.
  assert (H1 : 8 < String.length "k3y-0001-alpha") by (simpl; lia).
  assert (H2 : 8 < String.length "k3y-0001-omega-long") by (simpl; lia).
  destruct (startup_shows_eight_characters_of_the_key ProviderError
              good_start initial) as [A B].
  split; [exact H1|]. split; [exact H2|]. split.
  - exact (B "k3y-0001-alpha" "k3y-0001-omega-long" H1 H2 eq_refl).
  - exact (A None (Some "k3y-0001-alpha")).
Defined.

Lemma good_start_all_there : all_there "iPhone 16 Pro" good_start.
Proof.
  split; [reflexivity|]. split; [reflexivity|].
  exists [a_macbook; janes_iphone 0]. split; [reflexivity|].
  vm_compute; reflexivity.
Defined.

(** With a laptop and the phone listed the application starts, without
    a key as well, and the thread is started once; with the laptop
    alone it raises and no thread is started. *)
Lemma application_starts_when_all_is_there_witness :
  all_there "iPhone 16 Pro" good_start
  /\ succeeded (fst (AppStart.initialize_app ProviderError None
                       good_start initial)) = true
  /\ List.length
       (filter starts_thread
          (stdout (snd (AppStart.initialize_app ProviderError None
                          good_start initial)))) = 1
  /\ List.length
       (filter starts_thread
          (stdout (snd (AppStart.initialize_app ProviderError None
                          no_phone initial)))) = 0.
Proof.
  split; [exact good_start_all_there|].
  destruct (application_starts_when_all_is_there ProviderError None
              good_start initial) as (out & O & H & T & _).
  destruct (application_starts_when_all_is_there ProviderError None
              no_phone initial) as (out' & O' & _ & T' & _).
  pose proof (proj2 H good_start_all_there) as S.
  rewrite S in T. rewrite O, O'. cbn [stdout initial app].
  split; [exact S|]. split; [exact T|]. exact T'.
Defined.

(** The tablet, whose location lookup raises, is exported without a
    location; the phone with one. *)
Lemma export_opens_the_file_last_witness :
  Forall status_ok [janes_iphone 0; offline_ipad]
  /\ IcloudTrack.refused (dumped [janes_iphone 0; offline_ipad]) = None
  /\ fst (IcloudTrack.export_to_json writable
            [janes_iphone 0; offline_ipad] "icloud_devices.json" initial)
     = Ok tt
  /\ stdout (snd (IcloudTrack.export_to_json writable
                    [janes_iphone 0; offline_ipad] "icloud_devices.json"
                    initial))
     = [FileOpened "icloud_devices.json";
        FileDumped "icloud_devices.json"
          (dumped [janes_iphone 0; offline_ipad]);
        exported_line]
  /\ located (janes_iphone 0)
  /\ dict_get "location" (exported (janes_iphone 0)) <> None.
Proof.
  assert (H1 : Forall status_ok [janes_iphone 0; offline_ipad]).
  { repeat constructor; eexists; reflexivity. }
  assert (H2 : located (janes_iphone 0)).
  { eexists. eexists. reflexivity. }
  assert (H3 : IcloudTrack.refused
                 (dumped [janes_iphone 0; offline_ipad]) = None)
    by (vm_compute; reflexivity).
  destruct (export_opens_the_file_last writable
              [janes_iphone 0; offline_ipad]
              "icloud_devices.json" initial) as (_ & _ & A & _ & C).
  split; [exact H1|]. split; [exact H3|].
  rewrite (A H1 eq_refl H3 eq_refl). cbn [fst snd stdout initial app].
  split; [reflexivity|]. split; [reflexivity|].
  split; [exact H2|].
  exact (proj2 (C (janes_iphone 0) (or_introl eq_refl)) H2).
Defined.
